(** * rf_docs_server: the documentation index pipeline and its query layer

    A shallow embedding of [RF-docs-MCP-server/rf_docs_server.py].

    Python values are modelled as follows.
    - [str] is a list of characters; a character is a code point below 256
      ([ascii]), which covers the delimiters every scanner of the program
      looks at.
    - Unbounded [int]s that only count are [nat]; the [max_results] argument,
      which Python also accepts negative, is [Z].
    - A [dict] is an association list with unique keys in insertion order
      ([pydict]): iteration order is observable in keyword lookup.
    - The cache directory is a record with one field per cache slot; the
      index artifacts hold the value that [json.dumps] serialises and
      [json.loads] gives back.
    - [json.loads] on library pages and [re.compile] on caller patterns are
      library code: they are the methods of the class [PyRuntime].
    - [urlopen] and [datetime.now] are oracles of the environment [Env]. *)

From Stdlib Require Import String Ascii List ZArith Lia Bool Arith.
From Stdlib Require Import Permutation Sorted.
From Stdlib Require Import Floats.
Import ListNotations.

Set Warnings "-register-all".

Definition lit (s : string) : list ascii := list_ascii_of_string s.
Coercion lit : string >-> list.
Arguments lit : simpl never.
Abbreviation str := (list ascii).

Open Scope string_scope.
Open Scope list_scope.
Open Scope nat_scope.

(** ** Python string primitives *)

Module Py.

Definition ascii_eqb (a b : ascii) : bool := Ascii.eqb a b.

Fixpoint str_eqb (a b : str) : bool :=
  match a, b with
  | [], [] => true
  | x :: a', y :: b' => ascii_eqb x y && str_eqb a' b'
  | _, _ => false
  end.

(** [str.isspace] on one character, also the class [\s] of [re] on [str]
    patterns: TAB..CR, FS..US, space, NEL and NBSP. *)
Definition is_space (c : ascii) : bool :=
  let n := nat_of_ascii c in
  ((9 <=? n) && (n <=? 13)) || ((28 <=? n) && (n <=? 32))
  || (n =? 133) || (n =? 160).

Fixpoint lstrip (s : str) : str :=
  match s with
  | c :: s' => if is_space c then lstrip s' else s
  | [] => []
  end.

Definition rstrip (s : str) : str := rev (lstrip (rev s)).

(** [s.strip()] *)
Definition strip (s : str) : str := rstrip (lstrip s).

(** [str.lower] on one character: A..Z and the upper-case letters of the
    Latin-1 block (all of 192..222 but the multiplication sign 215). *)
Definition lower_char (c : ascii) : ascii :=
  let n := nat_of_ascii c in
  if ((65 <=? n) && (n <=? 90))
     || ((192 <=? n) && (n <=? 222) && negb (n =? 215))
  then ascii_of_nat (n + 32) else c.

(** [s.lower()] *)
Definition lower (s : str) : str := map lower_char s.

(** [s.replace(old, new)] for a one-character [old]. *)
Definition replace (old : ascii) (new : str) (s : str) : str :=
  flat_map (fun c => if ascii_eqb c old then new else [c]) s.

(** [sep.join(parts)] *)
Fixpoint join (sep : str) (parts : list str) : str :=
  match parts with
  | [] => []
  | [p] => p
  | p :: ps => p ++ sep ++ join sep ps
  end.

(** [s.startswith(p)] *)
Fixpoint startswith (p s : str) : bool :=
  match p, s with
  | [], _ => true
  | x :: p', y :: s' => ascii_eqb x y && startswith p' s'
  | _ :: _, [] => false
  end.

(** [s.count(sub)]: the number of non-overlapping occurrences of [sub],
    found left to right; after a match the scan resumes behind it ([skip]
    characters are passed over), and the empty [sub] matches once at every
    position, the end included. *)
Fixpoint count_from (sub s : str) (skip : nat) : nat :=
  match skip with
  | S k => match s with
           | [] => 0
           | _ :: s' => count_from sub s' k
           end
  | O =>
      if startswith sub s then
        match s with
        | [] => 1
        | _ :: s' => S (count_from sub s' (length sub - 1))
        end
      else
        match s with
        | [] => 0
        | _ :: s' => count_from sub s' 0
        end
  end.

Definition count (s sub : str) : nat := count_from sub s 0.

(** [l[:n]] for a Python [int] [n]: a negative [n] counts from the end. *)
Definition slice_to {A} (n : Z) (l : list A) : list A :=
  if (0 <=? n)%Z then firstn (Z.to_nat n) l
  else firstn (length l - Z.to_nat (- n)) l.

(** [l.sort(key=key, reverse=True)]: the sort is stable, and stays so under
    [reverse]; insertion from the right puts an element before the first
    element whose key is not larger. *)
Fixpoint insert_desc {A} (key : A -> nat) (x : A) (l : list A) : list A :=
  match l with
  | [] => [x]
  | y :: l' => if key x <? key y then y :: insert_desc key x l'
               else x :: y :: l'
  end.

Fixpoint sort_desc {A} (key : A -> nat) (l : list A) : list A :=
  match l with
  | [] => []
  | x :: l' => insert_desc key x (sort_desc key l')
  end.

(** The order [sort_desc] establishes: keys do not increase. *)
Definition desc_by {A} (key : A -> nat) (a b : A) : Prop := key b <= key a.

(** Code-point order on [str], as [<] and [sorted] use it. *)
Fixpoint str_ltb (a b : str) : bool :=
  match a, b with
  | [], [] => false
  | [], _ :: _ => true
  | _ :: _, [] => false
  | x :: a', y :: b' =>
      if nat_of_ascii x <? nat_of_ascii y then true
      else if nat_of_ascii y <? nat_of_ascii x then false
      else str_ltb a' b'
  end.

(** ** [dict]: insertion-ordered, keys unique *)

Definition pydict (V : Type) := list (str * V).

Fixpoint dict_get {V} (d : pydict V) (k : str) : option V :=
  match d with
  | [] => None
  | (k', v) :: d' => if str_eqb k' k then Some v else dict_get d' k
  end.

(** [d[k] = v]: an existing key keeps its place, a new one goes last. *)
Fixpoint dict_set {V} (d : pydict V) (k : str) (v : V) : pydict V :=
  match d with
  | [] => [(k, v)]
  | (k', v') :: d' =>
      if str_eqb k' k then (k', v) :: d' else (k', v') :: dict_set d' k v
  end.

Definition dict_keys {V} (d : pydict V) : list str := map fst d.

Definition dict_mem {V} (d : pydict V) (k : str) : bool :=
  match dict_get d k with Some _ => true | None => false end.

(** [sorted(d.items())]: keys are unique, so only keys are compared. *)
Fixpoint insert_item {V} (x : str * V) (l : list (str * V)) :=
  match l with
  | [] => [x]
  | y :: l' => if str_ltb (fst y) (fst x) then y :: insert_item x l'
               else x :: y :: l'
  end.

Definition sorted_items {V} (d : pydict V) : list (str * V) :=
  fold_right insert_item [] d.

End Py.

(** ** Decoded JSON and the library functions the program calls *)

(** A value as [json.loads] returns it: [None], [bool], [int], [float],
    [str], [list], [dict]. *)
Inductive json : Type :=
| JNull
| JBool (b : bool)
| JInt (z : Z)
| JFloat (f : float)
| JStr (s : str)
| JList (l : list json)
| JDict (d : list (str * json)).

(** Python truth value, as [if not name] and [if arg_repr] test it. *)
Definition truthy (j : json) : bool :=
  match j with
  | JNull => false
  | JBool b => b
  | JInt z => negb (z =? 0)%Z
  | JFloat f => negb (PrimFloat.eqb f PrimFloat.zero)
  | JStr s => match s with [] => false | _ => true end
  | JList l => match l with [] => false | _ => true end
  | JDict d => match d with [] => false | _ => true end
  end.

(** [for x in j]: a list yields its items, a dict its keys, a string its
    characters; anything else raises [TypeError] ([None]). *)
Definition py_iter (j : json) : option (list json) :=
  match j with
  | JList l => Some l
  | JDict d => Some (map (fun kv => JStr (fst kv)) d)
  | JStr s => Some (map (fun c => JStr [c]) s)
  | _ => None
  end.

(** [j.get(k, default)]: only a dict has [get]; [None] is the
    [AttributeError] of the other types. *)
Definition py_get (j : json) (k : str) (default : json) : option json :=
  match j with
  | JDict d => Some (match Py.dict_get d k with
                     | Some v => v
                     | None => default
                     end)
  | _ => None
  end.

(** The library functions that are not code of this program:
    [json.loads], which returns the decoded value or the message of its
    [JSONDecodeError]; [re.compile(p, re.IGNORECASE)], which returns the
    [search] predicate of the compiled pattern or [None] on [re.error]; and
    the tokenizer of [html.parser], which turns a document into the calls
    [HTMLParser.feed] makes, or gives the message of the exception that
    reading and feeding the document raises (declared with the parser
    below). *)

(** ** Constants *)

Definition RF_VERSION : str := "7.4.1".
Definition RF_DOCS_URL : str :=
  "https://robotframework.org/robotframework/" ++ RF_VERSION
  ++ "/RobotFrameworkUserGuide.html".
Definition RF_BASE_LIB_URL : str :=
  "https://robotframework.org/robotframework/" ++ RF_VERSION ++ "/libraries".

Definition STANDARD_LIBRARIES : list str :=
  [ lit "BuiltIn"; lit "Collections"; lit "DateTime"; lit "OperatingSystem";
    lit "Process"; lit "Screenshot"; lit "String"; lit "Telnet"; lit "XML" ].

(** ** Data model *)

(** A section dict [{'id', 'level', 'title', 'content'}]. The id is what
    [attrs_dict.get('id', '')] gave: [None] for an [id] attribute without a
    value. *)
Record Section : Type := {
  sec_id : option str;
  sec_level : nat;
  sec_title : str;
  sec_content : str
}.

Definition timestamp := str.

(** The dict written to [INDEX_FILE]. *)
Record SectionIndex : Type := {
  si_version : str;
  si_parsed_at : timestamp;
  si_total_sections : nat;
  si_sections : list Section
}.

(** One value of a library's [keywords] dict. *)
Record KeywordRecord : Type := {
  kw_name : str;
  kw_id : str;
  kw_args : str;
  kw_doc : str;
  kw_library : str;
  kw_source : json;
  kw_lineno : json
}.

(** The dict written to [KEYWORDS_INDEX]. *)
Record KeywordIndex : Type := {
  ki_version : str;
  ki_parsed_at : timestamp;
  ki_total_libraries : nat;
  ki_total_keywords : nat;
  ki_libraries : Py.pydict (Py.pydict KeywordRecord)
}.

(** ** [DocumentationParser] *)

(** The callbacks [HTMLParser.feed] makes, in document order; tag and
    attribute names arrive lower-cased. *)
Inductive html_event : Type :=
| StartTag (tag : str) (attrs : list (str * option str))
| EndTag (tag : str)
| Data (data : str).

Class PyRuntime : Type := {
  json_loads : str -> json + str;
  re_compile_ignorecase : str -> option (str -> bool);
  html_events : str -> list html_event + str
}.

Module DocumentationParser.

Record t : Type := {
  sections : list Section;
  current_section : option Section;
  current_content : list str;
  in_section : bool;
  section_level : nat
}.

(** [__init__] *)
Definition init : t :=
  {| sections := []; current_section := None; current_content := [];
     in_section := false; section_level := 0 |}.

(** [tag in ['h1', 'h2', 'h3', 'h4']], with [int(tag[1])] when it is. *)
Definition heading_level (tag : str) : option nat :=
  if Py.str_eqb tag "h1" then Some 1
  else if Py.str_eqb tag "h2" then Some 2
  else if Py.str_eqb tag "h3" then Some 3
  else if Py.str_eqb tag "h4" then Some 4
  else None.

(** [dict(attrs)] *)
Definition attrs_dict (attrs : list (str * option str))
  : Py.pydict (option str) :=
  fold_left (fun d kv => Py.dict_set d (fst kv) (snd kv)) attrs [].

(** [self.current_section['content'] = ' '.join(...).strip()] followed by
    [self.sections.append(self.current_section)], when a section is open. *)
Definition close_section (p : t) : list Section :=
  match current_section p with
  | Some s =>
      sections p ++
      [ {| sec_id := sec_id s; sec_level := sec_level s;
           sec_title := sec_title s;
           sec_content := Py.strip (Py.join " " (current_content p)) |} ]
  | None => sections p
  end.

Definition handle_starttag (p : t) (tag : str)
    (attrs : list (str * option str)) : t :=
  match heading_level tag with
  | Some lvl =>
      let section_id :=
        match Py.dict_get (attrs_dict attrs) "id" with
        | Some v => v
        | None => Some []
        end in
      {| sections := close_section p;
         current_section :=
           Some {| sec_id := section_id; sec_level := lvl;
                   sec_title := []; sec_content := [] |};
         current_content := [];
         in_section := true;
         section_level := lvl |}
  | None => p
  end.

Definition handle_endtag (p : t) (tag : str) : t :=
  match heading_level tag with
  | Some _ =>
      {| sections := sections p; current_section := current_section p;
         current_content := current_content p; in_section := false;
         section_level := section_level p |}
  | None => p
  end.

Definition handle_data (p : t) (data : str) : t :=
  match current_section p with
  | Some s =>
      if in_section p then
        {| sections := sections p;
           current_section :=
             Some {| sec_id := sec_id s; sec_level := sec_level s;
                     sec_title := Py.strip data;
                     sec_content := sec_content s |};
           current_content := current_content p;
           in_section := in_section p;
           section_level := section_level p |}
      else
        let text := Py.strip data in
        match text with
        | [] => p
        | _ =>
            {| sections := sections p; current_section := current_section p;
               current_content := current_content p ++ [text];
               in_section := in_section p;
               section_level := section_level p |}
        end
  | None => p
  end.

Definition handle (p : t) (e : html_event) : t :=
  match e with
  | StartTag tag attrs => handle_starttag p tag attrs
  | EndTag tag => handle_endtag p tag
  | Data data => handle_data p data
  end.

(** [parser.feed(html_content)], on the events of the document. *)
Definition feed (p : t) (events : list html_event) : t :=
  fold_left handle events p.

(** [get_sections] *)
Definition get_sections (p : t) : list Section := close_section p.

End DocumentationParser.

(** ** The embedded-JSON extractor of [_parse_library_keywords] *)

Module Extractor.

(** Number of leading characters of class [\s]. *)
Fixpoint spaces (s : str) : nat :=
  match s with
  | c :: s' => if Py.is_space c then S (spaces s') else 0
  | [] => 0
  end.

(** The pattern [libdoc\s*=\s*\{] tried at the head of [s]: the length of
    the match. Neither [=] nor [{] is of class [\s], so each greedy [\s*]
    takes the whole run of spaces and nothing is gained by giving back. *)
Definition match_libdoc (s : str) : option nat :=
  if Py.startswith "libdoc" s then
    let s1 := skipn 6 s in
    let n1 := spaces s1 in
    match skipn n1 s1 with
    | c :: s2 =>
        if Py.ascii_eqb c "=" then
          let n2 := spaces s2 in
          match skipn n2 s2 with
          | c' :: _ =>
              if Py.ascii_eqb c' "{" then Some (6 + n1 + 1 + n2 + 1)
              else None
          | [] => None
          end
        else None
    | [] => None
    end
  else None.

(** [re.search(r'libdoc\s*=\s*\{', html_content)]: the leftmost match, as
    [(start_match.start(), start_match.end())]; [s] is the text from
    position [i] on. *)
Fixpoint search_libdoc (s : str) (i : nat) : option (nat * nat) :=
  match match_libdoc s with
  | Some n => Some (i, i + n)
  | None =>
      match s with
      | [] => None
      | _ :: s' => search_libdoc s' (S i)
      end
  end.

(** The loop [for i in range(start_pos, len(html_content))]; [s] is the text
    from position [i] on. [Some end_pos] is the [break], with
    [end_pos = i + 1]; [None] is the [else] branch of the loop. *)
Fixpoint scan (s : str) (i : nat) (depth : Z) (in_string escape : bool)
  : option nat :=
  match s with
  | [] => None
  | char :: s' =>
      if escape then scan s' (S i) depth in_string false
      else if Py.ascii_eqb char "\" then scan s' (S i) depth in_string true
      else if Py.ascii_eqb char "034" then
        scan s' (S i) depth (negb in_string) escape
      else if negb in_string then
        if Py.ascii_eqb char "{" then
          scan s' (S i) (depth + 1)%Z in_string escape
        else if Py.ascii_eqb char "}" then
          if (depth - 1 =? 0)%Z then Some (i + 1)
          else scan s' (S i) (depth - 1)%Z in_string escape
        else scan s' (S i) depth in_string escape
      else scan s' (S i) depth in_string escape
  end.

(** [html_content[start:stop]] for [start <= stop]. *)
Definition substring (start stop : nat) (s : str) : str :=
  firstn (stop - start) (skipn start s).

Inductive extract_result : Type :=
| NoLibdoc                     (* "Could not find libdoc in HTML" *)
| NoEnd                        (* "Could not find end of libdoc JSON" *)
| Extracted (libdoc_json : str).

(** From [start_match = re.search(...)] to the end of the loop. *)
Definition extract (html_content : str) : extract_result :=
  match search_libdoc html_content 0 with
  | None => NoLibdoc
  | Some (_, match_end) =>
      let start_pos := match_end - 1 in
      match scan (skipn start_pos html_content) start_pos 0%Z false false with
      | Some end_pos => Extracted (substring start_pos end_pos html_content)
      | None => NoEnd
      end
  end.

End Extractor.

(** ** The keyword normalizer of [_parse_library_keywords] *)

Module Normalizer.

(** Index of the first [c] in [s]. *)
Fixpoint find_char (c : ascii) (s : str) : option nat :=
  match s with
  | [] => None
  | x :: s' => if Py.ascii_eqb x c then Some 0
               else option_map S (find_char c s')
  end.

(** [re.sub(r'<[^>]+>', '', doc)]. A match starts at a [<] whose next [>]
    is at least one character further; the matched text is dropped ([skip]
    counts what is left of it) and the search resumes behind it. *)
Fixpoint strip_tags_from (s : str) (skip : nat) : str :=
  match s with
  | [] => []
  | c :: s' =>
      match skip with
      | S k => strip_tags_from s' k
      | O =>
          if Py.ascii_eqb c "<" then
            match find_char ">" s' with
            | Some (S j) => strip_tags_from s' (S (S j))
            | _ => c :: strip_tags_from s' 0
            end
          else c :: strip_tags_from s' 0
      end
  end.

Definition strip_tags (doc : str) : str := strip_tags_from doc 0.

(** Length of the longest prefix without the character [c]. *)
Fixpoint span_without (c : ascii) (s : str) : nat :=
  match s with
  | x :: s' => if Py.ascii_eqb x c then 0 else S (span_without c s')
  | [] => 0
  end.

(** [re.sub(r'``([^`]+)``', r'\1', doc)]. A match is two backticks, a
    non-empty run without backticks and two backticks; of a match the first
    [drop1] characters are dropped, the next [keep] kept and the last
    [drop2] dropped. *)
Fixpoint unwrap_code_from (s : str) (drop1 keep drop2 : nat) : str :=
  match s with
  | [] => []
  | c :: s' =>
      match drop1, keep, drop2 with
      | S d, _, _ => unwrap_code_from s' d keep drop2
      | O, S k, _ => c :: unwrap_code_from s' 0 k drop2
      | O, O, S d => unwrap_code_from s' 0 0 d
      | O, O, O =>
          if Py.startswith "``" s then
            let inner := span_without "`" (skipn 1 s') in
            if (0 <? inner) && Py.startswith "``" (skipn (1 + inner) s')
            then unwrap_code_from s' 1 inner 2
            else c :: unwrap_code_from s' 0 0 0
          else c :: unwrap_code_from s' 0 0 0
      end
  end.

Definition unwrap_code (doc : str) : str := unwrap_code_from doc 0 0 0.

(** The inner loop over [kw_data.get("args", [])]: the truthy [repr]
    values, in order. [None] is an exception ([arg] without [get]). *)
Fixpoint args_parts (args : list json) : option (list json) :=
  match args with
  | [] => Some []
  | arg :: rest =>
      match py_get arg "repr" (JStr []) with
      | None => None
      | Some arg_repr =>
          match args_parts rest with
          | None => None
          | Some parts =>
              Some (if truthy arg_repr then arg_repr :: parts else parts)
          end
      end
  end.

(** [", ".join(args_parts)]: every part has to be a [str]. *)
Fixpoint strs_of (parts : list json) : option (list str) :=
  match parts with
  | [] => Some []
  | JStr s :: rest => option_map (cons s) (strs_of rest)
  | _ :: _ => None
  end.

Inductive step_result : Type :=
| Skip                          (* [continue] *)
| Raise                         (* an exception leaves the loop *)
| Store (name : str) (record : KeywordRecord).

(** The body of [for kw_data in libdoc_data.get("keywords", [])]. *)
Definition normalize_one (library_name : str) (kw_data : json)
  : step_result :=
  match py_get kw_data "name" (JStr []) with
  | None => Raise
  | Some name =>
      if negb (truthy name) then Skip
      else
        match py_get kw_data "args" (JList []) with
        | None => Raise
        | Some args =>
            match py_iter args with
            | None => Raise
            | Some arg_list =>
                match args_parts arg_list with
                | None => Raise
                | Some parts =>
                    match strs_of parts with
                    | None => Raise
                    | Some reprs =>
                        let args_str := Py.join ", " reprs in
                        match py_get kw_data "shortdoc" (JStr []) with
                        | Some (JStr shortdoc) =>
                            let doc := unwrap_code (strip_tags shortdoc) in
                            match name, py_get kw_data "source" (JStr []),
                                  py_get kw_data "lineno" (JStr []) with
                            | JStr n, Some source, Some lineno =>
                                Store n
                                  {| kw_name := n;
                                     kw_id := Py.replace " " "%20" n;
                                     kw_args := args_str;
                                     kw_doc := doc;
                                     kw_library := library_name;
                                     kw_source := source;
                                     kw_lineno := lineno |}
                            | _, _, _ => Raise
                            end
                        | _ => Raise
                        end
                    end
                end
            end
        end
  end.

(** The loop, with the [keywords] dict it fills; [None] when an exception
    ends it. *)
Fixpoint normalize_loop (library_name : str) (records : list json)
    (keywords : Py.pydict KeywordRecord)
  : option (Py.pydict KeywordRecord) :=
  match records with
  | [] => Some keywords
  | kw_data :: rest =>
      match normalize_one library_name kw_data with
      | Skip => normalize_loop library_name rest keywords
      | Raise => None
      | Store name record =>
          normalize_loop library_name rest (Py.dict_set keywords name record)
      end
  end.

(** From [keywords = {}] to the end of the loop, on the decoded
    [libdoc_data]. *)
Definition normalize (library_name : str) (libdoc_data : json)
  : option (Py.pydict KeywordRecord) :=
  match py_get libdoc_data "keywords" (JList []) with
  | None => None
  | Some kws =>
      match py_iter kws with
      | None => None
      | Some records => normalize_loop library_name records []
      end
  end.

End Normalizer.

(** ** The cache directory, the network and the clock *)

(** One field per file under [CACHE_DIR]. A page slot holds the text that
    [read_text] returns; an index slot holds the dict that was dumped into
    it. The library pages are keyed by library name: the file name
    [<library>_<version>.html] is injective in it and differs from the
    three other names. *)
Record FS : Type := {
  docs_file : option str;                      (* DOCS_FILE *)
  index_file : option SectionIndex;            (* INDEX_FILE *)
  keywords_index : option KeywordIndex;        (* KEYWORDS_INDEX *)
  library_files : Py.pydict str
}.

Inductive http_response : Type :=
| Body (content : str)
| HTTPError (code : nat) (reason : str)
| URLError (reason : str)
| OtherError (message : str).

(** What a run cannot decide by itself: the answer of [urlopen] for a URL,
    the successive readings of [datetime.now().isoformat()] and the value
    of [CACHE_DIR]. *)
Record Env : Type := {
  urlopen : str -> http_response;
  now : nat -> timestamp;
  cache_dir : str
}.

(** The state a call runs in: the files, the URLs requested so far and the
    number of clock readings so far. *)
Record World : Type := {
  fs : FS;
  requests : list str;
  clock : nat
}.

Definition M (A : Type) : Type := World -> A * World.

Definition ret {A} (a : A) : M A := fun w => (a, w).

Definition bind {A B} (c : M A) (k : A -> M B) : M B :=
  fun w => let (a, w') := c w in k a w'.

Notation "x <- c ;; k" := (bind c (fun x => k))
  (at level 61, c at next level, right associativity).
Notation "c ;;; k" := (bind c (fun _ => k))
  (at level 61, right associativity).

Definition get_fs : M FS := fun w => (fs w, w).

Definition put_fs (f : FS) : M unit :=
  fun w => (tt, {| fs := f; requests := requests w; clock := clock w |}).

Definition modify_fs (g : FS -> FS) : M unit :=
  fun w => (tt, {| fs := g (fs w); requests := requests w;
                   clock := clock w |}).

(** One request to the network. *)
Definition http_get (env : Env) (url : str) : M http_response :=
  fun w => (urlopen env url,
            {| fs := fs w; requests := requests w ++ [url];
               clock := clock w |}).

(** [datetime.now().isoformat()] *)
Definition datetime_now (env : Env) : M timestamp :=
  fun w => (now env (clock w),
            {| fs := fs w; requests := requests w; clock := S (clock w) |}).

Inductive slot : Type :=
| DocsSlot
| LibrarySlot (library_name : str).

Definition slot_path (env : Env) (s : slot) : str :=
  match s with
  | DocsSlot =>
      cache_dir env ++ "/RobotFrameworkUserGuide_" ++ RF_VERSION ++ ".html"
  | LibrarySlot n => cache_dir env ++ "/" ++ n ++ "_" ++ RF_VERSION ++ ".html"
  end.

Definition INDEX_FILE (env : Env) : str :=
  cache_dir env ++ "/docs_index_" ++ RF_VERSION ++ ".json".
Definition KEYWORDS_INDEX (env : Env) : str :=
  cache_dir env ++ "/all_keywords_" ++ RF_VERSION ++ ".json".

Definition read_slot (f : FS) (s : slot) : option str :=
  match s with
  | DocsSlot => docs_file f
  | LibrarySlot n => Py.dict_get (library_files f) n
  end.

Definition write_slot (s : slot) (content : str) (f : FS) : FS :=
  match s with
  | DocsSlot =>
      {| docs_file := Some content; index_file := index_file f;
         keywords_index := keywords_index f;
         library_files := library_files f |}
  | LibrarySlot n =>
      {| docs_file := docs_file f; index_file := index_file f;
         keywords_index := keywords_index f;
         library_files := Py.dict_set (library_files f) n content |}
  end.

Definition write_index_file (i : SectionIndex) (f : FS) : FS :=
  {| docs_file := docs_file f; index_file := Some i;
     keywords_index := keywords_index f; library_files := library_files f |}.

Definition write_keywords_index (i : KeywordIndex) (f : FS) : FS :=
  {| docs_file := docs_file f; index_file := index_file f;
     keywords_index := Some i; library_files := library_files f |}.

(** [path.exists()] *)
Definition slot_exists (f : FS) (s : slot) : bool :=
  match read_slot f s with Some _ => true | None => false end.

(** ** [_download_file] *)

Inductive download_error : Type :=
| DlHTTPError (code : nat) (reason : str)   (* "HTTP Error {code}: {reason}" *)
| DlURLError (reason : str)                 (* "URL Error: {reason}" *)
| DlOther (message : str).

Inductive download_result : Type :=
| Downloaded (path : str) (size_bytes : nat) (url : str)
| DownloadFailed (error : download_error) (url : str).

Definition download_success (r : download_result) : bool :=
  match r with Downloaded _ _ _ => true | DownloadFailed _ _ => false end.

Definition _download_file (env : Env) (url : str) (target : slot)
  : M download_result :=
  response <- http_get env url ;;
  match response with
  | Body content =>
      modify_fs (write_slot target content) ;;;
      ret (Downloaded (slot_path env target) (length content) url)
  | HTTPError code reason => ret (DownloadFailed (DlHTTPError code reason) url)
  | URLError reason => ret (DownloadFailed (DlURLError reason) url)
  | OtherError message => ret (DownloadFailed (DlOther message) url)
  end.

(** ** [_parse_documentation] *)

Inductive parse_doc_result : Type :=
| DocNotDownloaded
| DocParsed (sections_parsed : nat) (index_path : str)
| DocParseFailed (error : str).       (* "Parsing error: ..." *)

Definition _parse_documentation `{PyRuntime} (env : Env)
  : M parse_doc_result :=
  f <- get_fs ;;
  match docs_file f with
  | None => ret DocNotDownloaded
  | Some html_content =>
      match html_events html_content with
      | inr message => ret (DocParseFailed ("Parsing error: " ++ message))
      | inl events =>
          let parser :=
            DocumentationParser.feed DocumentationParser.init events in
          let sections := DocumentationParser.get_sections parser in
          parsed_at <- datetime_now env ;;
          let index := {| si_version := RF_VERSION;
                          si_parsed_at := parsed_at;
                          si_total_sections := length sections;
                          si_sections := sections |} in
          modify_fs (write_index_file index) ;;;
          ret (DocParsed (length sections) (INDEX_FILE env))
      end
  end.

(** ** [_parse_library_keywords] *)

Inductive parse_error : Type :=
| LibdocNotFound                 (* "Could not find libdoc in HTML" *)
| LibdocUnterminated             (* "Could not find end of libdoc JSON" *)
| JSONDecodeError (message : str)
| ParsingError.                  (* any other exception *)

Inductive keywords_result : Type :=
| KwNotDownloaded                (* the dict with the sole key "error" *)
| KwFailure (error : parse_error)
| KwSuccess (library : str) (keywords : Py.pydict KeywordRecord)
            (total_keywords : nat).

(** [keywords_result.get("success", False)] *)
Definition kr_success (r : keywords_result) : bool :=
  match r with KwSuccess _ _ _ => true | _ => false end.

(** [keywords_result.get("total_keywords", 0)] *)
Definition kr_total (r : keywords_result) : nat :=
  match r with KwSuccess _ _ n => n | _ => 0 end.

(** [keywords_result.get("keywords", {})] *)
Definition kr_keywords (r : keywords_result) : Py.pydict KeywordRecord :=
  match r with KwSuccess _ k _ => k | _ => [] end.

(** The [try] block, on the text of the page. *)
Definition parse_library_page `{PyRuntime} (library_name html_content : str)
  : keywords_result :=
  match Extractor.extract html_content with
  | Extractor.NoLibdoc => KwFailure LibdocNotFound
  | Extractor.NoEnd => KwFailure LibdocUnterminated
  | Extractor.Extracted libdoc_json =>
      match json_loads libdoc_json with
      | inr message => KwFailure (JSONDecodeError message)
      | inl libdoc_data =>
          match Normalizer.normalize library_name libdoc_data with
          | None => KwFailure ParsingError
          | Some keywords =>
              KwSuccess library_name keywords (length keywords)
          end
      end
  end.

Definition _parse_library_keywords `{PyRuntime} (library_name : str)
  : M keywords_result :=
  f <- get_fs ;;
  match read_slot f (LibrarySlot library_name) with
  | None => ret KwNotDownloaded
  | Some html_content => ret (parse_library_page library_name html_content)
  end.

(** ** [fetch_rf_documentation] *)

Inductive user_guide_result : Type :=
| UgFetched (result : download_result)
| UgCached (path : str).

Definition ug_success (r : user_guide_result) : bool :=
  match r with
  | UgFetched d => download_success d
  | UgCached _ => true
  end.

(** An entry of [results["libraries"]]. *)
Record LibraryReport : Type := {
  lr_success : bool;
  lr_total_keywords : nat
}.

(** [results["keywords_index"]] *)
Record KeywordsIndexReport : Type := {
  kir_path : str;
  kir_total_libraries : nat;
  kir_total_keywords : nat
}.

(** The dict [results]; a key that may be missing is an [option]. *)
Record FetchReport : Type := {
  fr_version : str;
  fr_cache_location : str;
  fr_files_downloaded : list str;
  fr_libraries : Py.pydict LibraryReport;
  fr_user_guide : user_guide_result;
  fr_indexing : option parse_doc_result;
  fr_keywords_index : option KeywordsIndexReport;
  fr_success : bool
}.

(** What the loop over [STANDARD_LIBRARIES] updates. *)
Record LoopState : Type := {
  ls_files_downloaded : list str;
  ls_libraries : Py.pydict LibraryReport;
  ls_all_keywords : Py.pydict (Py.pydict KeywordRecord);
  ls_total_keywords : nat
}.

(** The body of [for library_name in STANDARD_LIBRARIES]. *)
Definition fetch_library `{PyRuntime} (env : Env) (force_refresh : bool)
    (st : LoopState) (library_name : str) : M LoopState :=
  let library_file := LibrarySlot library_name in
  let library_url := RF_BASE_LIB_URL ++ "/" ++ library_name ++ ".html" in
  f <- get_fs ;;
  files_downloaded <-
    (if force_refresh || negb (slot_exists f library_file) then
       result <- _download_file env library_url library_file ;;
       ret (if download_success result
            then ls_files_downloaded st ++ [library_name ++ ".html"]
            else ls_files_downloaded st)
     else ret (ls_files_downloaded st)) ;;
  f' <- get_fs ;;
  if slot_exists f' library_file then
    keywords_result <- _parse_library_keywords library_name ;;
    let libraries :=
      Py.dict_set (ls_libraries st) library_name
        {| lr_success := kr_success keywords_result;
           lr_total_keywords := kr_total keywords_result |} in
    if kr_success keywords_result then
      ret {| ls_files_downloaded := files_downloaded;
             ls_libraries := libraries;
             ls_all_keywords :=
               Py.dict_set (ls_all_keywords st) library_name
                 (kr_keywords keywords_result);
             ls_total_keywords :=
               ls_total_keywords st + kr_total keywords_result |}
    else
      ret {| ls_files_downloaded := files_downloaded;
             ls_libraries := libraries;
             ls_all_keywords := ls_all_keywords st;
             ls_total_keywords := ls_total_keywords st |}
  else
    ret {| ls_files_downloaded := files_downloaded;
           ls_libraries := ls_libraries st;
           ls_all_keywords := ls_all_keywords st;
           ls_total_keywords := ls_total_keywords st |}.

Fixpoint fetch_libraries `{PyRuntime} (env : Env) (force_refresh : bool)
    (libraries : list str) (st : LoopState) : M LoopState :=
  match libraries with
  | [] => ret st
  | library_name :: rest =>
      st' <- fetch_library env force_refresh st library_name ;;
      fetch_libraries env force_refresh rest st'
  end.

(** The block [# Download User Guide]: [results["user_guide"]] and the
    first entry of [results["files_downloaded"]], if any. *)
Definition download_user_guide (env : Env) (force_refresh : bool)
  : M (user_guide_result * list str) :=
  f <- get_fs ;;
  if force_refresh || negb (slot_exists f DocsSlot) then
    result <- _download_file env RF_DOCS_URL DocsSlot ;;
    ret (UgFetched result,
         if download_success result
         then [lit "RobotFrameworkUserGuide.html"] else [])
  else ret (UgCached (slot_path env DocsSlot), []).

(** The block [# Parse and index User Guide documentation]:
    [results["indexing"]], when the key is set. *)
Definition index_user_guide `{PyRuntime} (env : Env)
  : M (option parse_doc_result) :=
  f <- get_fs ;;
  if slot_exists f DocsSlot then
    parse_result <- _parse_documentation env ;;
    ret (Some parse_result)
  else ret None.

(** The block [# Save combined keywords index]:
    [results["keywords_index"]], when the key is set. *)
Definition save_keywords_index (env : Env) (st : LoopState)
  : M (option KeywordsIndexReport) :=
  match ls_all_keywords st with
  | [] => ret None
  | _ :: _ =>
      parsed_at <- datetime_now env ;;
      modify_fs (write_keywords_index
        {| ki_version := RF_VERSION; ki_parsed_at := parsed_at;
           ki_total_libraries := length (ls_all_keywords st);
           ki_total_keywords := ls_total_keywords st;
           ki_libraries := ls_all_keywords st |}) ;;;
      ret (Some {| kir_path := KEYWORDS_INDEX env;
                   kir_total_libraries := length (ls_all_keywords st);
                   kir_total_keywords := ls_total_keywords st |})
  end.

Definition fetch_rf_documentation `{PyRuntime} (env : Env)
    (force_refresh : bool) : M FetchReport :=
  ug <- download_user_guide env force_refresh ;;
  indexing <- index_user_guide env ;;
  st <- fetch_libraries env force_refresh STANDARD_LIBRARIES
          {| ls_files_downloaded := snd ug; ls_libraries := [];
             ls_all_keywords := []; ls_total_keywords := 0 |} ;;
  keywords_index_report <- save_keywords_index env st ;;
  ret {| fr_version := RF_VERSION;
         fr_cache_location := cache_dir env;
         fr_files_downloaded := ls_files_downloaded st;
         fr_libraries := ls_libraries st;
         fr_user_guide := fst ug;
         fr_indexing := indexing;
         fr_keywords_index := keywords_index_report;
         fr_success := ug_success (fst ug) |}.

(** ** [search_rf_documentation] *)

Record SearchHit : Type := {
  hit_title : str;
  hit_id : option str;
  hit_level : nat;
  hit_relevance : nat;
  hit_content_preview : str;
  hit_url : str
}.

Inductive search_result : Type :=
| SearchIndexMissing             (* "Documentation index not found..." *)
| SearchOK (version query : str) (total_matches : nat)
           (results : list SearchHit).

(** [f"{x}"] of a section id. *)
Definition format_id (i : option str) : str :=
  match i with Some s => s | None => "None" end.

Definition title_matches (query_lower : str) (section : Section) : nat :=
  Py.count (Py.lower (sec_title section)) query_lower.

Definition content_matches (query_lower : str) (section : Section) : nat :=
  Py.count (Py.lower (sec_content section)) query_lower.

Definition relevance_of (query_lower : str) (section : Section) : nat :=
  title_matches query_lower section * 10 + content_matches query_lower section.

Definition hit_of (query_lower : str) (section : Section) : SearchHit :=
  {| hit_title := sec_title section;
     hit_id := sec_id section;
     hit_level := sec_level section;
     hit_relevance := relevance_of query_lower section;
     hit_content_preview := firstn 300 (sec_content section) ++ "...";
     hit_url := RF_DOCS_URL ++ "#" ++ format_id (sec_id section) |}.

(** The loop [for section in sections]. *)
Fixpoint collect_hits (query_lower : str) (sections : list Section)
  : list SearchHit :=
  match sections with
  | [] => []
  | section :: rest =>
      if (0 <? title_matches query_lower section)
         || (0 <? content_matches query_lower section)
      then hit_of query_lower section :: collect_hits query_lower rest
      else collect_hits query_lower rest
  end.

Definition search_rf_documentation (query : str) (max_results : Z)
  : M search_result :=
  f <- get_fs ;;
  match index_file f with
  | None => ret SearchIndexMissing
  | Some index_data =>
      let sections := si_sections index_data in
      let query_lower := Py.lower query in
      let results := collect_hits query_lower sections in
      let results := Py.sort_desc hit_relevance results in
      ret (SearchOK RF_VERSION query (length results)
             (Py.slice_to max_results results))
  end.

(** ** [get_library_keywords] and [get_all_keywords] *)

Record KeywordSummary : Type := {
  ks_name : str;
  ks_library : str;
  ks_args : str;
  ks_description : str
}.

Inductive library_keywords_result : Type :=
| LkUnknownLibrary (library_name : str) (available_libraries : list str)
| LkFetchFailed (library_name : str)
| LkParseFailed (keywords_result : keywords_result)
| LkInvalidPattern
| LkOK (version library : str) (total_keywords : nat)
       (keywords : list KeywordSummary).

(** [x in l] for a list of strings. *)
Definition str_in (x : str) (l : list str) : bool :=
  existsb (fun y => Py.str_eqb y x) l.

(** The summaries [for k, v in sorted(keywords.items())]. *)
Definition keyword_list (library_name : str)
    (keywords : Py.pydict KeywordRecord) : list KeywordSummary :=
  map (fun kv => {| ks_name := fst kv; ks_library := library_name;
                    ks_args := kw_args (snd kv);
                    ks_description := firstn 200 (kw_doc (snd kv)) |})
      (Py.sorted_items keywords).

(** [if x:] for an optional string argument: false for [None] and for the
    empty string. *)
Definition if_given (x : option str) : option str :=
  match x with
  | Some (c :: p) => Some (c :: p)
  | _ => None
  end.

Definition get_library_keywords `{PyRuntime} (env : Env)
    (library_name : str) (filter_pattern : option str)
  : M library_keywords_result :=
  if negb (str_in library_name STANDARD_LIBRARIES) then
    ret (LkUnknownLibrary library_name STANDARD_LIBRARIES)
  else
    f <- get_fs ;;
    fetched <-
      (if negb (slot_exists f (LibrarySlot library_name)) then
         fetch_result <- fetch_rf_documentation env false ;;
         ret (fr_success fetch_result)
       else ret true) ;;
    if negb fetched then ret (LkFetchFailed library_name)
    else
      keywords_result <- _parse_library_keywords library_name ;;
      match keywords_result with
      | KwSuccess _ keywords _ =>
          match if_given filter_pattern with
          | None => let l := keyword_list library_name keywords in
                    ret (LkOK RF_VERSION library_name (length l) l)
          | Some p =>
              match re_compile_ignorecase p with
              | None => ret LkInvalidPattern
              | Some search =>
                  let keywords :=
                    filter (fun kv => search (fst kv)) keywords in
                  let l := keyword_list library_name keywords in
                  ret (LkOK RF_VERSION library_name (length l) l)
              end
          end
      | _ => ret (LkParseFailed keywords_result)
      end.

Inductive all_keywords_result : Type :=
| AkFetchFailed
| AkReadFailed                   (* "Failed to read keywords index: ..." *)
| AkInvalidPattern
| AkOK (version : str) (total_keywords total_libraries : nat)
       (libraries : Py.pydict (list KeywordSummary)).

(** The loop that fills [filtered_libraries]. *)
Definition filter_libraries (search : str -> bool)
    (all_libraries : Py.pydict (Py.pydict KeywordRecord))
  : Py.pydict (Py.pydict KeywordRecord) :=
  fold_left
    (fun filtered_libraries lib =>
       match filter (fun kv => search (fst kv)) (snd lib) with
       | [] => filtered_libraries
       | filtered_kw => Py.dict_set filtered_libraries (fst lib) filtered_kw
       end)
    all_libraries [].

(** The loop that fills [result_libraries] and sums [total_keywords]. *)
Definition format_libraries
    (all_libraries : Py.pydict (Py.pydict KeywordRecord))
  : Py.pydict (list KeywordSummary) * nat :=
  fold_left
    (fun acc lib =>
       let l := keyword_list (fst lib) (snd lib) in
       (Py.dict_set (fst acc) (fst lib) l, snd acc + length l))
    all_libraries ([], 0).

Definition get_all_keywords `{PyRuntime} (env : Env)
    (filter_pattern : option str) : M all_keywords_result :=
  f <- get_fs ;;
  fetched <-
    (if negb (match keywords_index f with Some _ => true | None => false end)
     then fetch_result <- fetch_rf_documentation env false ;;
          ret (fr_success fetch_result)
     else ret true) ;;
  if negb fetched then ret AkFetchFailed
  else
    f' <- get_fs ;;
    match keywords_index f' with
    | None => ret AkReadFailed
    | Some index_data =>
        let all_libraries := ki_libraries index_data in
        let finish libs :=
          let r := format_libraries libs in
          ret (AkOK RF_VERSION (snd r) (length (fst r)) (fst r)) in
        match if_given filter_pattern with
        | None => finish all_libraries
        | Some p =>
            match re_compile_ignorecase p with
            | None => ret AkInvalidPattern
            | Some search => finish (filter_libraries search all_libraries)
            end
        end
    end.

(** ** [get_keyword_documentation] *)

Inductive keyword_doc_result : Type :=
| KdFetchFailed                  (* "Failed to fetch documentation" *)
| KdSearchFailed                 (* "Failed to search keyword: ..." *)
| KdLibraryNotFound (library_name : str) (available_libraries : list str)
| KdFound (version keyword library arguments documentation url : str)
| KdNotFound (version keyword : str).

(** [k.lower().replace("_", " ").replace("-", " ")] *)
Definition normalize_name (k : str) : str :=
  Py.replace "-" " " (Py.replace "_" " " (Py.lower k)).

(** The inner loop [for k, v in keywords.items()], up to its [return]. *)
Fixpoint find_keyword (keyword_name_lower : str)
    (keywords : Py.pydict KeywordRecord) : option (str * KeywordRecord) :=
  match keywords with
  | [] => None
  | (k, v) :: rest =>
      if Py.str_eqb (normalize_name k) keyword_name_lower then Some (k, v)
      else find_keyword keyword_name_lower rest
  end.

(** The outer loop [for lib_name, keywords in libraries_to_search.items()]. *)
Fixpoint find_in_libraries (keyword_name_lower : str)
    (libraries_to_search : Py.pydict (Py.pydict KeywordRecord))
  : option (str * (str * KeywordRecord)) :=
  match libraries_to_search with
  | [] => None
  | (lib_name, keywords) :: rest =>
      match find_keyword keyword_name_lower keywords with
      | Some kv => Some (lib_name, kv)
      | None => find_in_libraries keyword_name_lower rest
      end
  end.

(** The [try] block, on the decoded index. *)
Definition lookup_keyword (index_data : KeywordIndex) (keyword_name : str)
    (library_name : option str) : keyword_doc_result :=
  let all_libraries := ki_libraries index_data in
  let search libraries_to_search :=
    match find_in_libraries (normalize_name keyword_name)
            libraries_to_search with
    | Some (lib_name, (k, v)) =>
        let lib_url := RF_BASE_LIB_URL ++ "/" ++ lib_name ++ ".html" in
        KdFound RF_VERSION k lib_name (kw_args v) (kw_doc v)
          (lib_url ++ "#" ++ kw_id v)
    | None => KdNotFound RF_VERSION keyword_name
    end in
  match if_given library_name with
  | Some library_name =>
      match Py.dict_get all_libraries library_name with
      | None => KdLibraryNotFound library_name (Py.dict_keys all_libraries)
      | Some keywords => search [(library_name, keywords)]
      end
  | None => search all_libraries
  end.

Definition get_keyword_documentation `{PyRuntime} (env : Env)
    (keyword_name : str) (library_name : option str)
  : M keyword_doc_result :=
  f <- get_fs ;;
  fetched <-
    (if negb (match keywords_index f with Some _ => true | None => false end)
     then fetch_result <- fetch_rf_documentation env false ;;
          ret (fr_success fetch_result)
     else ret true) ;;
  if negb fetched then ret KdFetchFailed
  else
    f' <- get_fs ;;
    match keywords_index f' with
    | None => ret KdSearchFailed
    | Some index_data =>
        ret (lookup_keyword index_data keyword_name library_name)
    end.

(** ** [get_builtin_keywords] *)

Definition get_builtin_keywords `{PyRuntime} (env : Env)
    (filter_pattern : option str) : M library_keywords_result :=
  get_library_keywords env "BuiltIn" filter_pattern.

(** ** [check_keyword_availability] *)

Record AvailabilityReport : Type := {
  av_version : str;
  av_keyword_searched : str;
  av_available : bool;
  av_library : option str;
  av_keyword_actual_name : option str;
  av_message : str
}.

(** [result.get("available", False)] *)
Definition kd_available (result : keyword_doc_result) : bool :=
  match result with KdFound _ _ _ _ _ _ => true | _ => false end.

(** [result.get("library")] *)
Definition kd_library (result : keyword_doc_result) : option str :=
  match result with KdFound _ _ library _ _ _ => Some library | _ => None end.

(** [result.get("keyword")] *)
Definition kd_keyword (result : keyword_doc_result) : option str :=
  match result with
  | KdFound _ keyword _ _ _ _ => Some keyword
  | KdNotFound _ keyword => Some keyword
  | _ => None
  end.

(** [result.get("message")]: only the dict of a keyword that was not found
    has the key. *)
Definition kd_message (result : keyword_doc_result) : option str :=
  match result with
  | KdNotFound version keyword =>
      Some ("Keyword '" ++ keyword
            ++ "' not found in any standard library for RF " ++ version)
  | _ => None
  end.

Definition check_keyword_availability `{PyRuntime} (env : Env)
    (keyword_name : str) : M AvailabilityReport :=
  result <- get_keyword_documentation env keyword_name None ;;
  ret {| av_version := RF_VERSION;
         av_keyword_searched := keyword_name;
         av_available := kd_available result;
         av_library :=
           if kd_available result then kd_library result else None;
         av_keyword_actual_name :=
           if kd_available result then kd_keyword result else None;
         av_message :=
           match kd_message result with
           | Some message => message
           | None =>
               "Keyword '" ++ format_id (kd_keyword result)
               ++ "' is available in " ++ format_id (kd_library result)
               ++ " library"
           end |}.

(** ** [get_documentation_url] *)

(** A value of the dict [urls]: a URL, or the dict of the library URLs. *)
Inductive url_entry : Type :=
| UrlOf (url : str)
| UrlsOf (by_library : Py.pydict str).

Definition urls : Py.pydict url_entry :=
  [ (lit "user_guide", UrlOf RF_DOCS_URL);
    (lit "builtin_library", UrlOf (RF_BASE_LIB_URL ++ "/BuiltIn.html"));
    (lit "release_notes",
     UrlOf ("https://github.com/robotframework/robotframework/blob/master/doc/releasenotes/rf-"
            ++ RF_VERSION ++ ".rst"));
    (lit "all_libraries",
     UrlOf ("https://robotframework.org/robotframework/" ++ RF_VERSION
            ++ "/libraries/"));
    (lit "standard_libraries",
     UrlsOf
       [ (lit "BuiltIn", RF_BASE_LIB_URL ++ "/BuiltIn.html");
         (lit "Collections", RF_BASE_LIB_URL ++ "/Collections.html");
         (lit "DateTime", RF_BASE_LIB_URL ++ "/DateTime.html");
         (lit "OperatingSystem", RF_BASE_LIB_URL ++ "/OperatingSystem.html");
         (lit "Process", RF_BASE_LIB_URL ++ "/Process.html");
         (lit "Screenshot", RF_BASE_LIB_URL ++ "/Screenshot.html");
         (lit "String", RF_BASE_LIB_URL ++ "/String.html");
         (lit "Telnet", RF_BASE_LIB_URL ++ "/Telnet.html");
         (lit "XML", RF_BASE_LIB_URL ++ "/XML.html") ]) ].

Record UrlReport : Type := {
  ur_version : str;
  ur_urls : Py.pydict url_entry
}.

Definition get_documentation_url (topic : option str) : UrlReport :=
  {| ur_version := RF_VERSION;
     ur_urls :=
       match if_given topic with
       | None => urls
       | Some topic =>
           [ (topic, match Py.dict_get urls topic with
                     | Some entry => entry
                     | None => UrlOf "Topic not found"
                     end) ]
       end |}.

(** ** A runtime for the examples

    An instance of [PyRuntime] on which the examples below run: a decoder for
    JSON texts made of objects, arrays, strings, integers, [true], [false]
    and [null]; patterns that are plain words, searched as substrings
    without regard to case; and a tokenizer for tags of the form
    [<name key="value" ...>] and [</name>], which raises on a marked section
    [<![ ... ]>] as [html.parser] does on one with an unknown keyword. The
    theorems hold for every instance. *)

Module Reference.

Definition dquote : ascii := "034".

(** An example text: every apostrophe stands for a double quote. *)
Definition text (s : string) : str :=
  map (fun c => if Py.ascii_eqb c "'" then dquote else c) (lit s).

Definition is_json_ws (c : ascii) : bool :=
  Py.ascii_eqb c " " || Py.ascii_eqb c "009" || Py.ascii_eqb c "010"
  || Py.ascii_eqb c "013".

Fixpoint skip_ws (s : str) : str :=
  match s with
  | c :: s' => if is_json_ws c then skip_ws s' else s
  | [] => []
  end.

Definition unescape (c : ascii) : option ascii :=
  if Py.ascii_eqb c dquote then Some dquote
  else if Py.ascii_eqb c "\" then Some "\"%char
  else if Py.ascii_eqb c "/" then Some "/"%char
  else if Py.ascii_eqb c "n" then Some "010"%char
  else if Py.ascii_eqb c "t" then Some "009"%char
  else if Py.ascii_eqb c "r" then Some "013"%char
  else None.

(** The rest of a string literal, behind its opening quote. *)
Fixpoint parse_string (s : str) : option (str * str) :=
  match s with
  | [] => None
  | c :: s' =>
      if Py.ascii_eqb c dquote then Some ([], s')
      else if Py.ascii_eqb c "\" then
        match s' with
        | e :: s'' =>
            match unescape e, parse_string s'' with
            | Some x, Some (r, rest) => Some (x :: r, rest)
            | _, _ => None
            end
        | [] => None
        end
      else
        match parse_string s' with
        | Some (r, rest) => Some (c :: r, rest)
        | None => None
        end
  end.

Definition digit (c : ascii) : option Z :=
  let n := nat_of_ascii c in
  if (48 <=? n) && (n <=? 57) then Some (Z.of_nat (n - 48)) else None.

Fixpoint parse_digits (s : str) (acc : Z) : Z * str :=
  match s with
  | c :: s' =>
      match digit c with
      | Some d => parse_digits s' (10 * acc + d)%Z
      | None => (acc, s)
      end
  | [] => (acc, [])
  end.

Fixpoint parse_value (fuel : nat) (s : str) : option (json * str) :=
  match fuel with
  | O => None
  | S n =>
      let fix elements (k : nat) (s : str) (acc : list json) :=
        match k with
        | O => None
        | S k' =>
            match parse_value n s with
            | Some (v, rest) =>
                match skip_ws rest with
                | c :: r =>
                    if Py.ascii_eqb c "," then elements k' r (acc ++ [v])
                    else if Py.ascii_eqb c "]"
                    then Some (JList (acc ++ [v]), r)
                    else None
                | [] => None
                end
            | None => None
            end
        end in
      let fix members (k : nat) (s : str) (acc : list (str * json)) :=
        match k with
        | O => None
        | S k' =>
            match skip_ws s with
            | q :: s1 =>
                if Py.ascii_eqb q dquote then
                  match parse_string s1 with
                  | Some (key, s2) =>
                      match skip_ws s2 with
                      | c :: s3 =>
                          if Py.ascii_eqb c ":" then
                            match parse_value n s3 with
                            | Some (v, rest) =>
                                let acc' := Py.dict_set acc key v in
                                match skip_ws rest with
                                | c' :: r =>
                                    if Py.ascii_eqb c' ","
                                    then members k' r acc'
                                    else if Py.ascii_eqb c' "}"
                                    then Some (JDict acc', r)
                                    else None
                                | [] => None
                                end
                            | None => None
                            end
                          else None
                      | [] => None
                      end
                  | None => None
                  end
                else None
            | [] => None
            end
        end in
      match skip_ws s with
      | [] => None
      | c :: s' =>
          if Py.ascii_eqb c dquote then
            match parse_string s' with
            | Some (r, rest) => Some (JStr r, rest)
            | None => None
            end
          else if Py.ascii_eqb c "[" then
            match skip_ws s' with
            | c' :: r =>
                if Py.ascii_eqb c' "]" then Some (JList [], r)
                else elements n s' []
            | [] => None
            end
          else if Py.ascii_eqb c "{" then
            match skip_ws s' with
            | c' :: r =>
                if Py.ascii_eqb c' "}" then Some (JDict [], r)
                else members n s' []
            | [] => None
            end
          else if Py.startswith "true" (c :: s')
          then Some (JBool true, skipn 4 (c :: s'))
          else if Py.startswith "false" (c :: s')
          then Some (JBool false, skipn 5 (c :: s'))
          else if Py.startswith "null" (c :: s')
          then Some (JNull, skipn 4 (c :: s'))
          else if Py.ascii_eqb c "-" then
            match s' with
            | d :: _ =>
                match digit d with
                | Some _ => let (z, rest) := parse_digits s' 0 in
                            Some (JInt (- z), rest)
                | None => None
                end
            | [] => None
            end
          else
            match digit c with
            | Some _ => let (z, rest) := parse_digits (c :: s') 0 in
                        Some (JInt z, rest)
            | None => None
            end
      end
  end.

Definition loads (s : str) : json + str :=
  match parse_value (S (length s)) s with
  | Some (v, rest) =>
      match skip_ws rest with
      | [] => inl v
      | _ :: _ => inr (lit "Extra data")
      end
  | None => inr (lit "Expecting value")
  end.

Definition is_word_char (c : ascii) : bool :=
  let n := nat_of_ascii c in
  ((48 <=? n) && (n <=? 57)) || ((65 <=? n) && (n <=? 90))
  || ((97 <=? n) && (n <=? 122)) || (n =? 32).

Definition compile_ignorecase (p : str) : option (str -> bool) :=
  if forallb is_word_char p
  then Some (fun k => 0 <? Py.count (Py.lower k) (Py.lower p))
  else None.

(** The pieces of [s] between occurrences of [c]; [cur] is the piece being
    read. *)
Fixpoint split_on (c : ascii) (s cur : str) : list str :=
  match s with
  | [] => [cur]
  | x :: s' => if Py.ascii_eqb x c then cur :: split_on c s' []
               else split_on c s' (cur ++ [x])
  end.

Definition unquote (v : str) : str :=
  match v with
  | q :: v' =>
      if Py.ascii_eqb q dquote then
        match rev v' with
        | q' :: r => if Py.ascii_eqb q' dquote then rev r else v
        | [] => v
        end
      else v
  | [] => []
  end.

Definition parse_attr (piece : str) : str * option str :=
  match Normalizer.find_char "=" piece with
  | Some i => (Py.lower (firstn i piece), Some (unquote (skipn (S i) piece)))
  | None => (Py.lower piece, None)
  end.

(** The event of the tag whose text between [<] and [>] is [body]. *)
Definition tag_event (body : str) : html_event :=
  match body with
  | c :: name =>
      if Py.ascii_eqb c "/" then EndTag (Py.lower name)
      else
        match filter (fun p => negb (Py.str_eqb p [])) (split_on " " body [])
        with
        | name :: attrs => StartTag (Py.lower name) (map parse_attr attrs)
        | [] => Data []
        end
  | [] => Data []
  end.

(** [acc] is the text or the tag being read, [in_tag] tells which. *)
Fixpoint tokenize (s acc : str) (in_tag : bool) : list html_event :=
  match s with
  | [] => match acc with
          | [] => []
          | _ => [Data (if in_tag then "<"%char :: acc else acc)]
          end
  | c :: s' =>
      if in_tag then
        if Py.ascii_eqb c ">" then tag_event acc :: tokenize s' [] false
        else tokenize s' (acc ++ [c]) true
      else
        if Py.ascii_eqb c "<" then
          match acc with
          | [] => tokenize s' [] true
          | _ => Data acc :: tokenize s' [] true
          end
        else tokenize s' (acc ++ [c]) false
  end.

(** The text holds the opening of a marked section. *)
Fixpoint has_marked_section (s : str) : bool :=
  Py.startswith "<![" s
  || match s with
     | [] => false
     | _ :: s' => has_marked_section s'
     end.

Definition events (s : str) : list html_event + str :=
  if has_marked_section s
  then inr (lit "unknown status keyword in marked section")
  else inl (tokenize s [] false).

#[export] Instance runtime : PyRuntime := {
  json_loads := loads;
  re_compile_ignorecase := compile_ignorecase;
  html_events := events
}.

End Reference.

(** ** Notions used in the statements *)

(** No name stored in [libs] normalizes to the same string as [q]. *)
Definition no_match (q : str)
    (libs : Py.pydict (Py.pydict KeywordRecord)) : Prop :=
  forall lib kws k,
    In (lib, kws) libs -> In k (Py.dict_keys kws) ->
    normalize_name k <> normalize_name q.

Definition is_str (j : json) : bool :=
  match j with JStr _ => true | _ => false end.

(** An entry of [args] as the libdoc schema has it: an object whose [repr],
    when present and not empty, is a string. *)
Definition arg_ok (arg : json) : bool :=
  match py_get arg "repr" (JStr []) with
  | Some r => is_str r || negb (truthy r)
  | None => false
  end.

(** A keyword record as the libdoc schema has it: an object whose [name] is
    missing, empty or a string and, when it has a name, whose [args] is
    missing or a list of argument objects and whose [shortdoc] is missing or
    a string. *)
Definition record_ok (kw_data : json) : bool :=
  match py_get kw_data "name" (JStr []) with
  | None => false
  | Some name =>
      negb (truthy name)
      || (is_str name
          && match py_get kw_data "args" (JList []) with
             | Some (JList args) => forallb arg_ok args
             | _ => false
             end
          && match py_get kw_data "shortdoc" (JStr []) with
             | Some (JStr _) => true
             | _ => false
             end)
  end.

(** The name of a record, when it has one that is not empty. *)
Definition record_name (kw_data : json) : option str :=
  match py_get kw_data "name" (JStr []) with
  | Some (JStr (c :: n)) => Some (c :: n)
  | _ => None
  end.

Definition has_name (kw_data : json) : bool :=
  match record_name kw_data with Some _ => true | None => false end.

(** The [repr] of an argument entry, when it has one that is not empty. *)
Definition arg_repr (arg : json) : list str :=
  match py_get arg "repr" (JStr []) with
  | Some (JStr (c :: s)) => [c :: s]
  | _ => []
  end.

(** [record] holds the values of the input record [kw_data]: its name, the
    name with [%20] for spaces, its non-empty argument [repr]s joined by a
    comma and a space, its [shortdoc] without tags and with the double
    backticks unwrapped, the owning library, and its [source] and [lineno]
    (the empty string when missing). *)
Definition made_from (library_name : str) (kw_data : json)
    (record : KeywordRecord) : Prop :=
  record_name kw_data = Some (kw_name record)
  /\ kw_id record = Py.replace " " "%20" (kw_name record)
  /\ (exists args,
        py_get kw_data "args" (JList []) = Some (JList args)
        /\ kw_args record = Py.join ", " (flat_map arg_repr args))
  /\ (exists shortdoc,
        py_get kw_data "shortdoc" (JStr []) = Some (JStr shortdoc)
        /\ kw_doc record
           = Normalizer.unwrap_code (Normalizer.strip_tags shortdoc))
  /\ kw_library record = library_name
  /\ py_get kw_data "source" (JStr []) = Some (kw_source record)
  /\ py_get kw_data "lineno" (JStr []) = Some (kw_lineno record).

(** One turn of the normalizer loop that does not raise. *)
Definition store_record (library_name : str)
    (keywords : Py.pydict KeywordRecord) (kw_data : json)
  : Py.pydict KeywordRecord :=
  match Normalizer.normalize_one library_name kw_data with
  | Normalizer.Store name record => Py.dict_set keywords name record
  | _ => keywords
  end.

(** *** Sections, as the specification describes them *)

(** The heading tags h1 to h4, each with its level. *)
Definition headings : list (str * nat) :=
  [ (lit "h1", 1); (lit "h2", 2); (lit "h3", 3); (lit "h4", 4) ].

(** The level of a tag, when the tag is one of the headings. *)
Definition level_of (tag : str) : option nat := Py.dict_get headings tag.
Arguments level_of : simpl never.

Definition is_heading_start (e : html_event) : bool :=
  match e with
  | StartTag tag _ =>
      match level_of tag with
      | Some _ => true
      | None => false
      end
  | _ => false
  end.

Definition is_heading_end (e : html_event) : bool :=
  match e with
  | EndTag tag =>
      match level_of tag with
      | Some _ => true
      | None => false
      end
  | _ => false
  end.

(** A heading start tag with the events up to the next heading start tag
    or the end of the document. *)
Record Chunk : Type := {
  ch_tag : str;
  ch_attrs : list (str * option str);
  ch_body : list html_event
}.

Definition chunk_events (c : Chunk) : list html_event :=
  StartTag (ch_tag c) (ch_attrs c) :: ch_body c.

(** The events before the first heading start tag, and the chunks. *)
Fixpoint chunks_of (events : list html_event)
  : list html_event * list Chunk :=
  match events with
  | [] => ([], [])
  | e :: rest =>
      let (pre, chunks) := chunks_of rest in
      match e with
      | StartTag tag attrs =>
          if is_heading_start e
          then ([], {| ch_tag := tag; ch_attrs := attrs; ch_body := pre |}
                    :: chunks)
          else (e :: pre, chunks)
      | _ => (e :: pre, chunks)
      end
  end.

(** The events inside the heading: up to its end tag. *)
Fixpoint heading_part (body : list html_event) : list html_event :=
  match body with
  | [] => []
  | e :: rest => if is_heading_end e then [] else e :: heading_part rest
  end.

(** The events after the heading: behind its end tag. *)
Fixpoint after_heading (body : list html_event) : list html_event :=
  match body with
  | [] => []
  | e :: rest => if is_heading_end e then rest else after_heading rest
  end.

(** The text events among [events], trimmed. *)
Definition texts (events : list html_event) : list str :=
  flat_map (fun e => match e with Data d => [Py.strip d] | _ => [] end)
    events.

Definition nonempty (s : str) : bool :=
  match s with [] => false | _ :: _ => true end.

(** The section of a chunk: the level is the digit of the tag, the id is the
    [id] attribute or the empty string, the title is the last text inside
    the heading and the content is the non-empty texts after the heading,
    joined by single spaces. *)
Definition section_of (c : Chunk) : Section :=
  {| sec_id := match Py.dict_get (DocumentationParser.attrs_dict (ch_attrs c))
                       "id" with
               | Some v => v
               | None => Some []
               end;
     sec_level := match level_of (ch_tag c) with
                  | Some lvl => lvl
                  | None => 0
                  end;
     sec_title := last (texts (heading_part (ch_body c))) [];
     sec_content :=
       Py.join " " (filter nonempty (texts (after_heading (ch_body c)))) |}.

(** A text with nothing to trim at either end. *)
Definition starts_ok (s : str) : Prop :=
  match s with c :: _ => Py.is_space c = false | [] => True end.

Definition trimmed (s : str) : Prop :=
  s <> [] /\ starts_ok s /\ starts_ok (rev s).

Definition no_heading_start (events : list html_event) : bool :=
  forallb (fun e => negb (is_heading_start e)) events.

(** A chunk starts at a heading and has no other heading start tag. *)
Definition chunk_ok (c : Chunk) : Prop :=
  is_heading_start (StartTag (ch_tag c) (ch_attrs c)) = true
  /\ no_heading_start (ch_body c) = true.

(** *** JSON texts (RFC 8259) *)

Module JsonGrammar.

Definition dquote : ascii := "034".
Definition backslash : ascii := "\".

Definition is_ws (c : ascii) : bool :=
  Py.ascii_eqb c " " || Py.ascii_eqb c "009" || Py.ascii_eqb c "010"
  || Py.ascii_eqb c "013".

Definition is_digit (c : ascii) : bool :=
  (48 <=? nat_of_ascii c) && (nat_of_ascii c <=? 57).

Definition is_hex (c : ascii) : bool :=
  let n := nat_of_ascii c in
  is_digit c || ((65 <=? n) && (n <=? 70)) || ((97 <=? n) && (n <=? 102)).

(** The characters that may follow a backslash, [u] apart. *)
Definition is_escape (c : ascii) : bool :=
  Py.ascii_eqb c dquote || Py.ascii_eqb c backslash || Py.ascii_eqb c "/"
  || Py.ascii_eqb c "b" || Py.ascii_eqb c "f" || Py.ascii_eqb c "n"
  || Py.ascii_eqb c "r" || Py.ascii_eqb c "t".

Definition ws (s : str) : Prop := forallb is_ws s = true.

Definition digits (s : str) : Prop := s <> [] /\ forallb is_digit s = true.

(** What stands between the quotes of a string. *)
Inductive chars : str -> Prop :=
| chars_nil : chars []
| chars_plain (c : ascii) (s : str) :
    c <> dquote -> c <> backslash -> chars s -> chars (c :: s)
| chars_escape (c : ascii) (s : str) :
    is_escape c = true -> chars s -> chars (backslash :: c :: s)
| chars_unicode (h1 h2 h3 h4 : ascii) (s : str) :
    forallb is_hex [h1; h2; h3; h4] = true -> chars s ->
    chars (backslash :: "u"%char :: h1 :: h2 :: h3 :: h4 :: s).

Definition int_part (s : str) : Prop :=
  s = lit "0"
  \/ exists c r, s = c :: r /\ is_digit c = true /\ c <> "0"%char
                 /\ forallb is_digit r = true.

Definition frac_part (s : str) : Prop :=
  s = [] \/ exists d, s = "."%char :: d /\ digits d.

Definition exp_part (s : str) : Prop :=
  s = []
  \/ exists e sign d,
       s = e :: sign ++ d
       /\ (e = "e"%char \/ e = "E"%char)
       /\ (sign = [] \/ sign = lit "+" \/ sign = lit "-")
       /\ digits d.

Definition number (s : str) : Prop :=
  exists sign i f e,
    s = sign ++ i ++ f ++ e
    /\ (sign = [] \/ sign = lit "-")
    /\ int_part i /\ frac_part f /\ exp_part e.

Inductive value : str -> Prop :=
| value_null : value "null"
| value_true : value "true"
| value_false : value "false"
| value_number (s : str) : number s -> value s
| value_string (s : str) : chars s -> value (dquote :: s ++ [dquote])
| value_array_empty (w : str) : ws w -> value ("[" ++ w ++ "]")
| value_array (els : str) : elements els -> value ("[" ++ els ++ "]")
| value_object (o : str) : object o -> value o
with object : str -> Prop :=
| object_empty (w : str) : ws w -> object ("{" ++ w ++ "}")
| object_members (ms : str) : members ms -> object ("{" ++ ms ++ "}")
with elements : str -> Prop :=
| elements_one (w1 v w2 : str) :
    ws w1 -> value v -> ws w2 -> elements (w1 ++ v ++ w2)
| elements_more (w1 v w2 els : str) :
    ws w1 -> value v -> ws w2 -> elements els ->
    elements (w1 ++ v ++ w2 ++ "," ++ els)
with members : str -> Prop :=
| members_one (w1 k w2 w3 v w4 : str) :
    ws w1 -> chars k -> ws w2 -> ws w3 -> value v -> ws w4 ->
    members (w1 ++ dquote :: k ++ [dquote] ++ w2 ++ ":" ++ w3 ++ v ++ w4)
| members_more (w1 k w2 w3 v w4 ms : str) :
    ws w1 -> chars k -> ws w2 -> ws w3 -> value v -> ws w4 ->
    members ms ->
    members (w1 ++ dquote :: k ++ [dquote] ++ w2 ++ ":" ++ w3 ++ v ++ w4
             ++ "," ++ ms).

Scheme value_mut := Minimality for value Sort Prop
  with object_mut := Minimality for object Sort Prop
  with elements_mut := Minimality for elements Sort Prop
  with members_mut := Minimality for members Sort Prop.

Combined Scheme grammar_mutind
  from value_mut, object_mut, elements_mut, members_mut.

End JsonGrammar.

(** Outside a string literal and at a depth of one or more, the scanner
    passes over [s] and is in the state it was in. *)
Definition passes (s : str) : Prop :=
  forall (rest : str) (i : nat) (depth : Z),
    (0 < depth)%Z ->
    Extractor.scan (s ++ rest) i depth false false
    = Extractor.scan rest (i + length s) depth false false.

(** A character the scanner gives no meaning to. *)
Definition plain (c : ascii) : bool :=
  negb (Py.ascii_eqb c "\" || Py.ascii_eqb c "034" || Py.ascii_eqb c "{"
        || Py.ascii_eqb c "}").

(** *** A rebuild run, library by library *)

Definition library_url (library_name : str) : str :=
  RF_BASE_LIB_URL ++ "/" ++ library_name ++ ".html".

(** A run asks the network for a slot when forced to or when the slot is
    empty. *)
Definition attempts (force_refresh : bool) (f : FS) (s : slot) : bool :=
  force_refresh || negb (slot_exists f s).

(** The page of a library after the download step of a run: the fetched
    page, or the cached one when nothing is fetched or the fetch fails. *)
Definition page_after (env : Env) (force_refresh : bool) (f : FS)
    (library_name : str) : option str :=
  if attempts force_refresh f (LibrarySlot library_name) then
    match urlopen env (library_url library_name) with
    | Body content => Some content
    | _ => read_slot f (LibrarySlot library_name)
    end
  else read_slot f (LibrarySlot library_name).

(** The files after the download step for one library. *)
Definition fs_after_library (env : Env) (force_refresh : bool) (f : FS)
    (library_name : str) : FS :=
  if attempts force_refresh f (LibrarySlot library_name) then
    match urlopen env (library_url library_name) with
    | Body content => write_slot (LibrarySlot library_name) content f
    | _ => f
    end
  else f.

(** What a run makes of a library: nothing without a page, else the result
    of parsing the page. *)
Definition library_outcome `{PyRuntime} (env : Env) (force_refresh : bool)
    (f : FS) (library_name : str) : option keywords_result :=
  option_map (parse_library_page library_name)
    (page_after env force_refresh f library_name).

Definition report_of (r : keywords_result) : LibraryReport :=
  {| lr_success := kr_success r; lr_total_keywords := kr_total r |}.

(** The libraries a run parses successfully, with their keywords. *)
Definition parsed_libraries `{PyRuntime} (env : Env) (force_refresh : bool)
    (f : FS) (libraries : list str) : Py.pydict (Py.pydict KeywordRecord) :=
  flat_map (fun n => match library_outcome env force_refresh f n with
                     | Some (KwSuccess _ keywords _) => [(n, keywords)]
                     | _ => []
                     end) libraries.

(** The entries of the report of a run: one per library with a page. *)
Definition library_reports `{PyRuntime} (env : Env) (force_refresh : bool)
    (f : FS) (libraries : list str) : Py.pydict LibraryReport :=
  flat_map (fun n => match library_outcome env force_refresh f n with
                     | Some r => [(n, report_of r)]
                     | None => []
                     end) libraries.

Definition parsed_total `{PyRuntime} (env : Env) (force_refresh : bool)
    (f : FS) (libraries : list str) : nat :=
  list_sum (map (fun n => match library_outcome env force_refresh f n with
                          | Some r => kr_total r
                          | None => 0
                          end) libraries).

(** The URLs a run requests for the libraries, in order. *)
Definition library_requests (force_refresh : bool) (f : FS)
    (libraries : list str) : list str :=
  map library_url
    (filter (fun n => attempts force_refresh f (LibrarySlot n)) libraries).

(** The download step for the primary document succeeds: its fetch
    succeeds, or the run is unforced and finds the document cached, so that
    no fetch is made. A forced run whose fetch fails does not succeed, cached
    document or not. *)
Definition primary_ok (env : Env) (force_refresh : bool) (f : FS) : bool :=
  if attempts force_refresh f DocsSlot then
    match urlopen env RF_DOCS_URL with Body _ => true | _ => false end
  else true.

(** Two worlds agree on all but the persisted keyword index. *)
Definition same_but_keywords_index (a b : World) : Prop :=
  docs_file (fs a) = docs_file (fs b)
  /\ index_file (fs a) = index_file (fs b)
  /\ library_files (fs a) = library_files (fs b)
  /\ requests a = requests b /\ clock a = clock b.

(** The artifacts without their [parsed_at] field. *)
Definition untimed_sections (i : SectionIndex) : str * nat * list Section :=
  (si_version i, si_total_sections i, si_sections i).

Definition untimed_keywords (i : KeywordIndex)
  : str * nat * nat * Py.pydict (Py.pydict KeywordRecord) :=
  (ki_version i, ki_total_libraries i, ki_total_keywords i, ki_libraries i).

(** The primary document after the download step of a run. *)
Definition docs_after (env : Env) (force_refresh : bool) (f : FS)
  : option str :=
  if attempts force_refresh f DocsSlot then
    match urlopen env RF_DOCS_URL with
    | Body content => Some content
    | _ => docs_file f
    end
  else docs_file f.

(** The sections of a page, when reading and parsing it raises nothing. *)
Definition sections_of_page `{PyRuntime} (html_content : str)
  : option (list Section) :=
  match html_events html_content with
  | inl events =>
      Some (DocumentationParser.get_sections
              (DocumentationParser.feed DocumentationParser.init events))
  | inr _ => None
  end.

(** The sections a run indexes: those of the primary document it has after
    the download step, when there is one and it parses. *)
Definition indexed_sections `{PyRuntime} (env : Env) (force_refresh : bool)
    (f : FS) : option (list Section) :=
  match docs_after env force_refresh f with
  | Some html_content => sections_of_page html_content
  | None => None
  end.

(** The section index a run writes at time [t] for the sections of a
    page. *)
Definition section_index_of (t : timestamp) (sections : list Section)
  : SectionIndex :=
  {| si_version := RF_VERSION; si_parsed_at := t;
     si_total_sections := length sections;
     si_sections := sections |}.

(** The keyword index a run writes at time [t] for the libraries it parsed:
    all of the artifact comes from the run. *)
Definition keyword_index_of (t : timestamp) (total : nat)
    (parsed : Py.pydict (Py.pydict KeywordRecord)) : KeywordIndex :=
  {| ki_version := RF_VERSION; ki_parsed_at := t;
     ki_total_libraries := length parsed; ki_total_keywords := total;
     ki_libraries := parsed |}.

(** The files after the download step for the primary document. *)
Definition fs_after_primary (env : Env) (force_refresh : bool) (f : FS) : FS :=
  if attempts force_refresh f DocsSlot then
    match urlopen env RF_DOCS_URL with
    | Body content => write_slot DocsSlot content f
    | _ => f
    end
  else f.

(** The keywords of a successful outcome. *)
Definition outcome_keywords (o : option keywords_result)
  : option (Py.pydict KeywordRecord) :=
  match o with
  | Some (KwSuccess _ keywords _) => Some keywords
  | _ => None
  end.


(** *** Notions used in the further properties *)

(** [sub] occurs in [s]. *)
Definition occurs (sub s : str) : Prop :=
  exists pre post, s = pre ++ sub ++ post.

(** The predicate on names that a [filter_pattern] stands for: every name
    without a pattern, the [search] of the compiled pattern otherwise;
    [None] when the pattern does not compile. *)
Definition name_filter `{PyRuntime} (filter_pattern : option str)
  : option (str -> bool) :=
  match if_given filter_pattern with
  | None => Some (fun _ => true)
  | Some p => re_compile_ignorecase p
  end.

(** [a <= b] in code-point order. *)
Definition str_le (a b : str) : Prop := Py.str_ltb b a = false.

(** The order of [sorted(d.items())]. *)
Definition by_key {V} (a b : str * V) : Prop := str_le (fst a) (fst b).

(** The keywords of a library that a pattern keeps, when there are any. *)
Definition kept_keywords (search : str -> bool)
    (lib : str * Py.pydict KeywordRecord)
  : list (str * Py.pydict KeywordRecord) :=
  match filter (fun kv => search (fst kv)) (snd lib) with
  | [] => []
  | filtered_kw => [(fst lib, filtered_kw)]
  end.

(** The listing of one library of the index. *)
Definition listed (lib : str * Py.pydict KeywordRecord)
  : str * list KeywordSummary :=
  (fst lib, keyword_list (fst lib) (snd lib)).

(** Some name stored in [libs] normalizes to the same string as [q]. *)
Definition some_match (q : str)
    (libs : Py.pydict (Py.pydict KeywordRecord)) : Prop :=
  exists lib kws k,
    In (lib, kws) libs /\ In k (Py.dict_keys kws)
    /\ normalize_name k = normalize_name q.

(** The keys of the dict [urls]. *)
Definition topics : list str :=
  [ lit "user_guide"; lit "builtin_library"; lit "release_notes";
    lit "all_libraries"; lit "standard_libraries" ].

(** [s] is all of class [\s]. *)
Definition all_space (s : str) : Prop := forallb Py.is_space s = true.

(** The text [s] holds an assignment that the pattern of the extractor
    matches: [libdoc], an equals sign and an opening brace, with nothing but
    white space between them. *)
Definition has_libdoc (s : str) : Prop :=
  exists pre ws1 ws2 rest,
    s = pre ++ "libdoc" ++ ws1 ++ "=" ++ ws2 ++ "{" ++ rest
    /\ all_space ws1 /\ all_space ws2.

(** No tag is left in [s]: a [<] is followed at once by [>], or by no [>]
    at all. *)
Fixpoint tag_free (s : str) : Prop :=
  match s with
  | [] => True
  | c :: s' =>
      (c = "<"%char ->
       Normalizer.find_char ">" s' = None
       \/ Normalizer.find_char ">" s' = Some 0)
      /\ tag_free s'
  end.

(** The events the section parser reacts to: text, and the start and end
    tags of headings. *)
Definition structural (e : html_event) : bool :=
  match e with
  | Data _ => true
  | _ => is_heading_start e || is_heading_end e
  end.

(** ** Example pages, networks and cache states *)

Module Example.

Import Reference.

(** A user guide with a section whose only hit for [library] is in its
    content, before a section with a hit in its title. *)
Definition guide_page : str :=
  text "<html><h1 id='intro'>Introduction</h1>Robot Framework is generic.<h2 id='order'>Search order</h2>Each library is searched in <b>import</b> order.<h2 id='using'>Using a library</h2>Import it.</html>".

(** A library page: the libdoc object sits in a script, and its strings hold
    braces, tags and an escaped quote. *)
Definition library_page (library_name : str) : str :=
  text "<html><script>libdoc = {'name': '" ++ library_name
  ++ text "', 'keywords': [{'name': 'Run Keyword', 'args': [{'repr': 'name'}, {'repr': '*args'}], 'shortdoc': 'Runs <b>the</b> ``given`` keyword {x}', 'source': 'lib.py', 'lineno': 12}, {'name': 'Log', 'args': [{'repr': 'message'}], 'shortdoc': 'Logs \'}\''}]};</script></html>".

(** A page of BuiltIn with other keywords. *)
Definition other_page : str :=
  text "<script>libdoc = {'keywords': [{'name': 'Fail', 'shortdoc': 'Fails'}]};</script>".

(** A page of BuiltIn with two names that normalize to the same string. *)
Definition shadow_page : str :=
  text "<script>libdoc = {'keywords': [{'name': 'run keyword', 'shortdoc': 'lower'}, {'name': 'Run Keyword', 'shortdoc': 'upper'}]};</script>".

(** A page with a small libdoc object, and that object. *)
Definition small_object : str :=
  text "{'keywords': [{'name': 'Log', 'shortdoc': 'Logs {x} \'q\' }', 'lineno': 12}]}".

Definition small_page : str :=
  text "<script>libdoc = " ++ small_object ++ text ";</script>".

Definition find_library (url : str) : option str :=
  find (fun n => Py.str_eqb (library_url n) url) STANDARD_LIBRARIES.

Definition not_found : http_response := HTTPError 404 (lit "Not Found").

(** A network that serves the guide and the page of every library but those
    of [down], for which it answers 404; BuiltIn gets the page [builtin]. *)
Definition network (down : list str) (builtin : str) (url : str)
  : http_response :=
  if Py.str_eqb url RF_DOCS_URL then Body guide_page
  else
    match find_library url with
    | Some n =>
        if str_in n down then not_found
        else if Py.str_eqb n "BuiltIn" then Body builtin
        else Body (library_page n)
    | None => not_found
    end.

Definition clock_reading (k : nat) : timestamp :=
  lit "2026-01-01T00:00:0" ++ [ascii_of_nat (48 + k)].

Definition env_with (down : list str) (builtin : str) : Env :=
  {| urlopen := network down builtin; now := clock_reading;
     cache_dir := lit "/tmp/rf_docs_cache" |}.

Definition env_up : Env := env_with [] (library_page "BuiltIn").

(** A network that answers every request with a page without libdoc. *)
Definition env_moved : Env :=
  {| urlopen := fun _ => Body (text "<html><p>moved</p></html>");
     now := clock_reading; cache_dir := lit "/tmp/rf_docs_cache" |}.

Definition empty_world : World :=
  {| fs := {| docs_file := None; index_file := None; keywords_index := None;
              library_files := [] |};
     requests := []; clock := 0 |}.

(** The state after a first rebuild on the working network. *)
Definition cached_world : World :=
  snd (fetch_rf_documentation env_up false empty_world).

(** The same state with another page in the slot of BuiltIn. *)
Definition edited_world : World :=
  {| fs := write_slot (LibrarySlot "BuiltIn") other_page (fs cached_world);
     requests := requests cached_world; clock := clock cached_world |}.

(** The state after a first rebuild when BuiltIn has [shadow_page]. *)
Definition shadow_world : World :=
  snd (fetch_rf_documentation (env_with [] shadow_page) false empty_world).

Definition index_of (w : World) : SectionIndex :=
  match index_file (fs w) with
  | Some i => i
  | None => {| si_version := []; si_parsed_at := []; si_total_sections := 0;
               si_sections := [] |}
  end.

Definition keywords_of (w : World) : KeywordIndex :=
  match keywords_index (fs w) with
  | Some i => i
  | None => {| ki_version := []; ki_parsed_at := []; ki_total_libraries := 0;
               ki_total_keywords := 0; ki_libraries := [] |}
  end.

(** Decoded records: two with the name [Log], one without a name. *)
Definition records : list json :=
  [ JDict [(lit "name", JStr "Log"); (lit "shortdoc", JStr "first");
           (lit "lineno", JInt 1)];
    JDict [(lit "shortdoc", JStr "no name")];
    JDict [(lit "name", JStr "Log"); (lit "shortdoc", JStr "second");
           (lit "args", JList [JDict [(lit "repr", JStr "message")]]);
           (lit "lineno", JInt 2)];
    JDict [(lit "name", JStr []); (lit "shortdoc", JStr "empty name")] ].

End Example.
(** ** Further example networks and pages *)

Module Scenario.

Import Reference Example.

(** A network on which nothing can be reached. *)
Definition env_offline : Env :=
  {| urlopen := fun _ => URLError (lit "unreachable");
     now := clock_reading; cache_dir := lit "/tmp/rf_docs_cache" |}.

(** A network that serves the page of every library but not the guide. *)
Definition env_guide_down : Env :=
  {| urlopen := fun url => if Py.str_eqb url RF_DOCS_URL then not_found
                           else network [] (library_page "BuiltIn") url;
     now := clock_reading; cache_dir := lit "/tmp/rf_docs_cache" |}.

(** A page whose libdoc object is cut off. *)
Definition cut_page : str :=
  text "<script>libdoc = {'keywords': [{'name': 'Log'".

(** A page whose second keyword has a number for a name, the text of its
    libdoc object and the decoded object. *)
Definition malformed_object : str :=
  text "{'keywords': [{'name': 'Log'}, {'name': 5}]}".

Definition malformed_page : str :=
  text "<script>libdoc = " ++ malformed_object ++ text ";</script>".

Definition malformed_records : list json :=
  [ JDict [(lit "name", JStr "Log")]; JDict [(lit "name", JInt 5)] ].

(** The keywords that [library_page] holds. *)
Definition page_keywords (library_name : str) : Py.pydict KeywordRecord :=
  kr_keywords (parse_library_page library_name (library_page library_name)).

(** The [search] of the pattern [log]. *)
Definition search_log (k : str) : bool :=
  0 <? Py.count (Py.lower k) (Py.lower "log").

(** Two records with the name [Log], the later one with [null] for its
    short documentation, and a page that holds them. *)
Definition null_doc_records : list json :=
  [ JDict [(lit "name", JStr "Log"); (lit "shortdoc", JStr "first")];
    JDict [(lit "name", JStr "Log"); (lit "shortdoc", JNull)] ].

Definition null_doc_page : str :=
  text "<script>libdoc = {'keywords': [{'name': 'Log', 'shortdoc': 'first'}, {'name': 'Log', 'shortdoc': null}]};</script>".

(** A guide with a marked section, on which the parser raises, and a
    network that serves it. *)
Definition broken_guide : str :=
  text "<h1 id='a'>A</h1>x<![foo bar]>y".

Definition env_broken_guide : Env :=
  {| urlopen := fun url => if Py.str_eqb url RF_DOCS_URL then Body broken_guide
                           else network [] (library_page "BuiltIn") url;
     now := clock_reading; cache_dir := lit "/tmp/rf_docs_cache" |}.

End Scenario.

(** * Properties *)

(** ** Python primitives *)

Section SortFacts.
Context {A : Type} (key : A -> nat).

Lemma insert_desc_perm (x : A) (l : list A) :
  Permutation (x :: l) (Py.insert_desc key x l).
Proof.
  induction l as [|y l IH]; simpl; [reflexivity|].
  destruct (key x <? key y); [|reflexivity].
  rewrite perm_swap. now constructor.
Qed.

Lemma sort_desc_perm (l : list A) : Permutation l (Py.sort_desc key l).
Proof.
  induction l as [|x l IH]; simpl; [constructor|].
  rewrite <- insert_desc_perm. now constructor.
Qed.

Lemma insert_desc_sorted (x : A) (l : list A) :
  Sorted (Py.desc_by key) l ->
  Sorted (Py.desc_by key) (Py.insert_desc key x l).
Proof.
  induction l as [|y l IH]; simpl; intros Hs.
  - repeat constructor.
  - destruct (key x <? key y) eqn:E.
    + apply Nat.ltb_lt in E. inversion Hs as [|? ? Hs' Hhd]; subst.
      constructor; [auto|].
      destruct l as [|z l]; simpl.
      * constructor. unfold Py.desc_by. lia.
      * destruct (key x <? key z); constructor.
        -- inversion Hhd; assumption.
        -- unfold Py.desc_by. lia.
    + apply Nat.ltb_ge in E. constructor; [assumption|].
      constructor. exact E.
Qed.

Lemma sort_desc_sorted (l : list A) :
  StronglySorted (Py.desc_by key) (Py.sort_desc key l).
Proof.
  apply Sorted_StronglySorted.
  - intros a b c Hab Hbc. unfold Py.desc_by in *. lia.
  - induction l as [|x l IH]; simpl; [constructor|].
    now apply insert_desc_sorted.
Qed.

Lemma insert_desc_filter (r : nat) (x : A) (l : list A) :
  filter (fun h => key h =? r) (Py.insert_desc key x l)
  = filter (fun h => key h =? r) (x :: l).
Proof.
  induction l as [|y l IH]; [reflexivity|].
  simpl. destruct (key x <? key y) eqn:E; [|reflexivity].
  apply Nat.ltb_lt in E. simpl. rewrite IH. simpl.
  destruct (key x =? r) eqn:Ex, (key y =? r) eqn:Ey; try reflexivity.
  apply Nat.eqb_eq in Ex, Ey. lia.
Qed.

(** The sort is stable: elements of equal key keep their order. *)
Lemma sort_desc_stable (r : nat) (l : list A) :
  filter (fun h => key h =? r) (Py.sort_desc key l)
  = filter (fun h => key h =? r) l.
Proof.
  induction l as [|x l IH]; [reflexivity|].
  simpl Py.sort_desc. rewrite insert_desc_filter. simpl. now rewrite IH.
Qed.
End SortFacts.

Lemma strongly_sorted_suffix {A} (R : A -> A -> Prop) (l1 l2 : list A) :
  StronglySorted R (l1 ++ l2) -> StronglySorted R l2.
Proof.
  induction l1 as [|x l1 IH]; simpl; [auto|].
  intros H. inversion H; auto.
Qed.

Lemma count_from_empty (s : str) : Py.count_from [] s 0 = S (length s).
Proof.
  induction s as [|c s IH]; [reflexivity|].
  simpl. now rewrite IH.
Qed.

Lemma count_empty (s : str) : Py.count s [] = S (length s).
Proof. apply count_from_empty. Qed.

Lemma slice_to_nonneg {A} (n : Z) (l : list A) :
  (0 <= n)%Z -> Py.slice_to n l = firstn (Z.to_nat n) l.
Proof.
  intros Hn. unfold Py.slice_to.
  destruct (0 <=? n)%Z eqn:E; [reflexivity|]. apply Z.leb_gt in E. lia.
Qed.

(** ** Section search *)

Lemma collect_hits_filter (q : str) (sections : list Section) :
  collect_hits q sections
  = map (hit_of q) (filter (fun s => 0 <? relevance_of q s) sections).
Proof.
  induction sections as [|s l IH]; [reflexivity|].
  simpl. rewrite IH.
  assert (E : (0 <? title_matches q s) || (0 <? content_matches q s)
              = (0 <? relevance_of q s)).
  { unfold relevance_of.
    destruct (0 <? title_matches q s) eqn:E1,
             (0 <? content_matches q s) eqn:E2; simpl; symmetry;
      rewrite ?Nat.ltb_lt, ?Nat.ltb_ge in *; lia. }
  rewrite E. now destruct (0 <? relevance_of q s).
Qed.

(** What [search_rf_documentation] returns on an existing index. *)
Lemma search_on_index (w : World) (idx : SectionIndex) (query : str)
    (max_results : Z) :
  index_file (fs w) = Some idx ->
  search_rf_documentation query max_results w
  = (let ranked := Py.sort_desc hit_relevance
                     (collect_hits (Py.lower query) (si_sections idx)) in
     SearchOK RF_VERSION query (length ranked)
       (Py.slice_to max_results ranked), w).
Proof.
  intros Hidx. unfold search_rf_documentation, bind, get_fs.
  now rewrite Hidx.
Qed.

(** C4. Section search scores a section with ten times the number of
    occurrences of the lower-cased query in its lower-cased title plus the
    number of occurrences in its lower-cased content, leaves out the sections
    of relevance 0, ranks the others by decreasing relevance with sections of
    equal relevance in index order, and returns the first [max_results] of
    the ranking ([total_matches] counts all of it). A section with a hit in
    its title comes before every section whose only hit is one hit in its
    content. *)
Theorem search_ranks_by_relevance (w : World) (idx : SectionIndex)
    (query : str) (max_results : Z) :
  index_file (fs w) = Some idx ->
  let q := Py.lower query in
  let candidates :=
    map (hit_of q) (filter (fun s => 0 <? relevance_of q s) (si_sections idx)) in
  exists ranked : list SearchHit,
    search_rf_documentation query max_results w
    = (SearchOK RF_VERSION query (length ranked)
         (Py.slice_to max_results ranked), w)
    /\ (forall s, hit_relevance (hit_of q s)
                  = 10 * Py.count (Py.lower (sec_title s)) q
                    + 1 * Py.count (Py.lower (sec_content s)) q)
    /\ Permutation candidates ranked
    /\ StronglySorted (Py.desc_by hit_relevance) ranked
    /\ (forall r, filter (fun h => hit_relevance h =? r) ranked
                  = filter (fun h => hit_relevance h =? r) candidates)
    /\ ((0 <= max_results)%Z ->
        Py.slice_to max_results ranked = firstn (Z.to_nat max_results) ranked)
    /\ (forall a b,
          In a (si_sections idx) -> In b (si_sections idx) ->
          1 <= title_matches q a ->
          title_matches q b = 0 -> content_matches q b = 1 ->
          forall l1 l2, ranked = l1 ++ hit_of q b :: l2 ->
                        In (hit_of q a) l1 /\ ~ In (hit_of q a) l2).
Proof.
  intros Hidx q candidates.
  exists (Py.sort_desc hit_relevance candidates).
  assert (Hperm := sort_desc_perm hit_relevance candidates).
  assert (Hsorted := sort_desc_sorted hit_relevance candidates).
  split; [|split; [|split; [|split; [|split; [|split]]]]].
  - rewrite (search_on_index _ _ _ _ Hidx). cbv zeta.
    now rewrite collect_hits_filter.
  - intros s. simpl. unfold relevance_of, title_matches, content_matches. lia.
  - exact Hperm.
  - exact Hsorted.
  - intros r. apply sort_desc_stable.
  - apply slice_to_nonneg.
  - intros a b Ha Hb Hta Htb Hcb l1 l2 Hsplit.
    assert (Hra : 10 <= hit_relevance (hit_of q a))
      by (simpl; unfold relevance_of; lia).
    assert (Hrb : hit_relevance (hit_of q b) = 1)
      by (simpl; unfold relevance_of; lia).
    assert (Hnot2 : ~ In (hit_of q a) l2).
    { intros Hin. rewrite Hsplit in Hsorted.
      apply strongly_sorted_suffix in Hsorted as Hs.
      inversion Hs as [|? ? _ Hall]; subst.
      rewrite Forall_forall in Hall. specialize (Hall _ Hin).
      unfold Py.desc_by in Hall. lia. }
    split; [|exact Hnot2].
    assert (Hin : In (hit_of q a) (Py.sort_desc hit_relevance candidates)).
    { eapply Permutation_in; [exact Hperm|].
      unfold candidates. apply in_map, filter_In. split; [exact Ha|].
      apply Nat.ltb_lt. unfold relevance_of. lia. }
    rewrite Hsplit in Hin. apply in_app_or in Hin as [Hin|[Heq|Hin]].
    + exact Hin.
    + rewrite Heq in Hrb. lia.
    + contradiction.
Qed.

(** C10. For the empty query every title and every content has a positive
    count, so every section of the index is a match: [total_matches] is the
    number of indexed sections, the ranking is a rearrangement of all of
    them, and every relevance is at least 11. *)
Theorem search_empty_query_matches_all (w : World) (idx : SectionIndex)
    (max_results : Z) :
  index_file (fs w) = Some idx ->
  exists ranked : list SearchHit,
    search_rf_documentation (lit "") max_results w
    = (SearchOK RF_VERSION (lit "") (length (si_sections idx))
         (Py.slice_to max_results ranked), w)
    /\ Permutation (map (hit_of (lit "")) (si_sections idx)) ranked
    /\ (forall s, 0 < Py.count (Py.lower (sec_title s)) (lit "")
                  /\ 0 < Py.count (Py.lower (sec_content s)) (lit ""))
    /\ Forall (fun h => 11 <= hit_relevance h) ranked.
Proof.
  intros Hidx.
  assert (Hall : filter (fun s => 0 <? relevance_of (lit "") s)
                   (si_sections idx) = si_sections idx).
  { apply forallb_filter_id, forallb_forall. intros s _.
    apply Nat.ltb_lt. unfold relevance_of, title_matches, content_matches.
    rewrite !count_empty. lia. }
  exists (Py.sort_desc hit_relevance (map (hit_of (lit "")) (si_sections idx))).
  assert (Hperm := sort_desc_perm hit_relevance
                     (map (hit_of (lit "")) (si_sections idx))).
  split; [|split; [|split]].
  - rewrite (search_on_index _ _ _ _ Hidx). cbv zeta.
    change (Py.lower (lit "")) with (lit "").
    rewrite collect_hits_filter, Hall.
    rewrite <- (Permutation_length Hperm), length_map. reflexivity.
  - exact Hperm.
  - intros s. rewrite !count_empty. lia.
  - eapply Permutation_Forall; [exact Hperm|].
    apply Forall_forall. intros h Hin. apply in_map_iff in Hin as [s [<- _]].
    simpl. unfold relevance_of, title_matches, content_matches.
    rewrite !count_empty. lia.
Qed.

(** ** Keyword lookup *)

Lemma ascii_eqb_eq (a b : ascii) : Py.ascii_eqb a b = true <-> a = b.
Proof. apply Ascii.eqb_eq. Qed.

Lemma str_eqb_eq (a b : str) : Py.str_eqb a b = true <-> a = b.
Proof.
  revert b. induction a as [|x a IH]; destruct b as [|y b]; simpl;
    try (split; [discriminate|discriminate]); [tauto|].
  rewrite andb_true_iff, ascii_eqb_eq, IH.
  split; [intros [-> ->]; reflexivity | intros E; inversion E; auto].
Qed.

Lemma str_eqb_refl (a : str) : Py.str_eqb a a = true.
Proof. now apply str_eqb_eq. Qed.

Lemma str_eqb_neq (a b : str) : Py.str_eqb a b = false <-> a <> b.
Proof.
  rewrite <- str_eqb_eq. destruct (Py.str_eqb a b); split; congruence.
Qed.

Lemma find_keyword_none (t : str) (kws : Py.pydict KeywordRecord) :
  (forall k, In k (Py.dict_keys kws) -> normalize_name k <> t) ->
  find_keyword t kws = None.
Proof.
  induction kws as [|[k v] kws IH]; simpl; intros Hno; [reflexivity|].
  rewrite (proj2 (str_eqb_neq _ _)) by (apply Hno; now left).
  apply IH. intros k' Hin. apply Hno. now right.
Qed.

Lemma find_keyword_first (t : str) (kws1 kws2 : Py.pydict KeywordRecord)
    (k : str) (v : KeywordRecord) :
  normalize_name k = t ->
  (forall k', In k' (Py.dict_keys kws1) -> normalize_name k' <> t) ->
  find_keyword t (kws1 ++ (k, v) :: kws2) = Some (k, v).
Proof.
  intros Hk. induction kws1 as [|[k1 v1] kws1 IH]; simpl; intros Hno.
  - now rewrite (proj2 (str_eqb_eq _ _) Hk).
  - rewrite (proj2 (str_eqb_neq _ _)) by (apply Hno; now left).
    apply IH. intros k' Hin. apply Hno. now right.
Qed.

Lemma find_in_libraries_none (q : str)
    (libs : Py.pydict (Py.pydict KeywordRecord)) :
  no_match q libs -> find_in_libraries (normalize_name q) libs = None.
Proof.
  induction libs as [|[lib kws] libs IH]; simpl; intros Hno; [reflexivity|].
  rewrite find_keyword_none.
  - apply IH. intros lib' kws' k Hin. apply (Hno lib' kws' k). now right.
  - intros k Hin. apply (Hno lib kws k); [now left|exact Hin].
Qed.

Lemma find_in_libraries_first (q : str)
    (libs1 libs2 : Py.pydict (Py.pydict KeywordRecord)) (lib : str)
    (kws1 kws2 : Py.pydict KeywordRecord) (k : str) (v : KeywordRecord) :
  normalize_name k = normalize_name q ->
  no_match q libs1 ->
  no_match q [(lib, kws1)] ->
  find_in_libraries (normalize_name q)
    (libs1 ++ (lib, kws1 ++ (k, v) :: kws2) :: libs2)
  = Some (lib, (k, v)).
Proof.
  intros Hk Hno1 Hno. induction libs1 as [|[lib' kws'] libs1 IH]; simpl.
  - rewrite find_keyword_first; auto.
    intros k' Hin. apply (Hno lib kws1 k'); [now left|exact Hin].
  - rewrite find_keyword_none.
    + apply IH. intros l ks k' Hin. apply (Hno1 l ks k'). now right.
    + intros k' Hin. apply (Hno1 lib' kws' k'); [now left|exact Hin].
Qed.

Lemma str_eqb_sym (a b : str) : Py.str_eqb a b = Py.str_eqb b a.
Proof.
  destruct (Py.str_eqb b a) eqn:E.
  - apply str_eqb_eq in E as ->. apply str_eqb_refl.
  - apply str_eqb_neq. apply str_eqb_neq in E. congruence.
Qed.

(** With the index in place, lookup reads it and touches nothing. *)
Lemma get_keyword_documentation_on_index `{PyRuntime} (env : Env)
    (w : World) (idx : KeywordIndex) (q : str) (library_name : option str) :
  keywords_index (fs w) = Some idx ->
  get_keyword_documentation env q library_name w
  = (lookup_keyword idx q library_name, w).
Proof.
  intros Hidx. unfold get_keyword_documentation, bind, get_fs, ret.
  rewrite Hidx. simpl. now rewrite Hidx.
Qed.

(** C5 (amended). Lookup lower-cases the query and every stored name,
    replaces underscores and hyphens by spaces and compares for equality.
    The queries [run_keyword], [Run-Keyword] and [run keyword] normalize to
    the same string as the stored name [Run Keyword], so each of them
    returns the record stored under [Run Keyword] whenever no name before it,
    in the iteration order of the libraries searched, normalizes to that
    string too. With a library name only that library's map is searched, and
    a name that is not in the index gives the library-not-found error;
    without one all libraries are searched in index order. In both cases the
    first match is the result, and without a match the result is the
    not-found record. *)
Theorem lookup_returns_first_normalized_match `{PyRuntime} (env : Env)
    (w : World) (idx : KeywordIndex) (library_name : option str) :
  keywords_index (fs w) = Some idx ->
  let all_libraries := ki_libraries idx in
  let run q := get_keyword_documentation env q library_name w in
  let found lib k v :=
    KdFound RF_VERSION k lib (kw_args v) (kw_doc v)
      ((RF_BASE_LIB_URL ++ "/" ++ lib ++ ".html") ++ "#" ++ kw_id v) in
  (forall q, In q [lit "run_keyword"; lit "Run-Keyword"; lit "run keyword"] ->
     normalize_name q = normalize_name "Run Keyword")
  /\ (forall q l,
        if_given library_name = Some l ->
        Py.dict_get all_libraries l = None ->
        run q = (KdLibraryNotFound l (Py.dict_keys all_libraries), w))
  /\ (forall searched,
        (if_given library_name = None /\ searched = all_libraries)
        \/ (exists l kws, if_given library_name = Some l
                          /\ Py.dict_get all_libraries l = Some kws
                          /\ searched = [(l, kws)]) ->
        (forall q libs1 lib kws1 k v kws2 libs2,
           searched = libs1 ++ (lib, kws1 ++ (k, v) :: kws2) :: libs2 ->
           normalize_name k = normalize_name q ->
           no_match q libs1 -> no_match q [(lib, kws1)] ->
           run q = (found lib k v, w))
        /\ (forall q libs1 lib kws1 v kws2 libs2,
              In q [lit "run_keyword"; lit "Run-Keyword"; lit "run keyword"] ->
              searched
              = libs1 ++ (lib, kws1 ++ (lit "Run Keyword", v) :: kws2) :: libs2 ->
              no_match "Run Keyword" libs1 ->
              no_match "Run Keyword" [(lib, kws1)] ->
              run q = (found lib (lit "Run Keyword") v, w))
        /\ (forall q, no_match q searched ->
              run q = (KdNotFound RF_VERSION q, w))).
Proof.
  intros Hidx all_libraries run found.
  assert (Hnorm : forall q,
    In q [lit "run_keyword"; lit "Run-Keyword"; lit "run keyword"] ->
    normalize_name q = normalize_name "Run Keyword").
  { intros q [<-|[<-|[<-|[]]]]; reflexivity. }
  assert (Hrun : forall q searched,
    (if_given library_name = None /\ searched = all_libraries)
    \/ (exists l kws, if_given library_name = Some l
                      /\ Py.dict_get all_libraries l = Some kws
                      /\ searched = [(l, kws)]) ->
    run q = (match find_in_libraries (normalize_name q) searched with
             | Some (lib, (k, v)) => found lib k v
             | None => KdNotFound RF_VERSION q
             end, w)).
  { intros q searched Hs. unfold run.
    rewrite (get_keyword_documentation_on_index _ _ _ _ _ Hidx).
    unfold lookup_keyword. fold all_libraries.
    destruct Hs as [[Hnone ->]|[l [kws [Hl [Hget ->]]]]].
    - rewrite Hnone. destruct (find_in_libraries _ _) as [[lib [k v]]|];
        reflexivity.
    - rewrite Hl, Hget. destruct (find_in_libraries _ _) as [[lib [k v]]|];
        reflexivity. }
  split; [exact Hnorm|split].
  - intros q l Hl Hget. unfold run.
    rewrite (get_keyword_documentation_on_index _ _ _ _ _ Hidx).
    unfold lookup_keyword. fold all_libraries. now rewrite Hl, Hget.
  - intros searched Hs. split; [|split].
    + intros q libs1 lib kws1 k v kws2 libs2 -> Hk Hno1 Hno.
      rewrite (Hrun q _ Hs), find_in_libraries_first; auto.
    + intros q libs1 lib kws1 v kws2 libs2 Hq -> Hno1 Hno.
      rewrite (Hrun q _ Hs), (Hnorm q Hq), find_in_libraries_first; auto.
    + intros q Hno. rewrite (Hrun q _ Hs), find_in_libraries_none; auto.
Qed.

(** ** [dict] *)

Section DictFacts.
Context {V : Type}.
Implicit Types (d : Py.pydict V) (k : str) (v : V).

Lemma dict_get_set d k v k' :
  Py.dict_get (Py.dict_set d k v) k'
  = if Py.str_eqb k k' then Some v else Py.dict_get d k'.
Proof.
  induction d as [|[k0 v0] d IH]; simpl.
  - reflexivity.
  - destruct (Py.str_eqb k0 k) eqn:E0; simpl.
    + apply str_eqb_eq in E0 as ->.
      now destruct (Py.str_eqb k k').
    + rewrite IH. destruct (Py.str_eqb k0 k') eqn:E1; [|reflexivity].
      apply str_eqb_eq in E1 as ->. now rewrite str_eqb_sym, E0.
Qed.

Lemma dict_keys_set d k v k' :
  In k' (Py.dict_keys (Py.dict_set d k v))
  <-> k' = k \/ In k' (Py.dict_keys d).
Proof.
  unfold Py.dict_keys. induction d as [|[k0 v0] d IH]; simpl.
  - intuition.
  - destruct (Py.str_eqb k0 k) eqn:E0; simpl.
    + apply str_eqb_eq in E0 as ->. intuition.
    + rewrite IH. intuition.
Qed.

Lemma dict_set_nodup d k v :
  NoDup (Py.dict_keys d) -> NoDup (Py.dict_keys (Py.dict_set d k v)).
Proof.
  unfold Py.dict_keys. induction d as [|[k0 v0] d IH]; simpl; intros Hnd.
  - repeat constructor. intros [].
  - inversion Hnd as [|? ? Hnotin Hnd']; subst.
    destruct (Py.str_eqb k0 k) eqn:E0; simpl.
    + now constructor.
    + constructor; [|auto].
      intros Hin. apply (dict_keys_set d k v k0) in Hin as [->|Hin].
      * now rewrite str_eqb_refl in E0.
      * contradiction.
Qed.

Lemma dict_get_in_keys d k :
  In k (Py.dict_keys d) <-> exists v, Py.dict_get d k = Some v.
Proof.
  unfold Py.dict_keys. induction d as [|[k0 v0] d IH]; simpl.
  - split; [intros []|intros [v Hv]; discriminate].
  - destruct (Py.str_eqb k0 k) eqn:E0.
    + apply str_eqb_eq in E0 as ->. split; [eauto|auto].
    + rewrite <- IH. apply str_eqb_neq in E0. intuition.
Qed.

(** Assigning to a new key appends the item. *)
Lemma dict_set_fresh d k v :
  ~ In k (Py.dict_keys d) -> Py.dict_set d k v = d ++ [(k, v)].
Proof.
  unfold Py.dict_keys. induction d as [|[k0 v0] d IH]; simpl; intros Hn.
  - reflexivity.
  - rewrite (proj2 (str_eqb_neq k0 k)) by intuition.
    rewrite IH by intuition. reflexivity.
Qed.
End DictFacts.

(** ** Keyword normalizer *)

Lemma args_parts_ok (args : list json) :
  forallb arg_ok args = true ->
  exists parts,
    Normalizer.args_parts args = Some parts
    /\ Normalizer.strs_of parts = Some (flat_map arg_repr args).
Proof.
  induction args as [|arg args IH];
    cbn [forallb Normalizer.args_parts flat_map]; intros Hok.
  - exists []. split; reflexivity.
  - apply andb_true_iff in Hok as [Harg Hargs].
    destruct (IH Hargs) as [parts [Hp Hr]].
    unfold arg_ok in Harg. unfold arg_repr at 1. rewrite Hp.
    destruct (py_get arg "repr" (JStr [])) as [r|]; [|discriminate].
    destruct (truthy r) eqn:Et.
    + destruct r as [|b|z|f|[|c s]|l|d]; try discriminate.
      exists (JStr (c :: s) :: parts).
      cbn [Normalizer.strs_of]. now rewrite Hr.
    + exists parts. split; [reflexivity|].
      destruct r as [|b|z|f|[|c s]|l|d]; try discriminate; exact Hr.
Qed.

(** On a record of the schema the loop body does not raise: it stores,
    under the record's name, a record made from it, or skips a record
    without a name. *)
Lemma normalize_one_ok (library_name : str) (kw_data : json) :
  record_ok kw_data = true ->
  match record_name kw_data with
  | Some name =>
      exists record,
        Normalizer.normalize_one library_name kw_data
        = Normalizer.Store name record
        /\ made_from library_name kw_data record
  | None => Normalizer.normalize_one library_name kw_data = Normalizer.Skip
  end.
Proof.
  unfold record_ok, made_from, record_name, Normalizer.normalize_one.
  destruct (py_get kw_data "name" (JStr [])) as [name|] eqn:Hname;
    [|discriminate].
  destruct (truthy name) eqn:Et; simpl.
  - intros Hok. apply andb_true_iff in Hok as [Hok Hdoc].
    apply andb_true_iff in Hok as [Hstr Hargs].
    destruct name as [|b|z|f|n|l|d]; try discriminate.
    destruct n as [|c n]; [discriminate|].
    destruct (py_get kw_data "args" (JList [])) as [[|b|z|f|s|args|d]|];
      try discriminate.
    destruct (args_parts_ok args Hargs) as [parts [Hp Hr]].
    simpl. rewrite Hp, Hr.
    destruct (py_get kw_data "shortdoc" (JStr [])) as [[|b|z|f|doc|l|d]|];
      try discriminate.
    destruct kw_data as [|b|z|f|s|l|d]; try discriminate. simpl.
    eexists. split; [reflexivity|]. simpl.
    repeat split; eauto.
  - intros _. destruct name as [|b|z|f|[|c n]|l|d]; try reflexivity.
    discriminate.
Qed.

Lemma normalize_loop_fold (library_name : str) (records : list json)
    (keywords : Py.pydict KeywordRecord) :
  Forall (fun r => record_ok r = true) records ->
  Normalizer.normalize_loop library_name records keywords
  = Some (fold_left (store_record library_name) records keywords).
Proof.
  intros Hok. revert keywords.
  induction Hok as [|r records Hr _ IH]; intros keywords; [reflexivity|].
  simpl. unfold store_record at 2.
  pose proof (normalize_one_ok library_name r Hr) as H1.
  destruct (record_name r).
  - destruct H1 as [rec [-> _]]. apply IH.
  - rewrite H1. apply IH.
Qed.

Section StoreFacts.
Variable library_name : str.
Lemma store_nodup (records : list json) (keywords : Py.pydict KeywordRecord) :
  NoDup (Py.dict_keys keywords) ->
  NoDup (Py.dict_keys (fold_left (store_record library_name) records keywords)).
Proof.
  revert keywords. induction records as [|r records IH]; simpl; [auto|].
  intros keywords Hnd. apply IH. unfold store_record.
  destruct (Normalizer.normalize_one library_name r); auto.
  now apply dict_set_nodup.
Qed.

Lemma store_keys (records : list json) (keywords : Py.pydict KeywordRecord)
    (name : str) :
  Forall (fun r => record_ok r = true) records ->
  In name (Py.dict_keys (fold_left (store_record library_name) records keywords))
  <-> In name (Py.dict_keys keywords)
      \/ exists r, In r records /\ record_name r = Some name.
Proof.
  intros Hok. revert keywords.
  induction Hok as [|r records Hr _ IH]; intros keywords; simpl.
  - split; [auto|intros [H|[r [[] _]]]; exact H].
  - rewrite IH. unfold store_record.
    pose proof (normalize_one_ok library_name r Hr) as H1.
    destruct (record_name r) as [n|] eqn:En.
    + destruct H1 as [rec [-> _]]. rewrite dict_keys_set.
      split.
      * intros [[->|H]|[r' [Hin Hn]]]; eauto.
      * intros [H|[r' [[<-|Hin] Hn]]]; eauto.
        left. left. congruence.
    + rewrite H1. split.
      * intros [H|[r' [Hin Hn]]]; eauto.
      * intros [H|[r' [[<-|Hin] Hn]]]; eauto. congruence.
Qed.

Lemma store_other (records : list json) (keywords : Py.pydict KeywordRecord)
    (name : str) :
  Forall (fun r => record_ok r = true) records ->
  (forall r, In r records -> record_name r <> Some name) ->
  Py.dict_get (fold_left (store_record library_name) records keywords) name
  = Py.dict_get keywords name.
Proof.
  intros Hok. revert keywords.
  induction Hok as [|r records Hr _ IH]; intros keywords Hno; simpl;
    [reflexivity|].
  rewrite IH by (intros r' Hin; apply Hno; now right).
  unfold store_record.
  pose proof (normalize_one_ok library_name r Hr) as H1.
  destruct (record_name r) as [n|] eqn:En.
  - destruct H1 as [rec [-> _]]. rewrite dict_get_set.
    rewrite (proj2 (str_eqb_neq n name)); [reflexivity|].
    intros ->. apply (Hno r); [now left|exact En].
  - now rewrite H1.
Qed.

Lemma store_skips_unnamed (records : list json)
    (keywords : Py.pydict KeywordRecord) :
  Forall (fun r => record_ok r = true) records ->
  fold_left (store_record library_name) (filter has_name records) keywords
  = fold_left (store_record library_name) records keywords.
Proof.
  intros Hok. revert keywords.
  induction Hok as [|r records Hr _ IH]; intros keywords; [reflexivity|].
  simpl. unfold has_name at 1.
  pose proof (normalize_one_ok library_name r Hr) as H1.
  destruct (record_name r) as [n|] eqn:En; simpl.
  - apply IH.
  - rewrite IH. unfold store_record at 3. now rewrite H1.
Qed.
End StoreFacts.

Lemma nodup_key_once {V} (d : Py.pydict V) (k : str) :
  NoDup (Py.dict_keys d) -> In k (Py.dict_keys d) ->
  length (filter (fun kv => Py.str_eqb (fst kv) k) d) = 1.
Proof.
  unfold Py.dict_keys. induction d as [|[k0 v0] d IH]; simpl; [intros _ []|].
  intros Hnd Hin. inversion Hnd as [|? ? Hnotin Hnd']; subst.
  destruct (Py.str_eqb k0 k) eqn:E.
  - apply str_eqb_eq in E as ->. simpl. f_equal.
    apply length_zero_iff_nil.
    destruct (filter _ d) as [|[k1 v1] l] eqn:Ef; [reflexivity|].
    assert (Hin1 : In (k1, v1) (filter (fun kv => Py.str_eqb (fst kv) k) d))
      by (rewrite Ef; now left).
    apply filter_In in Hin1 as [Hin1 Heq]. simpl in Heq.
    apply str_eqb_eq in Heq as ->. exfalso. apply Hnotin.
    change k with (fst (k, v1)). now apply in_map.
  - apply IH; [exact Hnd'|]. destruct Hin as [->|Hin]; [|exact Hin].
    now rewrite str_eqb_refl in E.
Qed.

(** C6 (amended). On a list of records of the libdoc schema the normalizer
    returns a mapping whose keys are distinct and are exactly the non-empty names of
    the input. Of the records that share a name the mapping holds one
    record, made from the last of them. A record whose name is missing or
    empty is skipped: the mapping is the one of the list without such
    records. *)
Theorem normalizer_last_write_wins (library_name : str) (libdoc_data : json)
    (records : list json) :
  py_get libdoc_data "keywords" (JList []) = Some (JList records) ->
  Forall (fun r => record_ok r = true) records ->
  exists keywords : Py.pydict KeywordRecord,
    Normalizer.normalize library_name libdoc_data = Some keywords
    /\ NoDup (Py.dict_keys keywords)
    /\ (forall name,
          In name (Py.dict_keys keywords)
          <-> exists r, In r records /\ record_name r = Some name)
    /\ (forall l1 r l2 name,
          records = l1 ++ r :: l2 ->
          record_name r = Some name ->
          (forall r', In r' l2 -> record_name r' <> Some name) ->
          exists record,
            Py.dict_get keywords name = Some record
            /\ made_from library_name r record
            /\ length (filter (fun kv => Py.str_eqb (fst kv) name) keywords)
               = 1)
    /\ (forall r, In r records -> record_name r = None ->
          Normalizer.normalize_one library_name r = Normalizer.Skip)
    /\ Normalizer.normalize library_name
         (JDict [(lit "keywords", JList (filter has_name records))])
       = Some keywords.
Proof.
  intros Hget Hok.
  exists (fold_left (store_record library_name) records []).
  assert (Hnd : NoDup (Py.dict_keys
                 (fold_left (store_record library_name) records [])))
    by (apply store_nodup; constructor).
  assert (Hkeys : forall name,
    In name (Py.dict_keys (fold_left (store_record library_name) records []))
    <-> exists r, In r records /\ record_name r = Some name).
  { intros name. rewrite store_keys by exact Hok. simpl. tauto. }
  split; [|split; [|split; [|split; [|split]]]].
  - unfold Normalizer.normalize. rewrite Hget. simpl.
    now apply normalize_loop_fold.
  - exact Hnd.
  - exact Hkeys.
  - intros l1 r l2 name -> Hname Hlast.
    apply Forall_app in Hok as Hok'. destruct Hok' as [_ Hok2].
    inversion Hok2 as [|? ? Hr Hok3]; subst.
    pose proof (normalize_one_ok library_name r Hr) as H1.
    rewrite Hname in H1. destruct H1 as [record [Hstore Hmade]].
    exists record. split; [|split; [exact Hmade|]].
    + rewrite fold_left_app. simpl.
      rewrite store_other by assumption.
      unfold store_record at 1. rewrite Hstore, dict_get_set.
      now rewrite str_eqb_refl.
    + apply nodup_key_once; [exact Hnd|]. apply Hkeys.
      exists r. split; [|exact Hname]. apply in_or_app. right. now left.
  - intros r Hin Hname. rewrite Forall_forall in Hok.
    pose proof (normalize_one_ok library_name r (Hok r Hin)) as H1.
    now rewrite Hname in H1.
  - unfold Normalizer.normalize. simpl.
    rewrite normalize_loop_fold.
    + now rewrite store_skips_unnamed.
    + rewrite Forall_forall in *. intros r Hin.
      apply filter_In in Hin as [Hin _]. auto.
Qed.

(** ** Trimming *)

Lemma lstrip_starts_ok (s : str) : starts_ok (Py.lstrip s).
Proof.
  induction s as [|c s IH]; simpl; [exact I|].
  destruct (Py.is_space c) eqn:E; [exact IH|exact E].
Qed.

Lemma lstrip_id (s : str) : starts_ok s -> Py.lstrip s = s.
Proof. destruct s as [|c s]; simpl; [auto|]. now intros ->. Qed.

Lemma lstrip_snoc (s : str) (c : ascii) :
  Py.is_space c = false -> Py.lstrip (s ++ [c]) = Py.lstrip s ++ [c].
Proof.
  intros Hc. induction s as [|x s IH]; simpl.
  - now rewrite Hc.
  - destruct (Py.is_space x); [exact IH|reflexivity].
Qed.

Lemma strip_id (s : str) :
  starts_ok s -> starts_ok (rev s) -> Py.strip s = s.
Proof.
  intros H1 H2. unfold Py.strip, Py.rstrip.
  rewrite (lstrip_id s H1), (lstrip_id _ H2). apply rev_involutive.
Qed.

Lemma strip_starts_ok (s : str) : starts_ok (Py.strip s).
Proof.
  unfold Py.strip, Py.rstrip.
  pose proof (lstrip_starts_ok s) as H.
  destruct (Py.lstrip s) as [|c t]; [exact I|].
  simpl in H. simpl rev. rewrite (lstrip_snoc _ _ H), rev_app_distr.
  exact H.
Qed.

Lemma strip_ends_ok (s : str) : starts_ok (rev (Py.strip s)).
Proof.
  unfold Py.strip, Py.rstrip. rewrite rev_involutive.
  apply lstrip_starts_ok.
Qed.

Lemma starts_ok_app (a b : str) : a <> [] -> starts_ok a -> starts_ok (a ++ b).
Proof. destruct a; [congruence|auto]. Qed.

Lemma join_trimmed (p : str) (parts : list str) :
  Forall trimmed (p :: parts) -> trimmed (Py.join " " (p :: parts)).
Proof.
  revert p. induction parts as [|q parts IH]; intros p Hall.
  - now inversion Hall.
  - inversion Hall as [|? ? [Hne [Hs He]] Hrest]; subst.
    specialize (IH q Hrest) as [Hne' [Hs' He']].
    change (Py.join " " (p :: q :: parts))
      with (p ++ lit " " ++ Py.join " " (q :: parts)).
    split; [|split].
    + destruct p; [congruence|discriminate].
    + now apply starts_ok_app.
    + rewrite !rev_app_distr, <- app_assoc. apply starts_ok_app; [|exact He'].
      intros E. apply Hne'. apply (f_equal (@rev ascii)) in E.
      now rewrite rev_involutive in E.
Qed.

(** Joining trimmed, non-empty texts leaves nothing to trim. *)
Lemma strip_join_texts (parts : list str) :
  Forall trimmed parts -> Py.strip (Py.join " " parts) = Py.join " " parts.
Proof.
  destruct parts as [|p parts]; intros Hall; [reflexivity|].
  destruct (join_trimmed p parts Hall) as [_ [Hs He]]. now apply strip_id.
Qed.

Lemma strip_trimmed (d : str) : Py.strip d <> [] -> trimmed (Py.strip d).
Proof.
  intros Hne. split; [exact Hne|split].
  - apply strip_starts_ok.
  - apply strip_ends_ok.
Qed.

(** ** Section extractor *)

Import DocumentationParser.

(** The parser takes for a heading what the specification does. *)
Lemma heading_level_spec (tag : str) : heading_level tag = level_of tag.
Proof.
  unfold heading_level, level_of, headings. cbn [Py.dict_get].
  rewrite !(str_eqb_sym tag). reflexivity.
Qed.

Lemma feed_app (p : t) (a b : list html_event) :
  feed p (a ++ b) = feed (feed p a) b.
Proof. apply fold_left_app. Qed.

Lemma texts_trimmed (events : list html_event) :
  Forall trimmed (filter nonempty (texts events)).
Proof.
  apply Forall_forall. intros s Hin. apply filter_In in Hin as [Hin Hne].
  unfold texts in Hin. apply in_flat_map in Hin as [e [_ Hin]].
  destruct e; try contradiction. destruct Hin as [<-|[]].
  apply strip_trimmed. now destruct (Py.strip data).
Qed.

(** Before the first heading nothing is recorded. *)
Lemma feed_before_first_heading (pre : list html_event) :
  no_heading_start pre = true -> feed init pre = init.
Proof.
  unfold feed. induction pre as [|e pre IH]; simpl; [reflexivity|].
  intros H. apply andb_true_iff in H as [He Hpre].
  assert (Hstep : handle init e = init).
  { destruct e as [tag attrs|tag|data]; simpl in *.
    - unfold handle_starttag. rewrite heading_level_spec. now destruct (level_of tag).
    - unfold handle_endtag. rewrite heading_level_spec. now destruct (level_of tag).
    - reflexivity. }
  rewrite Hstep. now apply IH.
Qed.

(** Behind the end tag of its heading, a section collects the non-empty
    texts. *)
Lemma feed_after_heading (cp : list html_event) (q : t) (s : Section) :
  no_heading_start cp = true ->
  current_section q = Some s -> in_section q = false ->
  feed q cp
  = {| sections := sections q; current_section := Some s;
       current_content := current_content q ++ filter nonempty (texts cp);
       in_section := false; section_level := section_level q |}.
Proof.
  unfold feed. revert q.
  induction cp as [|e cp IH]; intros q Hno Hcur Hin; simpl.
  - rewrite app_nil_r. destruct q; simpl in *. now subst.
  - simpl in Hno. apply andb_true_iff in Hno as [He Hcp].
    destruct e as [tag attrs|tag|data]; simpl in *.
    + unfold handle_starttag. rewrite heading_level_spec. destruct (level_of tag); [discriminate|].
      now apply IH.
    + unfold handle_endtag. rewrite heading_level_spec. destruct (level_of tag).
      * rewrite IH; auto.
      * now apply IH.
    + unfold handle_data. rewrite Hcur, Hin.
      destruct (Py.strip data) as [|c r] eqn:Es; simpl.
      * now apply IH.
      * rewrite IH; simpl; auto. now rewrite <- app_assoc.
Qed.

Lemma last_cons {A} (x d : A) (l : list A) : last (x :: l) d = last l x.
Proof.
  revert x d. induction l as [|y l IH]; intros x d; [reflexivity|].
  change (last (x :: y :: l) d) with (last (y :: l) d).
  now rewrite !IH.
Qed.

(** From the start tag of a heading on: the last text inside the heading is
    the title, the texts behind it are the content. *)
Lemma close_after_body (body : list html_event) (q : t) (s : Section) :
  no_heading_start body = true ->
  current_section q = Some s -> in_section q = true ->
  close_section (feed q body)
  = sections q ++
    [ {| sec_id := sec_id s; sec_level := sec_level s;
         sec_title := last (texts (heading_part body)) (sec_title s);
         sec_content :=
           Py.strip (Py.join " "
             (current_content q
              ++ filter nonempty (texts (after_heading body)))) |} ].
Proof.
  revert q s. induction body as [|e body IH]; intros q s Hno Hcur Hin.
  - simpl. unfold close_section. rewrite Hcur, app_nil_r. reflexivity.
  - simpl in Hno. apply andb_true_iff in Hno as [He Hbody].
    change (feed q (e :: body)) with (feed (handle q e) body).
    destruct e as [tag attrs|tag|data]; simpl in *.
    + unfold handle_starttag. rewrite heading_level_spec. destruct (level_of tag); [discriminate|].
      now apply IH.
    + unfold handle_endtag. rewrite heading_level_spec. destruct (level_of tag) eqn:Eh.
      * rewrite (feed_after_heading body _ s); auto.
      * now apply IH.
    + unfold handle_data. rewrite Hcur, Hin.
      erewrite IH; [|exact Hbody|simpl; reflexivity|reflexivity].
      simpl. destruct (texts (heading_part body)) as [|x l]; [reflexivity|].
      now rewrite !last_cons.
Qed.

(** Once a section is open, one stays open. *)
Lemma feed_keeps_open (body : list html_event) (q : t) :
  (exists s, current_section q = Some s) ->
  exists s, current_section (feed q body) = Some s.
Proof.
  unfold feed. revert q.
  induction body as [|e body IH]; intros q Hq; [exact Hq|].
  simpl. apply IH. destruct Hq as [s Hs].
  destruct e as [tag attrs|tag|data]; simpl.
  - unfold handle_starttag. rewrite heading_level_spec. destruct (level_of tag); simpl; eauto.
  - unfold handle_endtag. rewrite heading_level_spec. destruct (level_of tag); simpl; eauto.
  - unfold handle_data. rewrite Hs.
    destruct (in_section q); simpl; eauto.
    destruct (Py.strip data); simpl; eauto.
Qed.

Lemma close_after_chunk (c : Chunk) (p : t) :
  chunk_ok c ->
  close_section (feed p (chunk_events c))
  = close_section p ++ [section_of c]
  /\ exists s, current_section (feed p (chunk_events c)) = Some s.
Proof.
  intros [Hstart Hbody]. unfold chunk_events.
  change (feed p (StartTag (ch_tag c) (ch_attrs c) :: ch_body c))
    with (feed (handle_starttag p (ch_tag c) (ch_attrs c)) (ch_body c)).
  simpl in Hstart. unfold handle_starttag, section_of.
  rewrite heading_level_spec.
  destruct (level_of (ch_tag c)) as [lvl|]; [|discriminate].
  split.
  - erewrite close_after_body; [|exact Hbody|reflexivity|reflexivity].
    simpl. rewrite strip_join_texts by apply texts_trimmed. reflexivity.
  - apply feed_keeps_open. eexists. reflexivity.
Qed.

Lemma close_after_chunks (chunks : list Chunk) (p : t) :
  Forall chunk_ok chunks ->
  close_section (feed p (flat_map chunk_events chunks))
  = close_section p ++ map section_of chunks.
Proof.
  intros Hok. revert p.
  induction Hok as [|c chunks Hc _ IH]; intros p; cbn [flat_map map].
  - now rewrite app_nil_r.
  - rewrite feed_app, IH.
    destruct (close_after_chunk c p Hc) as [-> _].
    now rewrite <- app_assoc.
Qed.

Lemma chunks_of_spec (events : list html_event) :
  events = fst (chunks_of events)
           ++ flat_map chunk_events (snd (chunks_of events))
  /\ no_heading_start (fst (chunks_of events)) = true
  /\ Forall chunk_ok (snd (chunks_of events)).
Proof.
  induction events as [|e events [IH1 [IH2 IH3]]]; simpl.
  - repeat split. constructor.
  - destruct (chunks_of events) as [pre chunks]. simpl in *.
    destruct e as [tag attrs|tag|data]; simpl.
    + destruct (level_of tag) eqn:Eh; simpl.
      * repeat split.
        -- now f_equal.
        -- constructor; [|exact IH3]. split; simpl; [now rewrite Eh|exact IH2].
      * rewrite Eh. simpl. repeat split; [now f_equal|auto|auto].
    + repeat split; [now f_equal|auto|auto].
    + repeat split; [now f_equal|auto|auto].
Qed.

(** C7. The events of a document split into the events before the first
    h1..h4 start tag and one chunk per such tag, in document order. The
    extractor returns the sections of the chunks, in that order: the title
    of a section is the last text inside its heading and its content is the
    non-empty trimmed texts after the heading and before the next one (or
    the end), joined by single spaces. The events before the first heading
    give no section, and the last chunk gives one without a further
    heading. *)
Theorem sections_follow_headings (events : list html_event) :
  let pre := fst (chunks_of events) in
  let chunks := snd (chunks_of events) in
  events = pre ++ flat_map chunk_events chunks
  /\ no_heading_start pre = true
  /\ Forall chunk_ok chunks
  /\ get_sections (feed init events) = map section_of chunks
  /\ get_sections (feed init events)
     = get_sections (feed init (flat_map chunk_events chunks))
  /\ length (get_sections (feed init events))
     = length (filter is_heading_start events).
Proof.
  intros pre chunks.
  destruct (chunks_of_spec events) as [Hsplit [Hpre Hchunks]].
  fold pre chunks in Hsplit, Hpre, Hchunks.
  assert (Hrun : forall l, get_sections (feed init (l ++ flat_map chunk_events chunks))
                 = map section_of chunks \/ no_heading_start l = false).
  { intros l. destruct (no_heading_start l) eqn:El; [left|now right].
    unfold get_sections.
    now rewrite feed_app, (feed_before_first_heading l El), close_after_chunks. }
  assert (Hsec : get_sections (feed init events) = map section_of chunks).
  { rewrite Hsplit at 1. destruct (Hrun pre) as [H|H]; [exact H|congruence]. }
  split; [exact Hsplit|]. split; [exact Hpre|]. split; [exact Hchunks|].
  split; [exact Hsec|]. split.
  - rewrite Hsec. destruct (Hrun []) as [H|H]; [|discriminate].
    symmetry. exact H.
  - rewrite Hsec, length_map, Hsplit, filter_app.
    assert (E1 : filter is_heading_start pre = []).
    { clear -Hpre. induction pre as [|e l IH]; [reflexivity|].
      simpl in *. apply andb_true_iff in Hpre as [He Hl].
      destruct (is_heading_start e); [discriminate|auto]. }
    rewrite E1. simpl. clear -Hchunks.
    induction Hchunks as [|c cs [Hs Hb] _ IH]; [reflexivity|].
    cbn [flat_map]. unfold chunk_events at 1.
    cbn [app filter]. rewrite Hs, filter_app.
    assert (E2 : filter is_heading_start (ch_body c) = []).
    { clear -Hb. induction (ch_body c) as [|e l IH]; [reflexivity|].
      simpl in *. apply andb_true_iff in Hb as [He Hl].
      destruct (is_heading_start e); [discriminate|auto]. }
    rewrite E2. simpl. now rewrite IH.
Qed.

(** ** Embedded-JSON extractor *)

Import JsonGrammar.

Lemma scan_plain (c : ascii) (s : str) (i : nat) (depth : Z) :
  plain c = true ->
  Extractor.scan (c :: s) i depth false false
  = Extractor.scan s (S i) depth false false.
Proof.
  unfold plain. intros H. apply negb_true_iff in H.
  repeat (apply orb_false_iff in H as [H ?]).
  simpl. now rewrite H, H0, H1, H2.
Qed.

Lemma ascii_eqb_neq (a b : ascii) : a <> b -> Py.ascii_eqb a b = false.
Proof.
  intros H. apply Bool.not_true_iff_false. intros E.
  now apply ascii_eqb_eq in E.
Qed.

Lemma passes_nil : passes [].
Proof. intros rest i depth _. simpl. now rewrite Nat.add_0_r. Qed.

Lemma passes_app (a b : str) : passes a -> passes b -> passes (a ++ b).
Proof.
  intros Ha Hb rest i depth Hd.
  rewrite <- app_assoc, Ha, Hb, length_app by assumption.
  now rewrite Nat.add_assoc.
Qed.

Lemma passes_plain (s : str) : forallb plain s = true -> passes s.
Proof.
  induction s as [|c s IH]; intros H; [apply passes_nil|].
  simpl in H. apply andb_true_iff in H as [Hc Hs].
  intros rest i depth Hd. simpl app.
  rewrite scan_plain, (IH Hs) by assumption. simpl.
  now rewrite Nat.add_succ_r.
Qed.

(** Inside a string literal the scanner passes over its characters and is
    still inside the literal. *)
Lemma scan_chars (k : str) :
  chars k ->
  forall (rest : str) (i : nat) (depth : Z),
    Extractor.scan (k ++ rest) i depth true false
    = Extractor.scan rest (i + length k) depth true false.
Proof.
  induction 1 as [|c s Hq Hb _ IH|c s _ _ IH|h1 h2 h3 h4 s H _ IH];
    intros rest i depth.
  - simpl. now rewrite Nat.add_0_r.
  - simpl app. cbn [Extractor.scan].
    unfold backslash in Hb. unfold dquote in Hq.
    rewrite (ascii_eqb_neq _ _ Hb), (ascii_eqb_neq _ _ Hq).
    simpl negb. cbv iota. rewrite IH. simpl. now rewrite Nat.add_succ_r.
  - simpl app. cbn [Extractor.scan]. unfold backslash.
    change (Py.ascii_eqb "\" "\") with true. cbv iota.
    rewrite IH. simpl. now rewrite !Nat.add_succ_r.
  - simpl app. cbn [Extractor.scan]. unfold backslash.
    change (Py.ascii_eqb "\" "\") with true. cbv iota.
    assert (Hp : forall h, is_hex h = true ->
                 Py.ascii_eqb h "\" = false /\ Py.ascii_eqb h "034" = false).
    { intros h Hh. split; apply Bool.not_true_iff_false; intros E;
        apply ascii_eqb_eq in E; subst h; discriminate. }
    simpl in H. repeat (apply andb_true_iff in H as [? H]).
    destruct (Hp h1) as [-> ->]; [assumption|].
    destruct (Hp h2) as [-> ->]; [assumption|].
    destruct (Hp h3) as [-> ->]; [assumption|].
    destruct (Hp h4) as [-> ->]; [assumption|].
    simpl negb. cbv iota. rewrite IH. simpl. now rewrite !Nat.add_succ_r.
Qed.

Lemma passes_string (k : str) : chars k -> passes (dquote :: k ++ [dquote]).
Proof.
  intros Hk rest i depth Hd. simpl app. rewrite <- app_assoc.
  cbn [Extractor.scan]. unfold dquote at 1.
  change (Py.ascii_eqb "034" "\") with false.
  change (Py.ascii_eqb "034" "034") with true. cbv iota. simpl negb.
  rewrite (scan_chars k Hk). simpl app. cbn [Extractor.scan].
  unfold dquote.
  change (Py.ascii_eqb "034" "\") with false.
  change (Py.ascii_eqb "034" "034") with true. cbv iota. simpl negb.
  f_equal. cbn [length]. rewrite length_app. simpl. lia.
Qed.

Lemma passes_ws (w : str) : ws w -> passes w.
Proof.
  intros Hw. apply passes_plain. unfold ws in Hw.
  rewrite forallb_forall in *. intros c Hc. specialize (Hw c Hc).
  unfold is_ws in Hw. repeat (apply orb_true_iff in Hw as [Hw|Hw]);
    apply ascii_eqb_eq in Hw; subst c; reflexivity.
Qed.

Lemma digit_plain (c : ascii) : is_digit c = true -> plain c = true.
Proof.
  unfold is_digit, plain. intros H. apply negb_true_iff.
  repeat (apply orb_false_iff; split); apply Bool.not_true_iff_false;
    intros E; apply ascii_eqb_eq in E; subst c; discriminate.
Qed.

Lemma digits_plain (d : str) :
  forallb is_digit d = true -> forallb plain d = true.
Proof.
  rewrite !forallb_forall. intros H c Hc. apply digit_plain. auto.
Qed.

Lemma passes_number (s : str) : number s -> passes s.
Proof.
  intros [sign [i [f [e [-> [Hsign [Hi [Hf He]]]]]]]].
  repeat apply passes_app.
  - destruct Hsign as [->| ->]; now apply passes_plain.
  - destruct Hi as [->|[c [r [-> [Hc [_ Hr]]]]]]; apply passes_plain;
      [reflexivity|]. simpl. now rewrite digit_plain, digits_plain.
  - destruct Hf as [->|[d [-> [_ Hd]]]]; apply passes_plain;
      [reflexivity|]. simpl. now rewrite digits_plain.
  - destruct He as [->|[x [sg [d [-> [Hx [Hsg [_ Hd]]]]]]]];
      [apply passes_nil|].
    apply (passes_app [x]); [|apply passes_app].
    + destruct Hx as [->| ->]; now apply passes_plain.
    + destruct Hsg as [->|[->| ->]]; now apply passes_plain.
    + apply passes_plain. now apply digits_plain.
Qed.

(** A pair of braces around a text the scanner passes over: at depth 0 the
    closing brace ends the scan, at a larger depth the scan goes on. *)
Lemma scan_braces (inner : str) :
  passes inner ->
  passes ("{" ++ inner ++ "}")
  /\ forall rest i,
       Extractor.scan (("{" ++ inner ++ "}") ++ rest) i 0%Z false false
       = Some (i + length ("{" ++ inner ++ "}")).
Proof.
  intros Hin.
  assert (Hstep : forall rest i depth, (0 <= depth)%Z ->
    Extractor.scan (("{" ++ inner ++ "}") ++ rest) i depth false false
    = if (depth =? 0)%Z then Some (i + length ("{" ++ inner ++ "}"))
      else Extractor.scan rest (i + length ("{" ++ inner ++ "}")) depth
             false false).
  { intros rest i depth Hd.
    change (("{" ++ inner ++ "}") ++ rest)
      with ("{"%char :: (inner ++ lit "}") ++ rest).
    rewrite <- app_assoc. cbn [Extractor.scan].
    change (Py.ascii_eqb "{" "\") with false.
    change (Py.ascii_eqb "{" "034") with false.
    change (Py.ascii_eqb "{" "{") with true. cbv iota. simpl negb. cbv iota.
    rewrite Hin by lia.
    change (lit "}" ++ rest) with ("}"%char :: rest). cbn [Extractor.scan].
    change (Py.ascii_eqb "}" "\") with false.
    change (Py.ascii_eqb "}" "034") with false.
    change (Py.ascii_eqb "}" "{") with false.
    change (Py.ascii_eqb "}" "}") with true. cbv iota. simpl negb. cbv iota.
    replace (depth + 1 - 1)%Z with depth by lia.
    change (length ("{" ++ inner ++ "}")) with (S (length (inner ++ lit "}"))).
    rewrite length_app. change (length (lit "}")) with 1.
    replace (S i + length inner + 1) with (i + S (length inner + 1)) by lia.
    replace (S (S i + length inner)) with (i + S (length inner + 1)) by lia.
    reflexivity. }
  split.
  - intros rest i depth Hd. rewrite Hstep by lia.
    destruct (depth =? 0)%Z eqn:E; [|reflexivity]. apply Z.eqb_eq in E. lia.
  - intros rest i. now rewrite Hstep.
Qed.

Lemma grammar_passes :
  (forall v, value v -> passes v)
  /\ (forall o, object o ->
        passes o
        /\ forall rest i,
             Extractor.scan (o ++ rest) i 0%Z false false
             = Some (i + length o))
  /\ (forall els, elements els -> passes els)
  /\ (forall ms, members ms -> passes ms).
Proof.
  apply grammar_mutind.
  - now apply passes_plain.
  - now apply passes_plain.
  - now apply passes_plain.
  - apply passes_number.
  - apply passes_string.
  - intros w Hw. repeat apply passes_app; try (now apply passes_plain).
    now apply passes_ws.
  - intros els _ Hels. repeat apply passes_app; try (now apply passes_plain).
    exact Hels.
  - intros o _ [Ho _]. exact Ho.
  - intros w Hw. apply scan_braces. now apply passes_ws.
  - intros ms _ Hms. now apply scan_braces.
  - intros w1 v w2 Hw1 _ Hv Hw2.
    repeat apply passes_app; auto using passes_ws.
  - intros w1 v w2 els Hw1 _ Hv Hw2 _ Hels.
    repeat apply passes_app; auto using passes_ws.
    now apply passes_plain.
  - intros w1 k w2 w3 v w4 Hw1 Hk Hw2 Hw3 _ Hv Hw4.
    apply passes_app; [now apply passes_ws|].
    change (dquote :: k ++ [dquote] ++ w2 ++ ":" ++ w3 ++ v ++ w4)
      with ((dquote :: k) ++ [dquote] ++ w2 ++ ":" ++ w3 ++ v ++ w4).
    rewrite (app_assoc (dquote :: k) [dquote]).
    apply passes_app; [now apply passes_string|].
    repeat apply passes_app; auto using passes_ws.
    now apply passes_plain.
  - intros w1 k w2 w3 v w4 ms Hw1 Hk Hw2 Hw3 _ Hv Hw4 _ Hms.
    apply passes_app; [now apply passes_ws|].
    change (dquote :: k ++ [dquote] ++ w2 ++ ":" ++ w3 ++ v ++ w4 ++ "," ++ ms)
      with ((dquote :: k) ++ [dquote] ++ w2 ++ ":" ++ w3 ++ v ++ w4
            ++ "," ++ ms).
    rewrite (app_assoc (dquote :: k) [dquote]).
    apply passes_app; [now apply passes_string|].
    repeat apply passes_app; auto using passes_ws; now apply passes_plain.
Qed.

(** The scan ends, if it does, on a character it has read. *)
Lemma scan_bound (s : str) (i : nat) (depth : Z) (in_string escape : bool)
    (k : nat) :
  Extractor.scan s i depth in_string escape = Some k ->
  i < k <= i + length s.
Proof.
  revert i depth in_string escape.
  induction s as [|c s IH]; intros i depth in_string escape; [discriminate|].
  cbn [Extractor.scan length].
  repeat match goal with
         | |- context [if ?b then _ else _] => destruct b
         end;
    intros H; try (apply IH in H; lia).
  injection H as <-. lia.
Qed.

(** Where the scan ends does not depend on the text behind that place. *)
Lemma scan_extend (p q : str) (i : nat) (depth : Z)
    (in_string escape : bool) (k : nat) :
  Extractor.scan p i depth in_string escape = Some k ->
  Extractor.scan (p ++ q) i depth in_string escape = Some k.
Proof.
  revert i depth in_string escape.
  induction p as [|c p IH]; intros i depth in_string escape; [discriminate|].
  cbn [Extractor.scan app].
  repeat match goal with
         | |- context [if ?b then _ else _] => destruct b
         end; auto.
Qed.

(** No proper prefix of a JSON object ends the scan. *)
Lemma scan_prefix_open (o : str) (n i : nat) :
  object o -> n < length o ->
  Extractor.scan (firstn n o) i 0%Z false false = None.
Proof.
  intros Ho Hn.
  destruct (Extractor.scan (firstn n o) i 0%Z false false) as [k|] eqn:E;
    [|reflexivity].
  pose proof (scan_bound _ _ _ _ _ _ E) as Hk.
  apply (scan_extend _ (skipn n o)) in E. rewrite firstn_skipn in E.
  destruct grammar_passes as [_ [Hobj _]].
  destruct (Hobj o Ho) as [_ Hend]. specialize (Hend [] i).
  rewrite app_nil_r in Hend. rewrite Hend in E. injection E as <-.
  rewrite length_firstn in Hk. lia.
Qed.

Lemma object_braces (o : str) :
  object o -> exists inner, o = "{" ++ inner ++ "}".
Proof. destruct 1; eauto. Qed.

(** C1. Let the first match of the anchor pattern in a page end at the
    opening brace of a well-formed JSON object (nested objects and arrays,
    strings that hold braces, escaped quotes and backslashes). The scanner
    reads one character at a time by the rules of the loop, ends on the
    closing brace of that object and nowhere before it, and the extracted
    text is that object, brace to brace; what the page parser decodes is
    this text. *)
Theorem extractor_returns_object `{PyRuntime} (library_name : str)
    (html_content obj rest : str) (match_start match_end : nat) :
  Extractor.search_libdoc html_content 0 = Some (match_start, match_end) ->
  skipn (match_end - 1) html_content = obj ++ rest ->
  JsonGrammar.object obj ->
  let start_pos := match_end - 1 in
  Extractor.extract html_content = Extractor.Extracted obj
  /\ obj = Extractor.substring start_pos (start_pos + length obj) html_content
  /\ (exists inner, obj = "{" ++ inner ++ "}")
  /\ Extractor.scan (skipn start_pos html_content) start_pos 0%Z false false
     = Some (start_pos + length obj)
  /\ (forall n, n < length obj ->
        Extractor.scan (firstn n obj) start_pos 0%Z false false = None)
  /\ (forall c s i depth in_string escape,
        Extractor.scan (c :: s) i depth in_string escape
        = if escape then Extractor.scan s (S i) depth in_string false
          else if Py.ascii_eqb c "\"
          then Extractor.scan s (S i) depth in_string true
          else if Py.ascii_eqb c "034"
          then Extractor.scan s (S i) depth (negb in_string) false
          else if in_string then Extractor.scan s (S i) depth true false
          else if Py.ascii_eqb c "{"
          then Extractor.scan s (S i) (depth + 1)%Z false false
          else if Py.ascii_eqb c "}"
          then (if (depth - 1 =? 0)%Z then Some (i + 1)
                else Extractor.scan s (S i) (depth - 1)%Z false false)
          else Extractor.scan s (S i) depth false false)
  /\ parse_library_page library_name html_content
     = match json_loads obj with
       | inr message => KwFailure (JSONDecodeError message)
       | inl libdoc_data =>
           match Normalizer.normalize library_name libdoc_data with
           | None => KwFailure ParsingError
           | Some keywords =>
               KwSuccess library_name keywords (length keywords)
           end
       end.
Proof.
  intros Hsearch Hskip Hobj start_pos.
  destruct grammar_passes as [_ [Hpass _]].
  destruct (Hpass obj Hobj) as [_ Hend].
  assert (Hscan : Extractor.scan (skipn start_pos html_content) start_pos
                    0%Z false false = Some (start_pos + length obj)).
  { unfold start_pos. rewrite Hskip. apply Hend. }
  assert (Hsub : Extractor.substring start_pos (start_pos + length obj)
                   html_content = obj).
  { unfold Extractor.substring, start_pos. rewrite Hskip.
    replace (match_end - 1 + length obj - (match_end - 1)) with (length obj)
      by lia.
    rewrite firstn_app, Nat.sub_diag, firstn_all. simpl.
    apply app_nil_r. }
  assert (Hext : Extractor.extract html_content = Extractor.Extracted obj).
  { unfold Extractor.extract. rewrite Hsearch. fold start_pos.
    now rewrite Hscan, Hsub. }
  split; [exact Hext|]. split; [now rewrite Hsub|].
  split; [now apply object_braces|]. split; [exact Hscan|].
  split; [intros n Hn; now apply scan_prefix_open|]. split.
  - intros c s i depth in_string escape. cbn [Extractor.scan].
    destruct escape, in_string; reflexivity.
  - unfold parse_library_page. now rewrite Hext.
Qed.

(** ** Rebuild *)

Lemma world_eta (w : World) :
  {| fs := fs w; requests := requests w; clock := clock w |} = w.
Proof. now destruct w. Qed.

Lemma fs_eta (f : FS) :
  {| docs_file := docs_file f; index_file := index_file f;
     keywords_index := keywords_index f; library_files := library_files f |}
  = f.
Proof. now destruct f. Qed.

Lemma read_write_same (n content : str) (f : FS) :
  read_slot (write_slot (LibrarySlot n) content f) (LibrarySlot n)
  = Some content.
Proof. simpl. rewrite dict_get_set. now rewrite str_eqb_refl. Qed.

Lemma read_write_other (n m content : str) (f : FS) :
  n <> m ->
  read_slot (write_slot (LibrarySlot n) content f) (LibrarySlot m)
  = read_slot f (LibrarySlot m).
Proof.
  intros Hne. simpl. rewrite dict_get_set.
  now rewrite (proj2 (str_eqb_neq n m) Hne).
Qed.

Lemma read_after_library_same (env : Env) (force : bool) (f : FS) (n : str) :
  read_slot (fs_after_library env force f n) (LibrarySlot n)
  = page_after env force f n.
Proof.
  unfold fs_after_library, page_after.
  destruct (attempts force f (LibrarySlot n)); [|reflexivity].
  destruct (urlopen env (library_url n)); try reflexivity.
  apply read_write_same.
Qed.

Lemma read_after_library_other (env : Env) (force : bool) (f : FS)
    (n m : str) :
  n <> m ->
  read_slot (fs_after_library env force f n) (LibrarySlot m)
  = read_slot f (LibrarySlot m).
Proof.
  intros Hne. unfold fs_after_library.
  destruct (attempts force f (LibrarySlot n)); [|reflexivity].
  destruct (urlopen env (library_url n)); try reflexivity.
  now apply read_write_other.
Qed.

Lemma fs_after_library_rest (env : Env) (force : bool) (f : FS) (n : str) :
  docs_file (fs_after_library env force f n) = docs_file f
  /\ index_file (fs_after_library env force f n) = index_file f
  /\ keywords_index (fs_after_library env force f n) = keywords_index f.
Proof.
  unfold fs_after_library.
  destruct (attempts force f (LibrarySlot n)); [|auto].
  destruct (urlopen env (library_url n)); auto.
Qed.

Lemma page_after_other (env : Env) (force : bool) (f : FS) (n m : str) :
  n <> m ->
  page_after env force (fs_after_library env force f n) m
  = page_after env force f m.
Proof.
  intros Hne. unfold page_after, attempts, slot_exists.
  now rewrite (read_after_library_other env force f n m Hne).
Qed.

Lemma attempts_other (env : Env) (force : bool) (f : FS) (n m : str) :
  n <> m ->
  attempts force (fs_after_library env force f n) (LibrarySlot m)
  = attempts force f (LibrarySlot m).
Proof.
  intros Hne. unfold attempts, slot_exists.
  now rewrite (read_after_library_other env force f n m Hne).
Qed.

(** One turn of the loop over the libraries. *)
Lemma fetch_library_run `{PyRuntime} (env : Env) (force : bool)
    (st : LoopState) (n : str) (w : World) :
  exists files,
    fetch_library env force st n w
    = ({| ls_files_downloaded := files;
          ls_libraries :=
            match library_outcome env force (fs w) n with
            | Some r => Py.dict_set (ls_libraries st) n (report_of r)
            | None => ls_libraries st
            end;
          ls_all_keywords :=
            match library_outcome env force (fs w) n with
            | Some (KwSuccess _ keywords _) =>
                Py.dict_set (ls_all_keywords st) n keywords
            | _ => ls_all_keywords st
            end;
          ls_total_keywords :=
            ls_total_keywords st
            + match library_outcome env force (fs w) n with
              | Some r => kr_total r
              | None => 0
              end |},
       {| fs := fs_after_library env force (fs w) n;
          requests := requests w
                      ++ (if attempts force (fs w) (LibrarySlot n)
                          then [library_url n] else []);
          clock := clock w |}).
Proof.
  unfold fetch_library, library_outcome, page_after, fs_after_library,
    attempts, _download_file, _parse_library_keywords, http_get, modify_fs,
    get_fs, bind, ret, slot_exists.
  fold (library_url n).
  destruct (read_slot (fs w) (LibrarySlot n)) as [page|] eqn:Er.
  - destruct force; simpl orb; cbv iota.
    + destruct (urlopen env (library_url n)) eqn:Eu; simpl;
        simpl in Er; rewrite ?dict_get_set, ?str_eqb_refl, ?Er; simpl;
        rewrite ?dict_get_set, ?str_eqb_refl, ?Er; simpl;
        match goal with
        | |- context [parse_library_page n ?p] =>
            destruct (parse_library_page n p)
        end; simpl; rewrite ?Nat.add_0_r; eexists; reflexivity.
    + simpl in *. rewrite ?Er. simpl. rewrite ?Er. simpl.
      rewrite app_nil_r, world_eta.
      destruct (parse_library_page n page); simpl; rewrite ?Nat.add_0_r;
        eexists; reflexivity.
  - rewrite orb_true_r.
    destruct (urlopen env (library_url n)) eqn:Eu; simpl;
      simpl in Er; rewrite ?dict_get_set, ?str_eqb_refl, ?Er; simpl;
      rewrite ?dict_get_set, ?str_eqb_refl, ?Er; simpl;
      rewrite ?Nat.add_0_r.
    + destruct (parse_library_page n content); simpl; rewrite ?Nat.add_0_r;
        eexists; reflexivity.
    + destruct st; eexists; reflexivity.
    + destruct st; eexists; reflexivity.
    + destruct st; eexists; reflexivity.
Qed.

Lemma outcome_other `{PyRuntime} (env : Env) (force : bool) (f : FS)
    (n m : str) :
  n <> m ->
  library_outcome env force (fs_after_library env force f n) m
  = library_outcome env force f m.
Proof.
  intros Hne. unfold library_outcome. now rewrite page_after_other.
Qed.

Section AfterOneLibrary.
Context `{PyRuntime} (env : Env) (force : bool) (f : FS) (n : str).
Variable libs : list str.
Hypothesis Hfresh : ~ In n libs.

Lemma reports_other :
  library_reports env force (fs_after_library env force f n) libs
  = library_reports env force f libs.
Proof.
  unfold library_reports. induction libs as [|m l IH]; [reflexivity|].
  simpl. rewrite outcome_other by (intros ->; apply Hfresh; now left).
  rewrite IH; [reflexivity|]. intros Hin. apply Hfresh. now right.
Qed.

Lemma parsed_other :
  parsed_libraries env force (fs_after_library env force f n) libs
  = parsed_libraries env force f libs.
Proof.
  unfold parsed_libraries. induction libs as [|m l IH]; [reflexivity|].
  simpl. rewrite outcome_other by (intros ->; apply Hfresh; now left).
  rewrite IH; [reflexivity|]. intros Hin. apply Hfresh. now right.
Qed.

Lemma total_other :
  parsed_total env force (fs_after_library env force f n) libs
  = parsed_total env force f libs.
Proof.
  unfold parsed_total. induction libs as [|m l IH]; [reflexivity|].
  simpl. rewrite outcome_other by (intros ->; apply Hfresh; now left).
  rewrite IH; [reflexivity|]. intros Hin. apply Hfresh. now right.
Qed.

Lemma requests_other :
  library_requests force (fs_after_library env force f n) libs
  = library_requests force f libs.
Proof.
  unfold library_requests. f_equal.
  induction libs as [|m l IH]; [reflexivity|].
  simpl. rewrite attempts_other by (intros ->; apply Hfresh; now left).
  rewrite IH; [reflexivity|]. intros Hin. apply Hfresh. now right.
Qed.
End AfterOneLibrary.

Lemma reports_keys `{PyRuntime} (env : Env) (force : bool) (f : FS)
    (libs : list str) (n : str) :
  In n (Py.dict_keys (library_reports env force f libs)) -> In n libs.
Proof.
  unfold library_reports, Py.dict_keys. intros Hin.
  apply in_map_iff in Hin as [[k v] [<- Hin]].
  apply in_flat_map in Hin as [m [Hm Hin]].
  destruct (library_outcome env force f m); [|contradiction].
  destruct Hin as [E|[]]. injection E as <- _. exact Hm.
Qed.


(** The loop over the libraries: every library is handled on its own, from
    what its slot held when the loop began. *)
Lemma fetch_libraries_run `{PyRuntime} (env : Env) (force : bool)
    (libs : list str) :
  NoDup libs ->
  forall (st : LoopState) (w : World),
    (forall n, In n libs ->
       ~ In n (Py.dict_keys (ls_libraries st))
       /\ ~ In n (Py.dict_keys (ls_all_keywords st))) ->
    exists files,
      fetch_libraries env force libs st w
      = ({| ls_files_downloaded := files;
            ls_libraries :=
              ls_libraries st ++ library_reports env force (fs w) libs;
            ls_all_keywords :=
              ls_all_keywords st ++ parsed_libraries env force (fs w) libs;
            ls_total_keywords :=
              ls_total_keywords st + parsed_total env force (fs w) libs |},
         {| fs := fold_left (fs_after_library env force) libs (fs w);
            requests := requests w ++ library_requests force (fs w) libs;
            clock := clock w |}).
Proof.
  induction 1 as [|n libs Hnotin Hnd IH]; intros st w Hfresh.
  - exists (ls_files_downloaded st). simpl. unfold ret.
    rewrite !app_nil_r, Nat.add_0_r, world_eta. now destruct st.
  - cbn [fetch_libraries]. unfold bind at 1.
    destruct (fetch_library_run env force st n w) as [files1 ->].
    destruct (Hfresh n (or_introl eq_refl)) as [Hn1 Hn2].
    edestruct IH as [files ->].
    { intros m Hm. cbn [ls_libraries ls_all_keywords].
      destruct (Hfresh m (or_intror Hm)) as [Hm1 Hm2].
      assert (Hne : m <> n) by (intros ->; contradiction).
      split.
      - destruct (library_outcome env force (fs w) n); [|exact Hm1].
        rewrite dict_keys_set. intros [E|E]; auto.
      - destruct (library_outcome env force (fs w) n) as [[]|];
          try exact Hm2.
        rewrite dict_keys_set. intros [E|E]; auto. }
    exists files. cbn [fs requests clock ls_libraries ls_all_keywords
                       ls_total_keywords fold_left].
    rewrite reports_other, parsed_other, total_other, requests_other
      by assumption.
    unfold library_reports, parsed_libraries, parsed_total, library_requests.
    cbn [flat_map map filter list_sum].
    f_equal; [f_equal|f_equal].
    all: try (unfold list_sum; cbn [fold_right]; lia).
    all: try (destruct (library_outcome env force (fs w) n) as [[]|];
              rewrite ?dict_set_fresh by assumption;
              rewrite <- ?app_assoc; reflexivity).
    rewrite <- app_assoc. f_equal.
    now destruct (attempts force (fs w) (LibrarySlot n)).
Qed.

Section SamePages.
Context `{PyRuntime} (env : Env) (force : bool) (f g : FS).
Hypothesis Hpages : library_files f = library_files g.

Lemma attempts_ext (n : str) :
  attempts force f (LibrarySlot n) = attempts force g (LibrarySlot n).
Proof. unfold attempts, slot_exists. simpl. now rewrite Hpages. Qed.

Lemma page_after_ext (n : str) :
  page_after env force f n = page_after env force g n.
Proof.
  unfold page_after. rewrite attempts_ext. simpl. now rewrite Hpages.
Qed.

Lemma outcome_ext (n : str) :
  library_outcome env force f n = library_outcome env force g n.
Proof. unfold library_outcome. now rewrite page_after_ext. Qed.

Lemma reports_ext (libs : list str) :
  library_reports env force f libs = library_reports env force g libs.
Proof.
  unfold library_reports. induction libs as [|n l IH]; [reflexivity|].
  simpl. now rewrite outcome_ext, IH.
Qed.

Lemma parsed_ext (libs : list str) :
  parsed_libraries env force f libs = parsed_libraries env force g libs.
Proof.
  unfold parsed_libraries. induction libs as [|n l IH]; [reflexivity|].
  simpl. now rewrite outcome_ext, IH.
Qed.

Lemma total_ext (libs : list str) :
  parsed_total env force f libs = parsed_total env force g libs.
Proof.
  unfold parsed_total. induction libs as [|n l IH]; [reflexivity|].
  simpl. now rewrite outcome_ext, IH.
Qed.

Lemma requests_ext (libs : list str) :
  library_requests force f libs = library_requests force g libs.
Proof.
  unfold library_requests. f_equal.
  induction libs as [|n l IH]; [reflexivity|].
  simpl. now rewrite attempts_ext, IH.
Qed.
End SamePages.

(** The loop over the libraries leaves the other files alone. *)
Lemma after_libraries_rest (env : Env) (force : bool) (libs : list str)
    (f : FS) :
  docs_file (fold_left (fs_after_library env force) libs f) = docs_file f
  /\ index_file (fold_left (fs_after_library env force) libs f)
     = index_file f
  /\ keywords_index (fold_left (fs_after_library env force) libs f)
     = keywords_index f.
Proof.
  revert f. induction libs as [|n libs IH]; intros f; [auto|].
  simpl. destruct (IH (fs_after_library env force f n)) as [-> [-> ->]].
  apply fs_after_library_rest.
Qed.

(** After the loop a library slot holds the page of that library. *)
Lemma after_libraries_page (env : Env) (force : bool) (libs : list str) :
  NoDup libs ->
  forall (f : FS) (n : str),
    read_slot (fold_left (fs_after_library env force) libs f) (LibrarySlot n)
    = if str_in n libs then page_after env force f n
      else read_slot f (LibrarySlot n).
Proof.
  induction 1 as [|m libs Hnotin Hnd IH]; intros f n; [reflexivity|].
  cbn [fold_left str_in existsb]. rewrite IH. fold (str_in n libs).
  destruct (Py.str_eqb m n) eqn:E.
  - apply str_eqb_eq in E as ->. cbn [orb].
    assert (Hn : str_in n libs = false).
    { apply Bool.not_true_iff_false. intros Hin. apply Hnotin.
      unfold str_in in Hin. apply existsb_exists in Hin as [y [Hy Ey]].
      apply str_eqb_eq in Ey as ->. exact Hy. }
    rewrite Hn. apply read_after_library_same.
  - apply str_eqb_neq in E. cbn [orb].
    rewrite page_after_other, read_after_library_other by exact E.
    reflexivity.
Qed.

Lemma download_user_guide_run (env : Env) (force : bool) (w : World) :
  exists ug files,
    download_user_guide env force w
    = ((ug, files),
       {| fs := fs_after_primary env force (fs w);
          requests := requests w
                      ++ (if attempts force (fs w) DocsSlot
                          then [RF_DOCS_URL] else []);
          clock := clock w |})
    /\ ug_success ug = primary_ok env force (fs w).
Proof.
  unfold download_user_guide, fs_after_primary, primary_ok, attempts,
    _download_file, http_get, modify_fs, get_fs, bind, ret.
  destruct (force || negb (slot_exists (fs w) DocsSlot)) eqn:Ea.
  - destruct (urlopen env RF_DOCS_URL) eqn:Eu; simpl;
      eexists _, _; split; reflexivity.
  - eexists _, _.
    split; [f_equal; destruct w; simpl; now rewrite app_nil_r|reflexivity].
Qed.

Lemma fs_after_primary_docs (env : Env) (force : bool) (f : FS) :
  docs_file (fs_after_primary env force f) = docs_after env force f
  /\ index_file (fs_after_primary env force f) = index_file f
  /\ keywords_index (fs_after_primary env force f) = keywords_index f
  /\ library_files (fs_after_primary env force f) = library_files f.
Proof.
  unfold fs_after_primary, docs_after.
  destruct (attempts force f DocsSlot); [|auto].
  destruct (urlopen env RF_DOCS_URL); auto.
Qed.

Lemma index_user_guide_run `{PyRuntime} (env : Env) (w : World) :
  exists indexing,
    index_user_guide env w
    = (indexing,
       match docs_file (fs w) with
       | Some html_content =>
           match sections_of_page html_content with
           | Some sections =>
               {| fs := write_index_file
                          (section_index_of (now env (clock w)) sections)
                          (fs w);
                  requests := requests w; clock := S (clock w) |}
           | None => w
           end
       | None => w
       end).
Proof.
  unfold index_user_guide, _parse_documentation, sections_of_page,
    datetime_now, modify_fs, get_fs, bind, ret, slot_exists. simpl.
  destruct (docs_file (fs w)) as [html|] eqn:E; simpl; rewrite ?E;
    [destruct (html_events html)|]; eexists; reflexivity.
Qed.

Lemma save_keywords_index_run (env : Env) (st : LoopState) (w : World) :
  exists report,
    save_keywords_index env st w
    = (report,
       match ls_all_keywords st with
       | [] => w
       | _ :: _ =>
           {| fs := write_keywords_index
                      (keyword_index_of (now env (clock w))
                         (ls_total_keywords st) (ls_all_keywords st))
                      (fs w);
              requests := requests w; clock := S (clock w) |}
       end).
Proof.
  unfold save_keywords_index, datetime_now, modify_fs, bind, ret.
  destruct (ls_all_keywords st); eexists; reflexivity.
Qed.

Lemma standard_libraries_nodup : NoDup STANDARD_LIBRARIES.
Proof.
  unfold STANDARD_LIBRARIES.
  repeat (constructor; [cbv; intuition discriminate|]). constructor.
Qed.

(** A rebuild run, as a function of the files, the network and the clock
    it starts from. *)
Lemma fetch_run `{PyRuntime} (env : Env) (force : bool) (w : World) :
  let parsed := parsed_libraries env force (fs w) STANDARD_LIBRARIES in
  let total := parsed_total env force (fs w) STANDARD_LIBRARIES in
  let t := match indexed_sections env force (fs w) with
           | Some _ => S (clock w)
           | None => clock w
           end in
  exists report w',
    fetch_rf_documentation env force w = (report, w')
    /\ fr_success report = primary_ok env force (fs w)
    /\ fr_libraries report
       = library_reports env force (fs w) STANDARD_LIBRARIES
    /\ docs_file (fs w') = docs_after env force (fs w)
    /\ index_file (fs w')
       = match indexed_sections env force (fs w) with
         | Some sections =>
             Some (section_index_of (now env (clock w)) sections)
         | None => index_file (fs w)
         end
    /\ keywords_index (fs w')
       = match parsed with
         | [] => keywords_index (fs w)
         | _ :: _ => Some (keyword_index_of (now env t) total parsed)
         end
    /\ (forall n,
          read_slot (fs w') (LibrarySlot n)
          = if str_in n STANDARD_LIBRARIES then page_after env force (fs w) n
            else read_slot (fs w) (LibrarySlot n))
    /\ requests w'
       = requests w
         ++ (if attempts force (fs w) DocsSlot then [RF_DOCS_URL] else [])
         ++ library_requests force (fs w) STANDARD_LIBRARIES.
Proof.
  intros parsed total t. subst parsed total t.
  unfold fetch_rf_documentation.
  generalize standard_libraries_nodup. generalize STANDARD_LIBRARIES.
  intros libs Hnd. unfold bind.
  destruct (download_user_guide_run env force w) as [ug [files [-> Hug]]].
  destruct (fs_after_primary_docs env force (fs w)) as [Hd [Hi [Hk Hl]]].
  set (w1 := {| fs := fs_after_primary env force (fs w) |}).
  destruct (index_user_guide_run env w1) as [indexing ->].
  set (w2 := match docs_file (fs w1) with Some _ => _ | None => w1 end).
  assert (Hw2 : library_files (fs w2) = library_files (fs w)
                /\ docs_file (fs w2) = docs_after env force (fs w)
                /\ keywords_index (fs w2) = keywords_index (fs w)
                /\ index_file (fs w2)
                   = match indexed_sections env force (fs w) with
                     | Some sections =>
                         Some (section_index_of (now env (clock w)) sections)
                     | None => index_file (fs w)
                     end
                /\ clock w2 = match indexed_sections env force (fs w) with
                              | Some _ => S (clock w)
                              | None => clock w
                              end
                /\ requests w2 = requests w1).
  { unfold w2, indexed_sections. simpl. rewrite Hd.
    destruct (docs_after env force (fs w)) as [html|];
      [destruct (sections_of_page html)|]; simpl; auto 10. }
  clearbody w2. destruct Hw2 as [Hl2 [Hd2 [Hk2 [Hi2 [Hc2 Hr2]]]]].
  edestruct (fetch_libraries_run env force libs Hnd) as [files' ->].
  { intros n _. simpl. auto. }
  cbn [ls_libraries ls_all_keywords ls_total_keywords app Nat.add].
  rewrite (parsed_ext env force _ _ Hl2), (total_ext env force _ _ Hl2),
    (reports_ext env force _ _ Hl2), (requests_ext force _ _ Hl2).
  match goal with
  | |- context [save_keywords_index env ?s ?v] =>
      destruct (save_keywords_index_run env s v) as [kreport ->]
  end.
  cbn [ls_all_keywords ls_total_keywords fs requests clock].
  destruct (after_libraries_rest env force libs (fs w2)) as [Hd3 [Hi3 Hk3]].
  pose proof (after_libraries_page env force libs Hnd (fs w2)) as Hp3.
  assert (Hreq : requests w2 ++ library_requests force (fs w) libs
                 = requests w
                   ++ (if attempts force (fs w) DocsSlot
                       then [RF_DOCS_URL] else [])
                   ++ library_requests force (fs w) libs).
  { rewrite Hr2. unfold w1. cbn [requests]. now rewrite <- app_assoc. }
  assert (Hpage : forall n,
    read_slot (fold_left (fs_after_library env force) libs (fs w2))
      (LibrarySlot n)
    = if str_in n libs then page_after env force (fs w) n
      else read_slot (fs w) (LibrarySlot n)).
  { intros n. rewrite Hp3, (page_after_ext env force _ _ Hl2).
    unfold read_slot. now rewrite Hl2. }
  unfold ret. eexists _, _. split; [reflexivity|].
  cbn [fr_success fr_libraries fst]. split; [exact Hug|].
  split; [reflexivity|].
  destruct (parsed_libraries env force (fs w) libs) as [|p ps].
  - cbn [fs]. rewrite Hd3, Hi3, Hk3.
    split; [exact Hd2|]. split; [exact Hi2|]. split; [exact Hk2|].
    split; [exact Hpage|exact Hreq].
  - cbn [fs docs_file index_file keywords_index write_keywords_index
         requests clock read_slot library_files].
    rewrite Hd3, Hi3, Hc2.
    split; [exact Hd2|]. split; [exact Hi2|]. split; [reflexivity|].
    split; [exact Hpage|exact Hreq].
Qed.

Lemma str_in_iff (n : str) (libs : list str) :
  str_in n libs = true <-> In n libs.
Proof.
  unfold str_in. rewrite existsb_exists. split.
  - intros [y [Hy E]]. apply str_eqb_eq in E as ->. exact Hy.
  - intros Hin. exists n. split; [exact Hin|apply str_eqb_refl].
Qed.

(** Lookup in a dict that is built with one optional item per name. *)
Lemma dict_get_collected {V} (g : str -> option V) (libs : list str)
    (n : str) :
  Py.dict_get
    (flat_map (fun m => match g m with Some v => [(m, v)] | None => [] end)
       libs) n
  = if str_in n libs then g n else None.
Proof.
  induction libs as [|m libs IH]; [reflexivity|].
  cbn [flat_map str_in existsb]. fold (str_in n libs).
  destruct (Py.str_eqb m n) eqn:E.
  - apply str_eqb_eq in E as ->. cbn [orb].
    destruct (g n) as [v|] eqn:Eg; simpl.
    + now rewrite str_eqb_refl.
    + rewrite IH. now destruct (str_in n libs).
  - cbn [orb]. destruct (g m) as [v|]; simpl; [rewrite E|]; exact IH.
Qed.

Lemma reports_get `{PyRuntime} (env : Env) (force : bool) (f : FS)
    (libs : list str) (n : str) :
  Py.dict_get (library_reports env force f libs) n
  = if str_in n libs
    then option_map report_of (library_outcome env force f n) else None.
Proof.
  rewrite <- (dict_get_collected
                (fun m => option_map report_of (library_outcome env force f m))).
  unfold library_reports. f_equal. apply flat_map_ext. intros m.
  now destruct (library_outcome env force f m).
Qed.

Lemma parsed_get `{PyRuntime} (env : Env) (force : bool) (f : FS)
    (libs : list str) (n : str) :
  Py.dict_get (parsed_libraries env force f libs) n
  = if str_in n libs
    then outcome_keywords (library_outcome env force f n) else None.
Proof.
  rewrite <- (dict_get_collected
                (fun m => outcome_keywords (library_outcome env force f m))).
  unfold parsed_libraries. f_equal. apply flat_map_ext. intros m.
  now destruct (library_outcome env force f m) as [[]|].
Qed.

(** With every page cached, an unforced run fetches nothing and makes of a
    library what its cached page gives. *)
Lemma outcome_cached `{PyRuntime} (env : Env) (f : FS) (n : str) :
  slot_exists f (LibrarySlot n) = true ->
  attempts false f (LibrarySlot n) = false
  /\ page_after env false f n = read_slot f (LibrarySlot n)
  /\ library_outcome env false f n
     = option_map (parse_library_page n) (read_slot f (LibrarySlot n)).
Proof.
  intros Hex. unfold library_outcome, page_after, attempts.
  now rewrite Hex.
Qed.

Section CachedRuns.
Context `{PyRuntime} (envA envB : Env) (f g : FS) (libs : list str).
Hypothesis Hcached :
  forall n, In n libs -> slot_exists f (LibrarySlot n) = true.
Hypothesis Hsame :
  forall n, read_slot g (LibrarySlot n) = read_slot f (LibrarySlot n).

Lemma outcome_cached_same (n : str) :
  In n libs ->
  library_outcome envB false g n = library_outcome envA false f n.
Proof.
  intros Hin.
  assert (Hg : slot_exists g (LibrarySlot n) = true)
    by (unfold slot_exists; rewrite Hsame; now apply Hcached).
  destruct (outcome_cached envA f n (Hcached n Hin)) as [_ [_ ->]].
  destruct (outcome_cached envB g n Hg) as [_ [_ ->]].
  now rewrite Hsame.
Qed.

Lemma parsed_cached_same :
  parsed_libraries envB false g libs = parsed_libraries envA false f libs.
Proof.
  unfold parsed_libraries. revert Hcached.
  induction libs as [|n l IH]; intros Hc; [reflexivity|].
  simpl. rewrite IH by (intros m Hm; apply Hc; now right).
  f_equal.
  assert (E : library_outcome envB false g n
              = library_outcome envA false f n).
  { assert (Hg : slot_exists g (LibrarySlot n) = true)
      by (unfold slot_exists; rewrite Hsame; apply Hc; now left).
    destruct (outcome_cached envA f n (Hc n (or_introl eq_refl)))
      as [_ [_ ->]].
    destruct (outcome_cached envB g n Hg) as [_ [_ ->]].
    now rewrite Hsame. }
  now rewrite E.
Qed.

Lemma total_cached_same :
  parsed_total envB false g libs = parsed_total envA false f libs.
Proof.
  unfold parsed_total. revert Hcached.
  induction libs as [|n l IH]; intros Hc; [reflexivity|].
  simpl. rewrite IH by (intros m Hm; apply Hc; now right).
  f_equal.
  assert (E : library_outcome envB false g n
              = library_outcome envA false f n).
  { assert (Hg : slot_exists g (LibrarySlot n) = true)
      by (unfold slot_exists; rewrite Hsame; apply Hc; now left).
    destruct (outcome_cached envA f n (Hc n (or_introl eq_refl)))
      as [_ [_ ->]].
    destruct (outcome_cached envB g n Hg) as [_ [_ ->]].
    now rewrite Hsame. }
  now rewrite E.
Qed.
End CachedRuns.

Lemma requests_cached (f : FS) (libs : list str) :
  (forall n, In n libs -> slot_exists f (LibrarySlot n) = true) ->
  library_requests false f libs = [].
Proof.
  intros Hc. unfold library_requests.
  induction libs as [|n l IH]; [reflexivity|].
  cbn [filter]. unfold attempts at 1. rewrite Hc by now left.
  cbn [orb negb]. apply IH. intros m Hm. apply Hc. now right.
Qed.

(** C8. With the primary page and every library page cached, two unforced
    rebuild runs in a row request nothing from the network (the second as
    little as the first), leave the cached pages as they are, and write a
    section index and a keyword index that differ from the ones of the
    first run in the [parsed_at] field at most. When the primary page
    parses, both runs write the section index of its sections; when reading
    or parsing it raises, neither run writes a section index. *)
Theorem rebuild_twice_same_artifacts `{PyRuntime} (env1 env2 : Env)
    (w : World) :
  docs_file (fs w) <> None ->
  (forall n, In n STANDARD_LIBRARIES ->
     slot_exists (fs w) (LibrarySlot n) = true) ->
  exists r1 w1 r2 w2,
    fetch_rf_documentation env1 false w = (r1, w1)
    /\ fetch_rf_documentation env2 false w1 = (r2, w2)
    /\ requests w1 = requests w
    /\ requests w2 = requests w1
    /\ docs_file (fs w2) = docs_file (fs w)
    /\ (forall n, read_slot (fs w2) (LibrarySlot n)
                  = read_slot (fs w) (LibrarySlot n))
    /\ (forall page sections,
          docs_file (fs w) = Some page ->
          sections_of_page page = Some sections ->
          exists t1 t2,
            index_file (fs w1) = Some (section_index_of t1 sections)
            /\ index_file (fs w2) = Some (section_index_of t2 sections))
    /\ (forall page,
          docs_file (fs w) = Some page ->
          sections_of_page page = None ->
          index_file (fs w1) = index_file (fs w)
          /\ index_file (fs w2) = index_file (fs w))
    /\ option_map untimed_sections (index_file (fs w2))
       = option_map untimed_sections (index_file (fs w1))
    /\ option_map untimed_keywords (keywords_index (fs w2))
       = option_map untimed_keywords (keywords_index (fs w1)).
Proof.
  intros Hdocs Hcached.
  destruct (docs_file (fs w)) as [html|] eqn:Edocs; [clear Hdocs|congruence].
  assert (Hrun : forall env v,
    docs_file (fs v) = Some html ->
    (forall n, read_slot (fs v) (LibrarySlot n)
               = read_slot (fs w) (LibrarySlot n)) ->
    exists r v',
      fetch_rf_documentation env false v = (r, v')
      /\ requests v' = requests v
      /\ docs_file (fs v') = Some html
      /\ (forall n, read_slot (fs v') (LibrarySlot n)
                    = read_slot (fs w) (LibrarySlot n))
      /\ index_file (fs v')
         = match sections_of_page html with
           | Some sections =>
               Some (section_index_of (now env (clock v)) sections)
           | None => index_file (fs v)
           end
      /\ exists t,
           keywords_index (fs v')
           = match parsed_libraries env1 false (fs w) STANDARD_LIBRARIES with
             | [] => keywords_index (fs v)
             | _ :: _ =>
                 Some (keyword_index_of t
                         (parsed_total env1 false (fs w) STANDARD_LIBRARIES)
                         (parsed_libraries env1 false (fs w)
                            STANDARD_LIBRARIES))
             end).
  { intros env v Hd Hp.
    assert (Hc : forall n, In n STANDARD_LIBRARIES ->
                 slot_exists (fs v) (LibrarySlot n) = true).
    { intros n Hn. unfold slot_exists. rewrite Hp. now apply Hcached. }
    destruct (fetch_run env false v)
      as [r [v' [Hf [_ [_ [Hd' [Hi' [Hk' [Hp' Hr']]]]]]]]].
    assert (Ha : attempts false (fs v) DocsSlot = false).
    { unfold attempts, slot_exists. simpl. now rewrite Hd. }
    assert (Hda : docs_after env false (fs v) = Some html)
      by (unfold docs_after; now rewrite Ha).
    assert (His : indexed_sections env false (fs v) = sections_of_page html)
      by (unfold indexed_sections; now rewrite Hda).
    rewrite Hda in Hd'. rewrite His in Hi', Hk'.
    rewrite (parsed_cached_same env1 env (fs w) (fs v)) in Hk' by assumption.
    rewrite (total_cached_same env1 env (fs w) (fs v)) in Hk' by assumption.
    exists r, v'. split; [exact Hf|]. split.
    { rewrite Hr', Ha, requests_cached by exact Hc. now rewrite !app_nil_r. }
    split; [exact Hd'|]. split.
    { intros n. rewrite Hp'. destruct (str_in n STANDARD_LIBRARIES) eqn:E.
      - apply str_in_iff in E.
        destruct (outcome_cached env (fs v) n (Hc n E)) as [_ [-> _]].
        apply Hp.
      - apply Hp. }
    split; [exact Hi'|]. eexists. exact Hk'. }
  destruct (Hrun env1 w Edocs (fun n => eq_refl))
    as [r1 [w1 [Hf1 [Hr1 [Hd1 [Hp1 [Hi1 [t1 Hk1]]]]]]]].
  destruct (Hrun env2 w1 Hd1 Hp1)
    as [r2 [w2 [Hf2 [Hr2 [Hd2 [Hp2 [Hi2 [t2 Hk2]]]]]]]].
  exists r1, w1, r2, w2.
  repeat (split; [assumption|]).
  split; [|split; [|split]].
  - intros page sections Hpage Hs. injection Hpage as <-.
    rewrite Hs in Hi1, Hi2. eauto.
  - intros page Hpage Hs. injection Hpage as <-.
    rewrite Hs in Hi1, Hi2. split; congruence.
  - rewrite Hi2, Hi1. destruct (sections_of_page html); reflexivity.
  - rewrite Hk2, Hk1.
    now destruct (parsed_libraries env1 false (fs w) STANDARD_LIBRARIES).
Qed.

(** C9 (amended). A rebuild run that parses at least one library writes a
    keyword index made of that run's results alone: its libraries are the
    libraries the run parsed, with their keywords, whatever index was there
    before. A run that parses no library writes no keyword index: the index
    of an earlier run, if there is one, stays as it is. *)
Theorem keyword_index_overwritten_when_parsed `{PyRuntime} (env : Env)
    (force : bool) (w : World) :
  let parsed := parsed_libraries env force (fs w) STANDARD_LIBRARIES in
  exists report w',
    fetch_rf_documentation env force w = (report, w')
    /\ (parsed <> [] ->
        exists t,
          keywords_index (fs w')
          = Some (keyword_index_of t
                    (parsed_total env force (fs w) STANDARD_LIBRARIES)
                    parsed))
    /\ (parsed = [] -> keywords_index (fs w') = keywords_index (fs w))
    /\ (forall n,
          Py.dict_get parsed n
          = if str_in n STANDARD_LIBRARIES
            then outcome_keywords (library_outcome env force (fs w) n)
            else None)
    /\ (forall v report_v v',
          same_but_keywords_index w v ->
          fetch_rf_documentation env force v = (report_v, v') ->
          parsed <> [] ->
          keywords_index (fs v') = keywords_index (fs w')).
Proof.
  intros parsed.
  destruct (fetch_run env force w)
    as [r [w' [Hf [_ [_ [_ [_ [Hk _]]]]]]]].
  fold parsed in Hk.
  exists r, w'. split; [exact Hf|]. split; [|split; [|split]].
  - intros Hne. rewrite Hk. destruct parsed; [congruence|eauto].
  - intros ->. exact Hk.
  - intros n. apply parsed_get.
  - intros v rv v' [Hd [Hi [Hl [Hr Hc]]]] Hfv Hne.
    destruct (fetch_run env force v)
      as [r2 [v2 [Hf2 [_ [_ [_ [_ [Hk2 _]]]]]]]].
    rewrite Hfv in Hf2. injection Hf2 as <- <-.
    assert (Hl' : library_files (fs v) = library_files (fs w)) by congruence.
    rewrite (parsed_ext env force _ _ Hl'), (total_ext env force _ _ Hl')
      in Hk2.
    fold parsed in Hk2.
    assert (Ha : attempts force (fs v) DocsSlot = attempts force (fs w) DocsSlot)
      by (unfold attempts, slot_exists; simpl; now rewrite Hd).
    assert (Hda : docs_after env force (fs v) = docs_after env force (fs w))
      by (unfold docs_after; now rewrite Ha, Hd).
    assert (His : indexed_sections env force (fs v)
                  = indexed_sections env force (fs w))
      by (unfold indexed_sections; now rewrite Hda).
    clear Hf Hfv. revert Hk Hk2 Hne. generalize parsed.
    intros [|p ps] Hk Hk2 Hne; [congruence|].
    rewrite Hk, Hk2, His, Hc. reflexivity.
Qed.


(** ** Query layer and its sources *)

Lemma search_reads_index (index : option SectionIndex) (query : str)
    (max_results : Z) :
  exists result,
    forall w, index_file (fs w) = index ->
              search_rf_documentation query max_results w = (result, w).
Proof.
  destruct index as [idx|].
  - eexists. intros w Hidx. rewrite (search_on_index _ _ _ _ Hidx).
    cbv zeta. reflexivity.
  - exists SearchIndexMissing. intros w Hidx.
    unfold search_rf_documentation, bind, get_fs, ret. now rewrite Hidx.
Qed.

Lemma get_all_keywords_on_index `{PyRuntime} (env : Env)
    (idx : KeywordIndex) (filter_pattern : option str) :
  exists result,
    forall w, keywords_index (fs w) = Some idx ->
              get_all_keywords env filter_pattern w = (result, w).
Proof.
  destruct (if_given filter_pattern) as [p|] eqn:Ep.
  - destruct (re_compile_ignorecase p) as [search|] eqn:Ec.
    + eexists. intros w Hidx.
      unfold get_all_keywords, bind, get_fs, ret. rewrite Hidx. simpl.
      rewrite Hidx, Ep, Ec. reflexivity.
    + eexists. intros w Hidx.
      unfold get_all_keywords, bind, get_fs, ret. rewrite Hidx. simpl.
      rewrite Hidx, Ep, Ec. reflexivity.
  - eexists. intros w Hidx.
    unfold get_all_keywords, bind, get_fs, ret. rewrite Hidx. simpl.
    rewrite Hidx, Ep. reflexivity.
Qed.

(** Listing the keywords of a library parses the cached page of the
    library. *)
Lemma get_library_keywords_on_page `{PyRuntime} (env : Env)
    (library_name : str) (filter_pattern : option str) (page : str) :
  exists result,
    forall w, read_slot (fs w) (LibrarySlot library_name) = Some page ->
              get_library_keywords env library_name filter_pattern w
              = (result, w).
Proof.
  unfold get_library_keywords.
  destruct (negb (str_in library_name STANDARD_LIBRARIES)).
  - eexists. intros w _. reflexivity.
  - destruct (parse_library_page library_name page) as [|e|l kws t] eqn:Ep;
      [| |destruct (if_given filter_pattern) as [p|] eqn:Eg;
          [destruct (re_compile_ignorecase p) as [search|] eqn:Ec|]];
      eexists; intros w Hpage;
      unfold _parse_library_keywords, bind, get_fs, ret, slot_exists;
      repeat (progress (cbv beta iota; cbn [negb];
                        rewrite ?Hpage, ?Ep, ?Ec));
      reflexivity.
Qed.

(** C2 (amended). Section search, keyword lookup and the listing of all
    keywords return a result that the persisted index artifact determines,
    and leave the files as they are; lookup and the listing of all keywords
    run a rebuild, which parses the raw pages, only when the keyword index is
    missing. The listing of one library's keywords is not of that kind: it
    parses the cached page of the library at every call, and its result is
    determined by that page, not by the keyword index. *)
Theorem queries_depend_on_their_source `{PyRuntime} (env : Env) :
  (forall index query max_results,
     exists result,
       forall w, index_file (fs w) = index ->
                 search_rf_documentation query max_results w = (result, w))
  /\ (forall idx keyword_name library_name,
        exists result,
          forall w, keywords_index (fs w) = Some idx ->
                    get_keyword_documentation env keyword_name library_name w
                    = (result, w))
  /\ (forall idx filter_pattern,
        exists result,
          forall w, keywords_index (fs w) = Some idx ->
                    get_all_keywords env filter_pattern w = (result, w))
  /\ (forall w keyword_name library_name,
        keywords_index (fs w) = None ->
        get_keyword_documentation env keyword_name library_name w
        = let (report, w') := fetch_rf_documentation env false w in
          (if fr_success report then
             match keywords_index (fs w') with
             | Some idx => lookup_keyword idx keyword_name library_name
             | None => KdSearchFailed
             end
           else KdFetchFailed, w'))
  /\ (forall library_name filter_pattern page,
        exists result,
          forall w, read_slot (fs w) (LibrarySlot library_name) = Some page ->
                    get_library_keywords env library_name filter_pattern w
                    = (result, w)).
Proof.
  split; [apply search_reads_index|].
  split.
  { intros idx k l. exists (lookup_keyword idx k l). intros w Hidx.
    now apply get_keyword_documentation_on_index. }
  split; [apply get_all_keywords_on_index|].
  split; [|apply get_library_keywords_on_page].
  intros w k l Hnone.
  unfold get_keyword_documentation, bind, get_fs, ret. rewrite Hnone. simpl.
  destruct (fetch_rf_documentation env false w) as [report w'].
  destruct (fr_success report); simpl; [|reflexivity].
  now destruct (keywords_index (fs w')).
Qed.

(** ** The theorems at work on the examples *)

Section Examples.

Import Reference Example.

Lemma small_object_wf : JsonGrammar.object small_object.
Proof.
  apply (JsonGrammar.object_members
           (text "'keywords': [{'name': 'Log', 'shortdoc': 'Logs {x} \'q\' }', 'lineno': 12}]")).
  apply (JsonGrammar.members_one [] (lit "keywords") [] (lit " ")
           (text "[{'name': 'Log', 'shortdoc': 'Logs {x} \'q\' }', 'lineno': 12}]")
           []); try reflexivity.
  - repeat (apply JsonGrammar.chars_plain; [discriminate|discriminate|]).
    apply JsonGrammar.chars_nil.
  - apply (JsonGrammar.value_array
             (text "{'name': 'Log', 'shortdoc': 'Logs {x} \'q\' }', 'lineno': 12}")).
    apply (JsonGrammar.elements_one []
             (text "{'name': 'Log', 'shortdoc': 'Logs {x} \'q\' }', 'lineno': 12}")
             []); try reflexivity.
    apply JsonGrammar.value_object.
    apply (JsonGrammar.object_members
             (text "'name': 'Log', 'shortdoc': 'Logs {x} \'q\' }', 'lineno': 12")).
    apply (JsonGrammar.members_more [] (lit "name") [] (lit " ")
             (text "'Log'") []
             (text " 'shortdoc': 'Logs {x} \'q\' }', 'lineno': 12"));
      try reflexivity.
    + repeat (apply JsonGrammar.chars_plain; [discriminate|discriminate|]).
      apply JsonGrammar.chars_nil.
    + apply (JsonGrammar.value_string (lit "Log")).
      repeat (apply JsonGrammar.chars_plain; [discriminate|discriminate|]).
      apply JsonGrammar.chars_nil.
    + apply (JsonGrammar.members_more (lit " ") (lit "shortdoc") [] (lit " ")
               (text "'Logs {x} \'q\' }'") []
               (text " 'lineno': 12")); try reflexivity.
      * repeat (apply JsonGrammar.chars_plain; [discriminate|discriminate|]).
        apply JsonGrammar.chars_nil.
      * apply (JsonGrammar.value_string (text "Logs {x} \'q\' }")).
        repeat first
          [ apply JsonGrammar.chars_nil
          | apply JsonGrammar.chars_escape; [reflexivity|]
          | apply JsonGrammar.chars_plain; [discriminate|discriminate|] ].
      * apply (JsonGrammar.members_one (lit " ") (lit "lineno") [] (lit " ")
                 (lit "12") []); try reflexivity.
        -- repeat (apply JsonGrammar.chars_plain;
                   [discriminate|discriminate|]).
           apply JsonGrammar.chars_nil.
        -- apply JsonGrammar.value_number.
           exists [], (lit "12"), [], []. split; [reflexivity|].
           split; [now left|]. split; [|split; now left].
           right. exists "1"%char, (lit "2"). repeat split. discriminate.
Qed.

Lemma extractor_returns_object_witness :
  Extractor.extract small_page = Extractor.Extracted small_object
  /\ parse_library_page "BuiltIn" small_page
     = match json_loads small_object with
       | inr message => KwFailure (JSONDecodeError message)
       | inl libdoc_data =>
           match Normalizer.normalize "BuiltIn" libdoc_data with
           | None => KwFailure ParsingError
           | Some keywords => KwSuccess "BuiltIn" keywords (length keywords)
           end
       end.
Proof.
  destruct (extractor_returns_object (lit "BuiltIn") small_page small_object
              (text ";</script>") 8 18)
    as [H1 [_ [_ [_ [_ [_ H7]]]]]].
  - vm_compute. reflexivity.
  - vm_compute. reflexivity.
  - exact small_object_wf.
  - split; [exact H1|exact H7].
Defined.

Lemma search_ranks_by_relevance_witness :
  index_file (fs cached_world) = Some (index_of cached_world)
  /\ exists ranked,
       search_rf_documentation "library" 1 cached_world
       = (SearchOK RF_VERSION "library" (length ranked)
            (Py.slice_to 1 ranked), cached_world)
       /\ StronglySorted (Py.desc_by hit_relevance) ranked
       /\ Py.slice_to 1 ranked = firstn 1 ranked.
Proof.
  assert (Hidx : index_file (fs cached_world) = Some (index_of cached_world))
    by (vm_compute; reflexivity).
  split; [exact Hidx|].
  destruct (search_ranks_by_relevance cached_world (index_of cached_world)
              (lit "library") 1%Z Hidx)
    as [ranked [Hrun [_ [_ [Hsorted [_ [Hcut _]]]]]]].
  exists ranked. split; [exact Hrun|]. split; [exact Hsorted|].
  apply Hcut. lia.
Defined.

Lemma search_empty_query_matches_all_witness :
  index_file (fs cached_world) = Some (index_of cached_world)
  /\ exists ranked,
       search_rf_documentation (lit "") 10 cached_world
       = (SearchOK RF_VERSION (lit "")
            (length (si_sections (index_of cached_world)))
            (Py.slice_to 10 ranked), cached_world)
       /\ Forall (fun h => 11 <= hit_relevance h) ranked.
Proof.
  assert (Hidx : index_file (fs cached_world) = Some (index_of cached_world))
    by (vm_compute; reflexivity).
  split; [exact Hidx|].
  destruct (search_empty_query_matches_all cached_world
              (index_of cached_world) 10%Z Hidx)
    as [ranked [Hrun [_ [_ Hall]]]].
  exists ranked. split; [exact Hrun|exact Hall].
Defined.

Lemma lookup_returns_first_normalized_match_witness :
  keywords_index (fs cached_world) = Some (keywords_of cached_world)
  /\ normalize_name "Run-Keyword" = normalize_name "Run Keyword"
  /\ get_keyword_documentation env_up "run_keyword" (Some (lit "NoSuchLib"))
       cached_world
     = (KdLibraryNotFound "NoSuchLib"
          (Py.dict_keys (ki_libraries (keywords_of cached_world))),
        cached_world).
Proof.
  assert (Hidx : keywords_index (fs cached_world)
                 = Some (keywords_of cached_world))
    by (vm_compute; reflexivity).
  split; [exact Hidx|].
  destruct (lookup_returns_first_normalized_match env_up cached_world
              (keywords_of cached_world) (Some (lit "NoSuchLib")) Hidx)
    as [Hnorm [Hmissing _]].
  split.
  - apply Hnorm. right. now left.
  - apply Hmissing; vm_compute; reflexivity.
Defined.

Lemma normalizer_last_write_wins_witness :
  Forall (fun r => record_ok r = true) records
  /\ exists keywords,
       Normalizer.normalize "BuiltIn" (JDict [(lit "keywords", JList records)])
       = Some keywords
       /\ NoDup (Py.dict_keys keywords)
       /\ (forall name, In name (Py.dict_keys keywords)
                        <-> exists r, In r records
                                      /\ record_name r = Some name).
Proof.
  assert (Hok : Forall (fun r => record_ok r = true) records)
    by (repeat constructor).
  split; [exact Hok|].
  destruct (normalizer_last_write_wins (lit "BuiltIn")
              (JDict [(lit "keywords", JList records)]) records
              eq_refl Hok)
    as [keywords [Hrun [Hnd [Hkeys _]]]].
  exists keywords. split; [exact Hrun|]. split; [exact Hnd|exact Hkeys].
Defined.

Lemma cached_world_is_populated :
  docs_file (fs cached_world) <> None
  /\ forall n, In n STANDARD_LIBRARIES ->
               slot_exists (fs cached_world) (LibrarySlot n) = true.
Proof.
  split.
  - vm_compute. discriminate.
  - intros n Hn. unfold STANDARD_LIBRARIES in Hn.
    repeat (destruct Hn as [<-|Hn]; [vm_compute; reflexivity|]).
    destruct Hn.
Qed.

Lemma rebuild_twice_same_artifacts_witness :
  exists w1 w2,
    snd (fetch_rf_documentation env_up false cached_world) = w1
    /\ snd (fetch_rf_documentation env_moved false w1) = w2
    /\ requests w2 = requests w1
    /\ option_map untimed_sections (index_file (fs w2))
       = option_map untimed_sections (index_file (fs w1))
    /\ option_map untimed_keywords (keywords_index (fs w2))
       = option_map untimed_keywords (keywords_index (fs w1)).
Proof.
  destruct cached_world_is_populated as [Hdocs Hpages].
  destruct (rebuild_twice_same_artifacts env_up env_moved cached_world
              Hdocs Hpages)
    as [r1 [w1 [r2 [w2 [H1 [H2 [_ [Hr [_ [_ [_ [_ [Hs Hk]]]]]]]]]]]]].
  exists w1, w2. rewrite H1, H2. repeat split; assumption.
Defined.


(** C2, as stated, fails: with the same index artifacts and another raw
    page of BuiltIn, the listing of the keywords of BuiltIn is another. *)
Lemma listing_reparses_page_counterexample :
  index_file (fs edited_world) = index_file (fs cached_world)
  /\ keywords_index (fs edited_world) = keywords_index (fs cached_world)
  /\ keywords_index (fs cached_world) <> None
  /\ fst (get_library_keywords env_up "BuiltIn" None edited_world)
     <> fst (get_library_keywords env_up "BuiltIn" None cached_world).
Proof.
  split; [vm_compute; reflexivity|]. split; [vm_compute; reflexivity|].
  split.
  - vm_compute. discriminate.
  - vm_compute. discriminate.
Qed.


(** C5, as stated, fails: the index holds a record stored as [Run Keyword],
    and the query [run_keyword] returns the record stored before it as
    [run keyword]. *)
Lemma lookup_shadowed_counterexample :
  (exists keywords record,
     Py.dict_get (ki_libraries (keywords_of shadow_world)) "BuiltIn"
     = Some keywords
     /\ Py.dict_get keywords "Run Keyword" = Some record
     /\ kw_doc record = lit "upper")
  /\ keywords_index (fs shadow_world) = Some (keywords_of shadow_world)
  /\ fst (get_keyword_documentation env_up "run_keyword" None shadow_world)
     = KdFound RF_VERSION "run keyword" "BuiltIn" [] "lower"
         (RF_BASE_LIB_URL ++ "/BuiltIn.html#run%20keyword").
Proof.
  split; [|split; vm_compute; reflexivity].
  eexists _, _. split; [vm_compute; reflexivity|].
  split; vm_compute; reflexivity.
Qed.

(** C9, as stated, fails: a forced run on pages none of which parses writes
    no keyword index, and the index of the earlier run stays, with the
    keywords of pages that are no longer there. *)
Lemma stale_keyword_index_counterexample :
  let w' := snd (fetch_rf_documentation env_moved true cached_world) in
  parsed_libraries env_moved true (fs cached_world) STANDARD_LIBRARIES = []
  /\ read_slot (fs w') (LibrarySlot "BuiltIn")
     = Some (text "<html><p>moved</p></html>")
  /\ keywords_index (fs w') = keywords_index (fs cached_world)
  /\ option_map ki_total_keywords (keywords_index (fs w')) = Some 18.
Proof.
  cbv zeta.
  split; [vm_compute; reflexivity|]. split; [vm_compute; reflexivity|].
  split; vm_compute; reflexivity.
Qed.

(** C6, as stated, fails: of two records with the name [Log] the later one
    has [null] for its short documentation; the normalizer raises on it,
    no mapping is produced and the page fails to parse. *)
Lemma normalizer_raises_counterexample :
  (exists r1 r2,
     Scenario.null_doc_records = [r1; r2]
     /\ record_name r1 = Some (lit "Log")
     /\ record_name r2 = Some (lit "Log")
     /\ py_get r2 "shortdoc" (JStr []) = Some JNull)
  /\ Normalizer.normalize "BuiltIn"
       (JDict [(lit "keywords", JList Scenario.null_doc_records)])
     = None
  /\ (exists libdoc_json,
        Extractor.extract Scenario.null_doc_page
        = Extractor.Extracted libdoc_json
        /\ json_loads libdoc_json
           = inl (JDict [(lit "keywords",
                          JList Scenario.null_doc_records)]))
  /\ parse_library_page "BuiltIn" Scenario.null_doc_page
     = KwFailure ParsingError.
Proof.
  split; [|split; [|split]].
  - eexists. eexists. split; [reflexivity|].
    split; [vm_compute; reflexivity|].
    split; vm_compute; reflexivity.
  - vm_compute; reflexivity.
  - eexists. split; vm_compute; reflexivity.
  - vm_compute; reflexivity.
Qed.

End Examples.

(** * Further properties *)

(** ** Searching *)

Lemma startswith_iff (p s : str) :
  Py.startswith p s = true <-> exists rest, s = p ++ rest.
Proof.
  revert s. induction p as [|x p IH]; intros s; simpl.
  - split; [intros _; exists s; reflexivity | reflexivity].
  - destruct s as [|y s].
    + split; [discriminate | intros [rest Hr]; discriminate].
    + rewrite andb_true_iff, ascii_eqb_eq, IH. split.
      * intros [-> [rest ->]]. exists rest. reflexivity.
      * intros [rest Hr]. injection Hr as -> ->. split; [reflexivity|].
        exists rest. reflexivity.
Qed.

Lemma count_from_occurs_inv (sub s : str) (skip : nat) :
  0 < Py.count_from sub s skip -> occurs sub s.
Proof.
  revert skip. induction s as [|c s IH]; intros skip Hpos.
  - destruct skip as [|k]; simpl in Hpos; [|lia].
    destruct (Py.startswith sub []) eqn:Hs; [|lia].
    apply startswith_iff in Hs. destruct Hs as [rest Hr].
    exists [], rest. exact Hr.
  - destruct skip as [|k]; simpl in Hpos.
    + destruct (Py.startswith sub (c :: s)) eqn:Hs.
      * apply startswith_iff in Hs. destruct Hs as [rest Hr].
        exists [], rest. exact Hr.
      * apply IH in Hpos. destruct Hpos as (pre & post & ->).
        exists (c :: pre), post. reflexivity.
    + apply IH in Hpos. destruct Hpos as (pre & post & ->).
      exists (c :: pre), post. reflexivity.
Qed.

Lemma count_from_occurs (sub pre post : str) :
  0 < Py.count_from sub (pre ++ sub ++ post) 0.
Proof.
  induction pre as [|c pre IH].
  - assert (Hs : Py.startswith sub (sub ++ post) = true)
      by (apply startswith_iff; exists post; reflexivity).
    simpl app. destruct (sub ++ post) as [|x r] eqn:E;
      simpl; rewrite Hs; lia.
  - simpl app. cbn [Py.count_from].
    destruct (Py.startswith sub (c :: pre ++ sub ++ post)); [lia | exact IH].
Qed.

Lemma count_positive_iff (s sub : str) : 0 < Py.count s sub <-> occurs sub s.
Proof.
  unfold Py.count. split.
  - apply count_from_occurs_inv.
  - intros (pre & post & ->). apply count_from_occurs.
Qed.

Lemma relevance_positive_iff (q : str) (s : Section) :
  (0 <? relevance_of q s) = true
  <-> occurs q (Py.lower (sec_title s)) \/ occurs q (Py.lower (sec_content s)).
Proof.
  rewrite Nat.ltb_lt. unfold relevance_of, title_matches, content_matches.
  rewrite <- !count_positive_iff. lia.
Qed.

(** X1. A section of the index is among the matches of a search exactly when
    the lower-cased query occurs in its lower-cased title or in its
    lower-cased content. *)
Theorem search_hit_iff_query_occurs (w : World) (idx : SectionIndex)
    (query : str) (max_results : Z) :
  index_file (fs w) = Some idx ->
  exists ranked : list SearchHit,
    search_rf_documentation query max_results w
    = (SearchOK RF_VERSION query (length ranked)
         (Py.slice_to max_results ranked), w)
    /\ forall s, In s (si_sections idx) ->
         (In (hit_of (Py.lower query) s) ranked
          <-> occurs (Py.lower query) (Py.lower (sec_title s))
              \/ occurs (Py.lower query) (Py.lower (sec_content s))).
Proof.
  intros Hidx. rewrite (search_on_index w idx query max_results Hidx).
  cbv zeta. eexists. split; [reflexivity|].
  intros s Hs. rewrite <- relevance_positive_iff.
  rewrite collect_hits_filter. split.
  - intros Hin.
    apply (Permutation_in _ (Permutation_sym (sort_desc_perm _ _))) in Hin.
    apply in_map_iff in Hin. destruct Hin as (s' & Heq & Hin').
    apply filter_In in Hin'. destruct Hin' as [_ Hpos].
    apply (f_equal hit_relevance) in Heq. simpl in Heq.
    rewrite <- Heq. exact Hpos.
  - intros Hpos. apply (Permutation_in _ (sort_desc_perm _ _)).
    apply in_map. apply filter_In. split; assumption.
Qed.

Lemma lower_char_idem (c : ascii) :
  Py.lower_char (Py.lower_char c) = Py.lower_char c.
Proof. destruct c as [[] [] [] [] [] [] [] []]; reflexivity. Qed.

Lemma lower_idem (s : str) : Py.lower (Py.lower s) = Py.lower s.
Proof.
  unfold Py.lower. rewrite map_map. apply map_ext. apply lower_char_idem.
Qed.

(** X2. Search ignores the case of the query: two queries with the same
    lower-casing, and the lower-cased query itself, give the same total and
    the same hits. *)
Theorem search_ignores_query_case (w : World) (idx : SectionIndex)
    (q1 q2 : str) (max_results : Z) :
  index_file (fs w) = Some idx ->
  Py.lower q1 = Py.lower q2 ->
  exists total results,
    search_rf_documentation q1 max_results w
    = (SearchOK RF_VERSION q1 total results, w)
    /\ search_rf_documentation q2 max_results w
       = (SearchOK RF_VERSION q2 total results, w)
    /\ search_rf_documentation (Py.lower q1) max_results w
       = (SearchOK RF_VERSION (Py.lower q1) total results, w).
Proof.
  intros Hidx Hq.
  rewrite !(search_on_index w idx _ max_results Hidx). cbv zeta.
  rewrite lower_idem, <- Hq.
  eexists. eexists. repeat split; reflexivity.
Qed.

Lemma sort_desc_length {A} (key : A -> nat) (l : list A) :
  length (Py.sort_desc key l) = length l.
Proof. symmetry. apply Permutation_length, sort_desc_perm. Qed.

Lemma collect_hits_length (q : str) (sections : list Section) :
  length (collect_hits q sections) <= length sections.
Proof.
  rewrite collect_hits_filter, length_map. apply filter_length_le.
Qed.

Lemma slice_to_length {A} (n : Z) (l : list A) :
  length (Py.slice_to n l)
  = if (0 <=? n)%Z then Nat.min (Z.to_nat n) (length l)
    else length l - Z.to_nat (- n).
Proof.
  unfold Py.slice_to. destruct (0 <=? n)%Z; rewrite length_firstn; lia.
Qed.

Lemma in_firstn {A} (n : nat) (l : list A) (x : A) :
  In x (firstn n l) -> In x l.
Proof.
  intros Hin. rewrite <- (firstn_skipn n l). apply in_or_app. left.
  exact Hin.
Qed.

Lemma slice_to_incl {A} (n : Z) (l : list A) (x : A) :
  In x (Py.slice_to n l) -> In x l.
Proof.
  unfold Py.slice_to. destruct (0 <=? n)%Z; apply in_firstn.
Qed.

(** X3. The sizes of a search result: [total_matches] counts the matches
    before truncation and is at most the number of indexed sections; the
    hits returned are the first [max_results] of them, and for a negative
    [max_results] all but the last [-max_results]. *)
Theorem search_result_sizes (w : World) (idx : SectionIndex)
    (query : str) (max_results : Z) :
  index_file (fs w) = Some idx ->
  exists total results,
    search_rf_documentation query max_results w
    = (SearchOK RF_VERSION query total results, w)
    /\ total <= length (si_sections idx)
    /\ length results <= total
    /\ ((0 <= max_results)%Z ->
        length results = Nat.min (Z.to_nat max_results) total)
    /\ ((max_results < 0)%Z ->
        length results = total - Z.to_nat (- max_results)).
Proof.
  intros Hidx. rewrite (search_on_index w idx query max_results Hidx).
  cbv zeta. eexists. eexists. split; [reflexivity|].
  rewrite slice_to_length, sort_desc_length.
  pose proof (collect_hits_length (Py.lower query) (si_sections idx)) as Hle.
  destruct (0 <=? max_results)%Z eqn:E;
    [apply Z.leb_le in E | apply Z.leb_gt in E]; repeat split; lia.
Qed.

(** X4. Every hit a search returns describes a section of the index: it has
    the section's title, id and level and the URL of the guide with the id
    as fragment, its relevance is at least 1, and its preview is at most
    303 characters long, the whole content followed by three dots when the
    content has at most 300 characters. *)
Theorem search_hits_describe_sections (w : World) (idx : SectionIndex)
    (query : str) (max_results : Z) :
  index_file (fs w) = Some idx ->
  exists total results,
    search_rf_documentation query max_results w
    = (SearchOK RF_VERSION query total results, w)
    /\ Forall
         (fun h =>
            exists s, In s (si_sections idx)
                      /\ hit_title h = sec_title s
                      /\ hit_id h = sec_id s
                      /\ hit_level h = sec_level s
                      /\ hit_url h = RF_DOCS_URL ++ "#" ++ format_id (sec_id s)
                      /\ 1 <= hit_relevance h
                      /\ length (hit_content_preview h) <= 303
                      /\ (length (sec_content s) <= 300 ->
                          hit_content_preview h = sec_content s ++ "..."))
         results.
Proof.
  intros Hidx. rewrite (search_on_index w idx query max_results Hidx).
  cbv zeta. eexists. eexists. split; [reflexivity|].
  apply Forall_forall. intros h Hin.
  apply slice_to_incl in Hin.
  apply (Permutation_in _ (Permutation_sym (sort_desc_perm _ _))) in Hin.
  rewrite collect_hits_filter in Hin. apply in_map_iff in Hin.
  destruct Hin as (s & <- & Hs). apply filter_In in Hs.
  destruct Hs as [Hs Hpos]. apply Nat.ltb_lt in Hpos.
  exists s. unfold hit_of.
  cbn [hit_title hit_id hit_level hit_url hit_relevance hit_content_preview].
  repeat split; try reflexivity; try assumption.
  - rewrite length_app, length_firstn.
    change (length (lit "...")) with 3. lia.
  - intros Hlen. rewrite firstn_all2 by exact Hlen. reflexivity.
Qed.

(** ** Downloading and rebuilding *)

Lemma read_write_slot_other (s target : slot) (content : str) (f : FS) :
  s <> target ->
  read_slot (write_slot target content f) s = read_slot f s.
Proof.
  intros Hne. destruct target as [|n], s as [|m]; simpl; try reflexivity.
  - contradiction.
  - rewrite dict_get_set. destruct (Py.str_eqb n m) eqn:E; [|reflexivity].
    apply str_eqb_eq in E. subst. contradiction.
Qed.

Lemma read_write_slot_same (target : slot) (content : str) (f : FS) :
  read_slot (write_slot target content f) target = Some content.
Proof.
  destruct target as [|n]; simpl; [reflexivity|].
  rewrite dict_get_set, str_eqb_refl. reflexivity.
Qed.

(** X5. [_download_file] makes exactly one request and reads no clock; it
    never touches the index artifacts or another slot. When it succeeds the
    target slot holds the body that was served and the reported size is the
    length of that body; when it fails the files are unchanged. *)
Theorem download_writes_only_on_success (env : Env) (url : str)
    (target : slot) (w : World) :
  exists result w',
    _download_file env url target w = (result, w')
    /\ requests w' = requests w ++ [url]
    /\ clock w' = clock w
    /\ index_file (fs w') = index_file (fs w)
    /\ keywords_index (fs w') = keywords_index (fs w)
    /\ (forall s, s <> target -> read_slot (fs w') s = read_slot (fs w) s)
    /\ (download_success result = true ->
        exists content,
          urlopen env url = Body content
          /\ result = Downloaded (slot_path env target) (length content) url
          /\ read_slot (fs w') target = Some content)
    /\ (download_success result = false ->
        fs w' = fs w /\ forall content, urlopen env url <> Body content).
Proof.
  unfold _download_file, bind, http_get, modify_fs, ret.
  destruct (urlopen env url) as [content|code reason|reason|message] eqn:E;
    eexists; eexists; (split; [reflexivity|]);
    cbn [fs requests clock download_success].
  - repeat split; try reflexivity.
    + destruct target; reflexivity.
    + destruct target; reflexivity.
    + intros s Hs. apply read_write_slot_other. exact Hs.
    + intros _. exists content. repeat split.
      apply read_write_slot_same.
    + discriminate.
    + discriminate.
  - repeat split; try reflexivity; discriminate.
  - repeat split; try reflexivity; discriminate.
  - repeat split; try reflexivity; discriminate.
Qed.

Lemma primary_ok_docs (env : Env) (force : bool) (f : FS) :
  primary_ok env force f = true ->
  exists page, docs_after env force f = Some page.
Proof.
  unfold primary_ok, docs_after, attempts, slot_exists. simpl read_slot.
  destruct force; simpl.
  - destruct (urlopen env RF_DOCS_URL); try discriminate.
    intros _. eexists. reflexivity.
  - destruct (docs_file f) as [page|]; simpl.
    + intros _. exists page. reflexivity.
    + destruct (urlopen env RF_DOCS_URL); try discriminate.
      intros _. eexists. reflexivity.
Qed.

Lemma fetch_indexing `{PyRuntime} (env : Env) (force : bool) (w : World) :
  fr_indexing (fst (fetch_rf_documentation env force w))
  = match docs_after env force (fs w) with
    | Some html_content =>
        Some match html_events html_content with
             | inl events =>
                 DocParsed (length (get_sections (feed init events)))
                   (INDEX_FILE env)
             | inr message => DocParseFailed ("Parsing error: " ++ message)
             end
    | None => None
    end.
Proof.
  unfold fetch_rf_documentation. unfold bind at 1.
  destruct (download_user_guide_run env force w) as [ug [files [-> _]]].
  destruct (fs_after_primary_docs env force (fs w)) as [Hd _].
  unfold bind at 1.
  set (w1 := {| fs := fs_after_primary env force (fs w) |}).
  assert (Hidx : fst (index_user_guide env w1)
                 = match docs_after env force (fs w) with
                   | Some html_content =>
                       Some match html_events html_content with
                            | inl events =>
                                DocParsed
                                  (length (get_sections (feed init events)))
                                  (INDEX_FILE env)
                            | inr message =>
                                DocParseFailed ("Parsing error: " ++ message)
                            end
                   | None => None
                   end).
  { unfold index_user_guide, _parse_documentation, datetime_now, modify_fs,
      get_fs, bind, ret, slot_exists. cbn [read_slot fs w1]. rewrite Hd.
    destruct (docs_after env force (fs w)) as [html|]; [|reflexivity].
    cbn [fs w1]. rewrite Hd.
    destruct (html_events html); reflexivity. }
  destruct (index_user_guide env w1) as [indexing w2]. cbn [fst] in Hidx.
  unfold bind.
  destruct (fetch_libraries env force STANDARD_LIBRARIES _ w2) as [st w3].
  destruct (save_keywords_index env st w3) as [kreport w4].
  cbn [ret fst fr_indexing]. exact Hidx.
Qed.

Lemma search_without_index (w : World) (query : str) (max_results : Z) :
  index_file (fs w) = None ->
  search_rf_documentation query max_results w = (SearchIndexMissing, w).
Proof.
  intros Hnone. unfold search_rf_documentation, bind, get_fs.
  rewrite Hnone. reflexivity.
Qed.

(** X6. A rebuild that reports success leaves the guide in the cache, for
    success is the success of the download step alone. When reading and
    parsing the guide raises nothing, the run writes a section index made
    from that very page, whose [total_sections] is the number of its
    sections, reports the indexing as done, and a search that follows finds
    the index. When it raises, the run still reports success: it reports
    the parsing error under [indexing], writes no section index, and a
    search that follows answers that the index is missing when there was
    none before. *)
Theorem rebuild_success_and_section_index `{PyRuntime} (env : Env)
    (force : bool) (w : World) (query : str) (max_results : Z) :
  exists report w',
    fetch_rf_documentation env force w = (report, w')
    /\ (fr_success report = true ->
        exists page,
          docs_file (fs w') = Some page
          /\ (forall sections,
                sections_of_page page = Some sections ->
                exists idx,
                  index_file (fs w') = Some idx
                  /\ si_version idx = RF_VERSION
                  /\ si_sections idx = sections
                  /\ si_total_sections idx = length sections
                  /\ fr_indexing report
                     = Some (DocParsed (length sections) (INDEX_FILE env))
                  /\ exists total results,
                       search_rf_documentation query max_results w'
                       = (SearchOK RF_VERSION query total results, w'))
          /\ (sections_of_page page = None ->
              index_file (fs w') = index_file (fs w)
              /\ (exists error,
                    fr_indexing report = Some (DocParseFailed error))
              /\ (index_file (fs w) = None ->
                  search_rf_documentation query max_results w'
                  = (SearchIndexMissing, w')))).
Proof.
  pose proof (fetch_indexing env force w) as Hind.
  destruct (fetch_run env force w)
    as (report & w' & Heq & Hsucc & _ & Hdocs & Hidx & _).
  rewrite Heq in Hind. cbn [fst] in Hind.
  exists report, w'. split; [exact Heq|].
  intros Hok. rewrite Hsucc in Hok.
  destruct (primary_ok_docs env force (fs w) Hok) as [page Hpage].
  unfold indexed_sections in Hidx. rewrite Hpage in Hdocs, Hidx, Hind.
  exists page. split; [exact Hdocs|]. unfold sections_of_page in *.
  destruct (html_events page) as [events|message]; split.
  - intros sections Hs. injection Hs as <-.
    eexists. split; [exact Hidx|].
    cbn [section_index_of si_version si_sections si_total_sections].
    repeat (split; [reflexivity|]). split; [exact Hind|].
    rewrite (search_on_index w' _ query max_results Hidx). cbv zeta.
    eexists. eexists. reflexivity.
  - discriminate.
  - discriminate.
  - intros _. split; [exact Hidx|]. split; [eexists; exact Hind|].
    intros Hnone. apply search_without_index. congruence.
Qed.

Lemma library_requests_forced (f : FS) (libs : list str) :
  library_requests true f libs = map library_url libs.
Proof.
  unfold library_requests. f_equal.
  induction libs as [|n libs IH]; simpl; [reflexivity|].
  f_equal. exact IH.
Qed.

Lemma forced_requests `{PyRuntime} (env : Env) (w : World) :
  requests (snd (fetch_rf_documentation env true w))
  = requests w ++ RF_DOCS_URL :: map library_url STANDARD_LIBRARIES.
Proof.
  destruct (fetch_run env true w)
    as (report & w' & Heq & _ & _ & _ & _ & _ & _ & Hreq).
  rewrite Heq. cbn [snd]. rewrite Hreq, library_requests_forced.
  reflexivity.
Qed.

(** X7. A forced rebuild requests the guide and then the page of every
    standard library, in the order of the list, whatever the cache holds:
    ten requests, whether or not they succeed. *)
Theorem forced_refresh_requests_everything `{PyRuntime} (env : Env)
    (w : World) :
  exists report w',
    fetch_rf_documentation env true w = (report, w')
    /\ requests w'
       = requests w ++ RF_DOCS_URL :: map library_url STANDARD_LIBRARIES
    /\ length (requests w') = length (requests w) + 10.
Proof.
  pose proof (forced_requests env w) as Hreq.
  destruct (fetch_rf_documentation env true w) as [report w'].
  cbn [snd] in Hreq. exists report, w'. split; [reflexivity|].
  split; [exact Hreq|]. rewrite Hreq, length_app. reflexivity.
Qed.

Lemma parsed_nonempty {V} (d : Py.pydict V) (k : str) (v : V) :
  Py.dict_get d k = Some v -> d <> [].
Proof. intros Hget ->. discriminate. Qed.

(** X8. When a forced rebuild cannot fetch the page of a library that is in
    the cache, the cached page stays and is the one that is parsed: the
    report has the entry of its parse, and its keywords, when it parses, are
    in the keyword index that the run writes. *)
Theorem failed_refresh_keeps_cached_page `{PyRuntime} (env : Env)
    (w : World) (n page : str) :
  In n STANDARD_LIBRARIES ->
  read_slot (fs w) (LibrarySlot n) = Some page ->
  (forall content, urlopen env (library_url n) <> Body content) ->
  exists report w',
    fetch_rf_documentation env true w = (report, w')
    /\ In (library_url n) (requests w')
    /\ read_slot (fs w') (LibrarySlot n) = Some page
    /\ Py.dict_get (fr_libraries report) n
       = Some (report_of (parse_library_page n page))
    /\ (forall keywords total,
          parse_library_page n page = KwSuccess n keywords total ->
          exists idx,
            keywords_index (fs w') = Some idx
            /\ Py.dict_get (ki_libraries idx) n = Some keywords).
Proof.
  intros Hin Hread Hfail.
  destruct (fetch_run env true w)
    as (report & w' & Heq & _ & Hlibs & _ & _ & Hkw & Hslot & Hreq).
  exists report, w'. split; [exact Heq|].
  assert (Hstd : str_in n STANDARD_LIBRARIES = true)
    by (apply str_in_iff; exact Hin).
  assert (Hpage : page_after env true (fs w) n = Some page).
  { unfold page_after, attempts. cbn [orb].
    destruct (urlopen env (library_url n)) as [content| | |];
      try exact Hread.
    exfalso. exact (Hfail content eq_refl). }
  assert (Hout : library_outcome env true (fs w) n
                 = Some (parse_library_page n page)).
  { unfold library_outcome. rewrite Hpage. reflexivity. }
  split; [|split; [|split]].
  - rewrite Hreq, library_requests_forced.
    apply in_or_app. right. apply in_or_app. right.
    apply in_map. exact Hin.
  - rewrite Hslot, Hstd. exact Hpage.
  - rewrite Hlibs, reports_get, Hstd, Hout. reflexivity.
  - intros keywords total Hparse.
    assert (Hget : Py.dict_get
                     (parsed_libraries env true (fs w) STANDARD_LIBRARIES) n
                   = Some keywords).
    { rewrite parsed_get, Hstd, Hout, Hparse. reflexivity. }
    pose proof (parsed_nonempty _ _ _ Hget) as Hne.
    cbv zeta in Hkw.
    destruct (parsed_libraries env true (fs w) STANDARD_LIBRARIES)
      as [|e parsed] eqn:Ep; [contradiction|].
    eexists. split; [exact Hkw|]. exact Hget.
Qed.

(** X9. The listing of a library judges the rebuild it triggers by the
    guide alone: when the page of the library is not in the cache and the
    guide cannot be fetched, the call reports a fetch failure although the
    run has fetched and cached the page of the library; the next call
    works on that page. *)
Theorem listing_reports_guide_failure `{PyRuntime} (env : Env) (w : World)
    (n page : str) (filter_pattern : option str) :
  In n STANDARD_LIBRARIES ->
  read_slot (fs w) (LibrarySlot n) = None ->
  primary_ok env false (fs w) = false ->
  urlopen env (library_url n) = Body page ->
  exists w',
    get_library_keywords env n filter_pattern w = (LkFetchFailed n, w')
    /\ read_slot (fs w') (LibrarySlot n) = Some page
    /\ exists result,
         get_library_keywords env n filter_pattern w' = (result, w')
         /\ result <> LkFetchFailed n
         /\ result <> LkUnknownLibrary n STANDARD_LIBRARIES.
Proof.
  intros Hin Hread Hprim Hbody.
  assert (Hstd : str_in n STANDARD_LIBRARIES = true)
    by (apply str_in_iff; exact Hin).
  destruct (fetch_run env false w)
    as (report & w' & Heq & Hsucc & _ & _ & _ & _ & Hslot & _).
  assert (Hpage : read_slot (fs w') (LibrarySlot n) = Some page).
  { rewrite Hslot, Hstd. unfold page_after, attempts, slot_exists.
    rewrite Hread. cbn [orb negb]. rewrite Hbody. reflexivity. }
  exists w'. split; [|split; [exact Hpage|]].
  - unfold get_library_keywords. rewrite Hstd. cbn [negb].
    unfold bind at 1. unfold get_fs at 1.
    unfold slot_exists. rewrite Hread. cbn [negb].
    unfold bind. rewrite Heq. unfold ret. rewrite Hsucc, Hprim.
    reflexivity.
  - destruct (get_library_keywords env n filter_pattern w')
      as [result w''] eqn:Hcall.
    unfold get_library_keywords in Hcall. rewrite Hstd in Hcall.
    cbn [negb] in Hcall.
    unfold bind at 1 in Hcall. unfold get_fs at 1 in Hcall.
    unfold slot_exists in Hcall. rewrite Hpage in Hcall.
    cbn [negb] in Hcall.
    cbv [bind ret get_fs _parse_library_keywords negb] in Hcall.
    rewrite Hpage in Hcall.
    exists result.
    destruct (parse_library_page n page) as [|e|lib kws total];
      [| |destruct (if_given filter_pattern) as [p|];
          [destruct (re_compile_ignorecase p) as [search|]|]];
      injection Hcall as <- <-; (split; [reflexivity | split; discriminate]).
Qed.

(** ** Listing keywords *)

Lemma str_ltb_asym (a b : str) :
  Py.str_ltb a b = true -> Py.str_ltb b a = false.
Proof.
  revert b. induction a as [|x a IH]; intros [|y b]; simpl;
    try discriminate; try reflexivity.
  destruct (Nat.ltb_spec (nat_of_ascii x) (nat_of_ascii y)) as [Hxy|Hxy];
    destruct (Nat.ltb_spec (nat_of_ascii y) (nat_of_ascii x)) as [Hyx|Hyx];
    try lia; try discriminate; try reflexivity.
  apply IH.
Qed.

Lemma str_le_trans (a b c : str) : str_le a b -> str_le b c -> str_le a c.
Proof.
  unfold str_le. revert b c.
  induction a as [|x a IH]; intros [|y b] [|z c]; simpl;
    try discriminate; try reflexivity.
  destruct (Nat.ltb_spec (nat_of_ascii y) (nat_of_ascii x)) as [Hyx|Hyx];
    [discriminate|].
  destruct (Nat.ltb_spec (nat_of_ascii x) (nat_of_ascii y)) as [Hxy|Hxy];
    destruct (Nat.ltb_spec (nat_of_ascii z) (nat_of_ascii y)) as [Hzy|Hzy];
    try discriminate;
    destruct (Nat.ltb_spec (nat_of_ascii y) (nat_of_ascii z)) as [Hyz|Hyz];
    destruct (Nat.ltb_spec (nat_of_ascii z) (nat_of_ascii x)) as [Hzx|Hzx];
    destruct (Nat.ltb_spec (nat_of_ascii x) (nat_of_ascii z)) as [Hxz|Hxz];
    try lia; try discriminate; try reflexivity.
  apply IH.
Qed.

Section SortedItems.
Context {V : Type}.

Lemma insert_item_perm (x : str * V) (l : list (str * V)) :
  Permutation (x :: l) (Py.insert_item x l).
Proof.
  induction l as [|y l IH]; simpl; [apply Permutation_refl|].
  destruct (Py.str_ltb (fst y) (fst x)); [|apply Permutation_refl].
  eapply Permutation_trans; [apply perm_swap|].
  apply perm_skip. exact IH.
Qed.

Lemma sorted_items_perm (d : Py.pydict V) : Permutation d (Py.sorted_items d).
Proof.
  unfold Py.sorted_items. induction d as [|x d IH]; simpl;
    [apply Permutation_refl|].
  eapply Permutation_trans; [apply perm_skip, IH | apply insert_item_perm].
Qed.

Lemma insert_item_sorted (x : str * V) (l : list (str * V)) :
  StronglySorted by_key l -> StronglySorted by_key (Py.insert_item x l).
Proof.
  induction l as [|y l IH]; intros Hs; simpl.
  - constructor; [constructor | constructor].
  - inversion Hs as [|y' l' Hl Hy]; subst.
    destruct (Py.str_ltb (fst y) (fst x)) eqn:E.
    + constructor; [apply IH; exact Hl|].
      apply (Permutation_Forall (insert_item_perm x l)).
      constructor; [|exact Hy].
      unfold by_key, str_le. apply str_ltb_asym. exact E.
    + constructor; [exact Hs|].
      constructor; [exact E|].
      apply Forall_forall. intros z Hz.
      rewrite Forall_forall in Hy.
      apply (str_le_trans _ (fst y)); [exact E | apply Hy; exact Hz].
Qed.

Lemma sorted_items_sorted (d : Py.pydict V) :
  StronglySorted by_key (Py.sorted_items d).
Proof.
  unfold Py.sorted_items. induction d as [|x d IH]; simpl.
  - constructor.
  - apply insert_item_sorted. exact IH.
Qed.

End SortedItems.

Lemma keyword_list_length (n : str) (kws : Py.pydict KeywordRecord) :
  length (keyword_list n kws) = length kws.
Proof.
  unfold keyword_list. rewrite length_map. symmetry.
  apply Permutation_length, sorted_items_perm.
Qed.

Lemma keyword_list_names (n : str) (kws : Py.pydict KeywordRecord) :
  map ks_name (keyword_list n kws) = map fst (Py.sorted_items kws).
Proof. unfold keyword_list. rewrite map_map. reflexivity. Qed.

Lemma keyword_list_sorted (n : str) (kws : Py.pydict KeywordRecord) :
  StronglySorted (fun a b => str_le (ks_name a) (ks_name b))
    (keyword_list n kws).
Proof.
  unfold keyword_list.
  pose proof (sorted_items_sorted kws) as Hs.
  induction Hs as [|x l Hl IH Hx]; simpl; constructor.
  - exact IH.
  - apply Forall_map. exact Hx.
Qed.

Lemma keyword_list_entries (n : str) (kws : Py.pydict KeywordRecord) :
  Forall (fun k => ks_library k = n
                   /\ length (ks_description k) <= 200
                   /\ exists v, In (ks_name k, v) kws
                                /\ ks_args k = kw_args v
                                /\ ks_description k = firstn 200 (kw_doc v))
    (keyword_list n kws).
Proof.
  apply Forall_forall. intros k Hk. unfold keyword_list in Hk.
  apply in_map_iff in Hk. destruct Hk as ([name v] & <- & Hin).
  apply (Permutation_in _ (Permutation_sym (sorted_items_perm kws))) in Hin.
  cbn [ks_library ks_description ks_name ks_args fst snd].
  split; [reflexivity|]. split.
  - rewrite length_firstn. lia.
  - exists v. repeat split. exact Hin.
Qed.

Lemma filter_keys {V} (keep : str -> bool) (d : Py.pydict V) :
  map fst (filter (fun kv => keep (fst kv)) d) = filter keep (map fst d).
Proof.
  induction d as [|[k v] d IH]; simpl; [reflexivity|].
  destruct (keep k); simpl; rewrite IH; reflexivity.
Qed.

Lemma filter_all {A} (l : list A) : filter (fun _ => true) l = l.
Proof. induction l as [|x l IH]; simpl; [|rewrite IH]; reflexivity. Qed.

Lemma get_library_keywords_cached `{PyRuntime} (env : Env) (w : World)
    (n page lib : str) (kws : Py.pydict KeywordRecord) (total : nat)
    (filter_pattern : option str) :
  In n STANDARD_LIBRARIES ->
  read_slot (fs w) (LibrarySlot n) = Some page ->
  parse_library_page n page = KwSuccess lib kws total ->
  get_library_keywords env n filter_pattern w
  = (match name_filter filter_pattern with
     | Some keep =>
         let l := keyword_list n (filter (fun kv => keep (fst kv)) kws) in
         LkOK RF_VERSION n (length l) l
     | None => LkInvalidPattern
     end, w).
Proof.
  intros Hin Hread Hparse.
  assert (Hstd : str_in n STANDARD_LIBRARIES = true)
    by (apply str_in_iff; exact Hin).
  unfold get_library_keywords. rewrite Hstd.
  cbv [bind ret get_fs _parse_library_keywords negb slot_exists].
  rewrite Hread.
  cbv [bind ret get_fs _parse_library_keywords negb slot_exists].
  rewrite Hread, Hparse. unfold name_filter.
  destruct (if_given filter_pattern) as [p|].
  - destruct (re_compile_ignorecase p) as [search|]; reflexivity.
  - cbv beta zeta. rewrite filter_all. reflexivity.
Qed.

(** X10. A listing of a library whose page is cached and parses is sorted
    by name in code-point order, whatever the order on the page; its names
    are the names of the page that the pattern matches, each once; every
    entry carries the library name, the arguments of its record and the
    first 200 characters of the record's documentation; [total_keywords] is
    the length of the listing. A pattern that does not compile gives the
    pattern error. *)
Theorem library_listing_sorted `{PyRuntime} (env : Env) (w : World)
    (n page lib : str) (kws : Py.pydict KeywordRecord) (total : nat)
    (filter_pattern : option str) :
  In n STANDARD_LIBRARIES ->
  read_slot (fs w) (LibrarySlot n) = Some page ->
  parse_library_page n page = KwSuccess lib kws total ->
  (name_filter filter_pattern = None ->
   get_library_keywords env n filter_pattern w = (LkInvalidPattern, w))
  /\ (forall keep, name_filter filter_pattern = Some keep ->
      exists listing,
        get_library_keywords env n filter_pattern w
        = (LkOK RF_VERSION n (length listing) listing, w)
        /\ Permutation (map ks_name listing)
             (filter keep (Py.dict_keys kws))
        /\ StronglySorted (fun a b => str_le (ks_name a) (ks_name b)) listing
        /\ Forall (fun k =>
                     ks_library k = n
                     /\ length (ks_description k) <= 200
                     /\ exists v, In (ks_name k, v) kws
                                  /\ ks_args k = kw_args v
                                  /\ ks_description k
                                     = firstn 200 (kw_doc v))
             listing).
Proof.
  intros Hin Hread Hparse.
  rewrite (get_library_keywords_cached env w n page lib kws total
             filter_pattern Hin Hread Hparse).
  split.
  - intros ->. reflexivity.
  - intros keep ->. cbv zeta. eexists. split; [reflexivity|].
    split; [|split].
    + rewrite keyword_list_names. unfold Py.dict_keys.
      rewrite <- filter_keys. apply Permutation_map, Permutation_sym,
        sorted_items_perm.
    + apply keyword_list_sorted.
    + eapply Forall_impl; [|apply keyword_list_entries].
      intros k (Hl & Hd & v & Hv & Ha & Hdoc).
      split; [exact Hl|]. split; [exact Hd|].
      exists v. split; [|split; assumption].
      apply filter_In in Hv. apply Hv.
Qed.

(** X11. A library name outside the configured list is rejected before any
    file is read or any request is made, whatever the cache holds and
    whatever the pattern is; names are compared exactly, case included. *)
Theorem unknown_library_rejected `{PyRuntime} (env : Env) (w : World)
    (n : str) (filter_pattern : option str) :
  ~ In n STANDARD_LIBRARIES ->
  get_library_keywords env n filter_pattern w
  = (LkUnknownLibrary n STANDARD_LIBRARIES, w).
Proof.
  intros Hout. unfold get_library_keywords.
  destruct (str_in n STANDARD_LIBRARIES) eqn:E.
  - apply str_in_iff in E. contradiction.
  - reflexivity.
Qed.

(** X12. [get_builtin_keywords] is the listing of the library BuiltIn: it
    never answers that the library is unknown, and it changes the files
    only by the rebuild it runs when the page of BuiltIn is not cached. *)
Theorem builtin_shortcut_knows_its_library `{PyRuntime} (env : Env)
    (w : World) (filter_pattern : option str) :
  exists result w',
    get_builtin_keywords env filter_pattern w = (result, w')
    /\ (forall name available, result <> LkUnknownLibrary name available)
    /\ (read_slot (fs w) (LibrarySlot "BuiltIn") <> None -> w' = w)
    /\ (read_slot (fs w) (LibrarySlot "BuiltIn") = None ->
        w' = snd (fetch_rf_documentation env false w)).
Proof.
  destruct (get_builtin_keywords env filter_pattern w)
    as [result w'] eqn:Hcall.
  exists result, w'. split; [reflexivity|].
  unfold get_builtin_keywords, get_library_keywords in Hcall.
  replace (str_in (lit "BuiltIn") STANDARD_LIBRARIES) with true in Hcall
    by reflexivity.
  cbv [bind ret get_fs _parse_library_keywords negb slot_exists] in Hcall.
  destruct (read_slot (fs w) (LibrarySlot "BuiltIn")) as [page|] eqn:Hread.
  - cbv [bind ret get_fs _parse_library_keywords negb slot_exists] in Hcall.
    rewrite Hread in Hcall.
    destruct (parse_library_page "BuiltIn" page) as [|e|lib kws total];
      [| |destruct (if_given filter_pattern) as [p|];
          [destruct (re_compile_ignorecase p) as [search|]|]];
      injection Hcall as <- <-;
      (split; [discriminate | split; [reflexivity | discriminate]]).
  - destruct (fetch_rf_documentation env false w) as [report w1].
    cbn [snd].
    destruct (fr_success report).
    + destruct (read_slot (fs w1) (LibrarySlot "BuiltIn")) as [page|].
      * destruct (parse_library_page "BuiltIn" page) as [|e|lib kws total];
          [| |destruct (if_given filter_pattern) as [p|];
              [destruct (re_compile_ignorecase p) as [search|]|]];
          injection Hcall as <- <-;
          (split; [discriminate | split; [congruence | reflexivity]]).
      * injection Hcall as <- <-.
        split; [discriminate | split; [congruence | reflexivity]].
    + injection Hcall as <- <-.
      split; [discriminate | split; [congruence | reflexivity]].
Qed.

Lemma format_libraries_from (libs : Py.pydict (Py.pydict KeywordRecord)) :
  NoDup (Py.dict_keys libs) ->
  forall (d0 : Py.pydict (list KeywordSummary)) (t0 : nat),
    (forall k, In k (Py.dict_keys libs) -> ~ In k (Py.dict_keys d0)) ->
    fold_left
      (fun acc lib =>
         let l := keyword_list (fst lib) (snd lib) in
         (Py.dict_set (fst acc) (fst lib) l, snd acc + length l))
      libs (d0, t0)
    = (d0 ++ map listed libs,
       t0 + list_sum (map (fun lib => length (snd lib)) libs)).
Proof.
  induction libs as [|[k v] libs IH]; intros Hnd d0 t0 Hfresh.
  - simpl. rewrite app_nil_r, Nat.add_0_r. reflexivity.
  - simpl in Hnd. inversion Hnd as [|k' ks Hk Hnd']; subst.
    cbn [fold_left fst snd]. cbv zeta.
    rewrite dict_set_fresh by (apply Hfresh; left; reflexivity).
    rewrite IH; [| exact Hnd' |].
    + rewrite <- app_assoc. cbn [map list_sum fold_right app fst snd listed].
      unfold listed at 2. cbn [fst snd].
      rewrite keyword_list_length. f_equal.
      unfold list_sum. lia.
    + intros k' Hk' Hin. unfold Py.dict_keys in Hin.
      rewrite map_app in Hin. apply in_app_or in Hin.
      destruct Hin as [Hin|Hin].
      * apply (Hfresh k'); [right; exact Hk' | exact Hin].
      * simpl in Hin. destruct Hin as [<-|[]]. contradiction.
Qed.

Lemma format_libraries_spec (libs : Py.pydict (Py.pydict KeywordRecord)) :
  NoDup (Py.dict_keys libs) ->
  format_libraries libs
  = (map listed libs, list_sum (map (fun lib => length (snd lib)) libs)).
Proof.
  intros Hnd. unfold format_libraries.
  exact (format_libraries_from libs Hnd [] 0 (fun k _ Hin => Hin)).
Qed.

Lemma kept_keys (search : str -> bool)
    (libs : Py.pydict (Py.pydict KeywordRecord)) (k : str) :
  In k (Py.dict_keys (flat_map (kept_keywords search) libs)) ->
  In k (Py.dict_keys libs).
Proof.
  induction libs as [|[k' v] libs IH]; simpl; [tauto|].
  unfold Py.dict_keys. rewrite map_app. intros Hin.
  apply in_app_or in Hin. destruct Hin as [Hin|Hin].
  - left. unfold kept_keywords in Hin. cbn [fst snd] in Hin.
    destruct (filter _ v); simpl in Hin; [contradiction|].
    destruct Hin as [<-|[]]. reflexivity.
  - right. apply IH. exact Hin.
Qed.

Lemma kept_nodup (search : str -> bool)
    (libs : Py.pydict (Py.pydict KeywordRecord)) :
  NoDup (Py.dict_keys libs) ->
  NoDup (Py.dict_keys (flat_map (kept_keywords search) libs)).
Proof.
  induction libs as [|[k v] libs IH]; intros Hnd; simpl; [constructor|].
  simpl in Hnd. inversion Hnd as [|k' ks Hk Hnd']; subst.
  unfold kept_keywords at 1. cbn [fst snd].
  destruct (filter _ v); simpl.
  - apply IH. exact Hnd'.
  - constructor; [|apply IH; exact Hnd'].
    intros Hin. apply Hk. apply (kept_keys search). exact Hin.
Qed.

Lemma filter_libraries_from (search : str -> bool)
    (libs : Py.pydict (Py.pydict KeywordRecord)) :
  NoDup (Py.dict_keys libs) ->
  forall d0 : Py.pydict (Py.pydict KeywordRecord),
    (forall k, In k (Py.dict_keys libs) -> ~ In k (Py.dict_keys d0)) ->
    fold_left
      (fun filtered_libraries lib =>
         match filter (fun kv => search (fst kv)) (snd lib) with
         | [] => filtered_libraries
         | filtered_kw => Py.dict_set filtered_libraries (fst lib) filtered_kw
         end)
      libs d0
    = d0 ++ flat_map (kept_keywords search) libs.
Proof.
  induction libs as [|[k v] libs IH]; intros Hnd d0 Hfresh.
  - simpl. rewrite app_nil_r. reflexivity.
  - simpl in Hnd. inversion Hnd as [|k' ks Hk Hnd']; subst.
    cbn [fold_left flat_map fst snd]. unfold kept_keywords at 1.
    cbn [fst snd].
    destruct (filter (fun kv => search (fst kv)) v) as [|e kw] eqn:E.
    + rewrite IH; [reflexivity | exact Hnd' |].
      intros k' Hk'. apply Hfresh. right. exact Hk'.
    + rewrite dict_set_fresh by (apply Hfresh; left; reflexivity).
      rewrite IH; [rewrite <- app_assoc; reflexivity | exact Hnd' |].
      intros k' Hk' Hin. unfold Py.dict_keys in Hin.
      rewrite map_app in Hin. apply in_app_or in Hin.
      destruct Hin as [Hin|Hin].
      * apply (Hfresh k'); [right; exact Hk' | exact Hin].
      * simpl in Hin. destruct Hin as [<-|[]]. contradiction.
Qed.

Lemma filter_libraries_spec (search : str -> bool)
    (libs : Py.pydict (Py.pydict KeywordRecord)) :
  NoDup (Py.dict_keys libs) ->
  filter_libraries search libs = flat_map (kept_keywords search) libs.
Proof.
  intros Hnd. unfold filter_libraries.
  exact (filter_libraries_from search libs Hnd [] (fun k _ Hin => Hin)).
Qed.

Lemma get_all_keywords_cached `{PyRuntime} (env : Env) (w : World)
    (idx : KeywordIndex) (filter_pattern : option str) :
  keywords_index (fs w) = Some idx ->
  get_all_keywords env filter_pattern w
  = (match if_given filter_pattern with
     | None =>
         let r := format_libraries (ki_libraries idx) in
         AkOK RF_VERSION (snd r) (length (fst r)) (fst r)
     | Some p =>
         match re_compile_ignorecase p with
         | None => AkInvalidPattern
         | Some search =>
             let r := format_libraries
                        (filter_libraries search (ki_libraries idx)) in
             AkOK RF_VERSION (snd r) (length (fst r)) (fst r)
         end
     end, w).
Proof.
  intros Hidx. unfold get_all_keywords.
  cbv [bind ret get_fs negb]. rewrite Hidx.
  cbv [bind ret get_fs negb]. rewrite Hidx.
  destruct (if_given filter_pattern) as [p|];
    [destruct (re_compile_ignorecase p) as [search|]|]; reflexivity.
Qed.

(** X13. Without a pattern the listing of all keywords has one entry for
    every library of the index, in the order of the index, a library
    without keywords included; [total_keywords] is the number of records
    counted in the index, not the total stored in it, and
    [total_libraries] is the number of its libraries. *)
Theorem all_keywords_lists_every_library `{PyRuntime} (env : Env)
    (w : World) (idx : KeywordIndex) (filter_pattern : option str) :
  keywords_index (fs w) = Some idx ->
  NoDup (Py.dict_keys (ki_libraries idx)) ->
  if_given filter_pattern = None ->
  get_all_keywords env filter_pattern w
  = (AkOK RF_VERSION
       (list_sum (map (fun lib => length (snd lib)) (ki_libraries idx)))
       (length (ki_libraries idx))
       (map listed (ki_libraries idx)), w).
Proof.
  intros Hidx Hnd Hgiven.
  rewrite (get_all_keywords_cached env w idx filter_pattern Hidx), Hgiven.
  cbv zeta. rewrite (format_libraries_spec _ Hnd). cbn [fst snd].
  rewrite length_map. reflexivity.
Qed.

Lemma kept_get (search : str -> bool)
    (libs : Py.pydict (Py.pydict KeywordRecord)) (lib : str)
    (kws : Py.pydict KeywordRecord) :
  NoDup (Py.dict_keys libs) -> In (lib, kws) libs ->
  Py.dict_get (map listed (flat_map (kept_keywords search) libs)) lib
  = match filter (fun kv => search (fst kv)) kws with
    | [] => None
    | filtered_kw => Some (keyword_list lib filtered_kw)
    end.
Proof.
  induction libs as [|[k v] libs IH]; intros Hnd Hin; [contradiction|].
  simpl in Hnd. inversion Hnd as [|k' ks Hk Hnd']; subst.
  cbn [flat_map]. rewrite map_app.
  destruct (Py.str_eqb k lib) eqn:E.
  - apply str_eqb_eq in E. subst k.
    assert (v = kws) as ->.
    { destruct Hin as [Heq|Hin]; [congruence|].
      exfalso. apply Hk. apply (in_map fst) in Hin. exact Hin. }
    unfold kept_keywords at 1. cbn [fst snd].
    destruct (filter (fun kv => search (fst kv)) kws) as [|e kw].
    + simpl. destruct (Py.dict_get _ lib) eqn:G; [|reflexivity].
      exfalso. apply Hk. apply (kept_keys search).
      assert (Hk' : In lib (Py.dict_keys
                (map listed (flat_map (kept_keywords search) libs))))
        by (apply dict_get_in_keys; eexists; exact G).
      unfold Py.dict_keys in *. rewrite map_map in Hk'. exact Hk'.
    + simpl. rewrite str_eqb_refl. reflexivity.
  - destruct Hin as [Heq|Hin].
    { injection Heq as -> ->. rewrite str_eqb_refl in E. discriminate. }
    unfold kept_keywords at 1. cbn [fst snd].
    destruct (filter (fun kv => search (fst kv)) v) as [|e kw].
    + simpl. apply IH; assumption.
    + simpl. rewrite E. apply IH; assumption.
Qed.

(** X14. With a pattern the listing of all keywords has an entry exactly
    for the libraries of the index with a keyword name that the pattern
    matches: no listed library is empty, the entry of a library lists the
    matching names, and [total_keywords] is the sum of the lengths of the
    entries. *)
Theorem filtered_listing_drops_empty_libraries `{PyRuntime} (env : Env)
    (w : World) (idx : KeywordIndex) (filter_pattern : option str)
    (p : str) (search : str -> bool) :
  keywords_index (fs w) = Some idx ->
  NoDup (Py.dict_keys (ki_libraries idx)) ->
  if_given filter_pattern = Some p ->
  re_compile_ignorecase p = Some search ->
  exists total libraries,
    get_all_keywords env filter_pattern w
    = (AkOK RF_VERSION total (length libraries) libraries, w)
    /\ total = list_sum (map (fun e => length (snd e)) libraries)
    /\ Forall (fun e => snd e <> []) libraries
    /\ (forall lib kws, In (lib, kws) (ki_libraries idx) ->
          Py.dict_get libraries lib
          = match filter (fun kv => search (fst kv)) kws with
            | [] => None
            | filtered_kw => Some (keyword_list lib filtered_kw)
            end)
    /\ (forall lib, In lib (Py.dict_keys libraries) ->
          In lib (Py.dict_keys (ki_libraries idx))).
Proof.
  intros Hidx Hnd Hgiven Hre.
  rewrite (get_all_keywords_cached env w idx filter_pattern Hidx),
    Hgiven, Hre.
  cbv zeta. rewrite (filter_libraries_spec _ _ Hnd).
  rewrite (format_libraries_spec _ (kept_nodup search _ Hnd)).
  cbn [fst snd]. eexists. eexists. split; [reflexivity|].
  split; [|split; [|split]].
  - rewrite map_map. f_equal. apply map_ext. intros [k v].
    unfold listed. cbn [fst snd]. rewrite keyword_list_length. reflexivity.
  - apply Forall_forall. intros e He. apply in_map_iff in He.
    destruct He as ([k v] & <- & Hin). apply in_flat_map in Hin.
    destruct Hin as ([k' v'] & _ & Hin). unfold kept_keywords in Hin.
    cbn [fst snd] in Hin.
    destruct (filter (fun kv => search (fst kv)) v') as [|e kw];
      [contradiction|].
    destruct Hin as [Heq|[]]. injection Heq as <- <-.
    unfold listed. cbn [fst snd]. intros Hnil.
    apply (f_equal (@length _)) in Hnil.
    rewrite keyword_list_length in Hnil. discriminate.
  - intros lib kws Hin. apply kept_get; assumption.
  - intros lib Hin. apply (kept_keys search).
    unfold Py.dict_keys in *. rewrite map_map in Hin. exact Hin.
Qed.

(** ** Looking up keywords *)

Lemma replace_app (old : ascii) (new a b : str) :
  Py.replace old new (a ++ b) = Py.replace old new a ++ Py.replace old new b.
Proof. unfold Py.replace. apply flat_map_app. Qed.

Lemma normalize_name_app (a b : str) :
  normalize_name (a ++ b) = normalize_name a ++ normalize_name b.
Proof.
  unfold normalize_name, Py.lower. rewrite map_app, !replace_app.
  reflexivity.
Qed.

Lemma normalize_char_idem (c : ascii) :
  normalize_name (normalize_name [c]) = normalize_name [c].
Proof. destruct c as [[] [] [] [] [] [] [] []]; reflexivity. Qed.

Lemma normalize_name_idem (k : str) :
  normalize_name (normalize_name k) = normalize_name k.
Proof.
  induction k as [|c k IH]; [reflexivity|].
  change (c :: k) with ([c] ++ k).
  rewrite !normalize_name_app, normalize_char_idem, IH. reflexivity.
Qed.

Lemma find_keyword_some (t : str) (kws : Py.pydict KeywordRecord)
    (k : str) (v : KeywordRecord) :
  find_keyword t kws = Some (k, v) -> In (k, v) kws /\ normalize_name k = t.
Proof.
  induction kws as [|[k' v'] kws IH]; simpl; [discriminate|].
  destruct (Py.str_eqb (normalize_name k') t) eqn:E.
  - intros Heq. injection Heq as -> ->. apply str_eqb_eq in E.
    split; [left; reflexivity | exact E].
  - intros Hf. destruct (IH Hf) as [Hin Hn]. split; [right|]; assumption.
Qed.

Lemma find_keyword_complete (t : str) (kws : Py.pydict KeywordRecord)
    (k : str) :
  In k (Py.dict_keys kws) -> normalize_name k = t ->
  exists r, find_keyword t kws = Some r.
Proof.
  induction kws as [|[k' v'] kws IH]; simpl; [contradiction|].
  intros Hin Hn. destruct (Py.str_eqb (normalize_name k') t) eqn:E.
  - eexists. reflexivity.
  - destruct Hin as [->|Hin]; [|apply IH; assumption].
    apply str_eqb_neq in E. contradiction.
Qed.

Lemma find_in_libraries_some (t : str)
    (libs : Py.pydict (Py.pydict KeywordRecord)) (lib k : str)
    (v : KeywordRecord) :
  find_in_libraries t libs = Some (lib, (k, v)) ->
  exists kws, In (lib, kws) libs /\ In (k, v) kws /\ normalize_name k = t.
Proof.
  induction libs as [|[l kws] libs IH]; simpl; [discriminate|].
  destruct (find_keyword t kws) as [[k' v']|] eqn:E.
  - intros Heq. injection Heq as -> -> ->.
    apply find_keyword_some in E. destruct E as [Hin Hn].
    exists kws. split; [left; reflexivity | split; assumption].
  - intros Hf. destruct (IH Hf) as (kws' & Hin & Hk).
    exists kws'. split; [right|]; assumption.
Qed.

Lemma find_in_libraries_complete (q : str)
    (libs : Py.pydict (Py.pydict KeywordRecord)) :
  some_match q libs ->
  exists r, find_in_libraries (normalize_name q) libs = Some r.
Proof.
  intros (lib & kws & k & Hin & Hk & Hn).
  induction libs as [|[l kws'] libs IH]; [contradiction|].
  simpl. destruct (find_keyword (normalize_name q) kws') as [r|] eqn:E.
  - eexists. reflexivity.
  - destruct Hin as [Heq|Hin]; [|apply IH; exact Hin].
    injection Heq as -> ->.
    destruct (find_keyword_complete _ _ _ Hk Hn) as [r Hr]. congruence.
Qed.

Lemma lookup_all_libraries (idx : KeywordIndex) (q : str) :
  lookup_keyword idx q None
  = match find_in_libraries (normalize_name q) (ki_libraries idx) with
    | Some (lib_name, (k, v)) =>
        KdFound RF_VERSION k lib_name (kw_args v) (kw_doc v)
          ((RF_BASE_LIB_URL ++ "/" ++ lib_name ++ ".html") ++ "#" ++ kw_id v)
    | None => KdNotFound RF_VERSION q
    end.
Proof. reflexivity. Qed.

(** X15. Every keyword of the index can be looked up: a query that
    normalizes to the same string as a stored name is answered with a
    record of the index whose name normalizes to that string, and the
    normalized query is answered in the same way. *)
Theorem indexed_keyword_is_found `{PyRuntime} (env : Env) (w : World)
    (idx : KeywordIndex) (q : str) :
  keywords_index (fs w) = Some idx ->
  some_match q (ki_libraries idx) ->
  exists k lib v,
    get_keyword_documentation env q None w
    = (KdFound RF_VERSION k lib (kw_args v) (kw_doc v)
         ((RF_BASE_LIB_URL ++ "/" ++ lib ++ ".html") ++ "#" ++ kw_id v), w)
    /\ normalize_name k = normalize_name q
    /\ (exists kws, In (lib, kws) (ki_libraries idx) /\ In (k, v) kws)
    /\ get_keyword_documentation env (normalize_name q) None w
       = get_keyword_documentation env q None w.
Proof.
  intros Hidx Hsome.
  rewrite !(get_keyword_documentation_on_index env w idx _ None Hidx).
  rewrite !lookup_all_libraries, normalize_name_idem.
  destruct (find_in_libraries_complete q _ Hsome) as [[lib [k v]] Hr].
  rewrite Hr. exists k, lib, v.
  destruct (find_in_libraries_some _ _ _ _ _ Hr) as (kws & Hin & Hk & Hn).
  split; [reflexivity|]. split; [exact Hn|]. split; [|reflexivity].
  exists kws. split; assumption.
Qed.

Lemma check_keyword_availability_on_index `{PyRuntime} (env : Env)
    (w : World) (idx : KeywordIndex) (q : str) :
  keywords_index (fs w) = Some idx ->
  check_keyword_availability env q w
  = (let result := lookup_keyword idx q None in
     {| av_version := RF_VERSION;
        av_keyword_searched := q;
        av_available := kd_available result;
        av_library :=
          if kd_available result then kd_library result else None;
        av_keyword_actual_name :=
          if kd_available result then kd_keyword result else None;
        av_message :=
          match kd_message result with
          | Some message => message
          | None =>
              "Keyword '" ++ format_id (kd_keyword result)
              ++ "' is available in " ++ format_id (kd_library result)
              ++ " library"
          end |}, w).
Proof.
  intros Hidx. unfold check_keyword_availability. unfold bind at 1.
  rewrite (get_keyword_documentation_on_index env w idx q None Hidx).
  reflexivity.
Qed.

(** X16. With the keyword index in place, the availability check says
    [available] exactly when some stored name normalizes to the same string
    as the query. It then gives the library and the stored name of the
    match and the message that the keyword is available in that library;
    otherwise it gives neither and the message that the keyword was not
    found. The files are unchanged. *)
Theorem availability_iff_name_matches `{PyRuntime} (env : Env) (w : World)
    (idx : KeywordIndex) (q : str) :
  keywords_index (fs w) = Some idx ->
  exists report,
    check_keyword_availability env q w = (report, w)
    /\ av_version report = RF_VERSION
    /\ av_keyword_searched report = q
    /\ (av_available report = true <-> some_match q (ki_libraries idx))
    /\ (av_available report = true ->
        exists lib k,
          av_library report = Some lib
          /\ av_keyword_actual_name report = Some k
          /\ normalize_name k = normalize_name q
          /\ av_message report
             = "Keyword '" ++ k ++ "' is available in " ++ lib ++ " library")
    /\ (av_available report = false ->
        av_library report = None
        /\ av_keyword_actual_name report = None
        /\ av_message report
           = "Keyword '" ++ q
             ++ "' not found in any standard library for RF " ++ RF_VERSION).
Proof.
  intros Hidx.
  rewrite (check_keyword_availability_on_index env w idx q Hidx).
  cbv zeta. rewrite lookup_all_libraries.
  eexists. split; [reflexivity|].
  cbn [av_version av_keyword_searched av_available av_library
       av_keyword_actual_name av_message].
  split; [reflexivity|]. split; [reflexivity|].
  destruct (find_in_libraries (normalize_name q) (ki_libraries idx))
    as [[lib [k v]]|] eqn:E;
    cbn [kd_available kd_library kd_keyword kd_message format_id].
  - destruct (find_in_libraries_some _ _ _ _ _ E) as (kws & Hin & Hk & Hn).
    split; [|split].
    + split; [intros _ | reflexivity].
      exists lib, kws, k. split; [exact Hin|]. split; [|exact Hn].
      apply (in_map fst) in Hk. exact Hk.
    + intros _. exists lib, k. repeat split. exact Hn.
    + discriminate.
  - split; [|split].
    + split; [discriminate|]. intros Hsome.
      destruct (find_in_libraries_complete q _ Hsome) as [r Hr]. congruence.
    + discriminate.
    + intros _. repeat split.
Qed.

(** X17. Two queries that normalize to the same string get the same
    availability, the same library and the same stored name, and the same
    message when the keyword is available. *)
Theorem availability_respects_normalization `{PyRuntime} (env : Env)
    (w : World) (idx : KeywordIndex) (q1 q2 : str) :
  keywords_index (fs w) = Some idx ->
  normalize_name q1 = normalize_name q2 ->
  exists r1 r2,
    check_keyword_availability env q1 w = (r1, w)
    /\ check_keyword_availability env q2 w = (r2, w)
    /\ av_available r1 = av_available r2
    /\ av_library r1 = av_library r2
    /\ av_keyword_actual_name r1 = av_keyword_actual_name r2
    /\ (av_available r1 = true -> av_message r1 = av_message r2).
Proof.
  intros Hidx Hq.
  rewrite !(check_keyword_availability_on_index env w idx _ Hidx).
  cbv zeta. rewrite !lookup_all_libraries, Hq.
  eexists. eexists. split; [reflexivity|]. split; [reflexivity|].
  cbn [av_available av_library av_keyword_actual_name av_message].
  destruct (find_in_libraries (normalize_name q2) (ki_libraries idx))
    as [[lib [k v]]|];
    cbn [kd_available kd_library kd_keyword kd_message format_id];
    repeat split; discriminate.
Qed.

(** X18. When there is no keyword index and the rebuild that the lookup
    runs does not produce one, because the guide cannot be fetched or
    because no library parses, the availability check raises nothing: it
    answers [available] false without library or name, with the message
    for an available keyword filled with [None]. *)
Theorem availability_on_failed_lookup `{PyRuntime} (env : Env) (w : World)
    (q : str) :
  keywords_index (fs w) = None ->
  primary_ok env false (fs w) = false
  \/ parsed_libraries env false (fs w) STANDARD_LIBRARIES = [] ->
  exists w',
    check_keyword_availability env q w
    = ({| av_version := RF_VERSION;
          av_keyword_searched := q;
          av_available := false;
          av_library := None;
          av_keyword_actual_name := None;
          av_message := "Keyword 'None' is available in None library" |},
       w')
    /\ w' = snd (fetch_rf_documentation env false w).
Proof.
  intros Hnone Hfail.
  destruct (fetch_run env false w)
    as (report & w' & Heq & Hsucc & _ & _ & _ & Hkw & _).
  exists w'. rewrite Heq. split; [|reflexivity].
  unfold check_keyword_availability, get_keyword_documentation.
  cbv [bind ret get_fs negb]. rewrite Hnone.
  cbv [bind ret get_fs negb]. rewrite Heq.
  destruct (fr_success report) eqn:Es.
  - destruct Hfail as [Hp|Hp]; [congruence|].
    cbv zeta in Hkw. rewrite Hp, Hnone in Hkw. rewrite Hkw. reflexivity.
  - reflexivity.
Qed.

(** ** Documentation URLs *)

(** X19. Asked for a topic, [get_documentation_url] answers with one entry
    under the topic as it was given: the entry of [urls] when the topic is
    one of its five keys, and the text [Topic not found] otherwise; keys
    are compared exactly. Without a topic, or with the empty string, it
    answers with all of [urls]. *)
Theorem documentation_url_topics (topic : str) :
  topic <> [] ->
  exists entry,
    get_documentation_url (Some topic)
    = {| ur_version := RF_VERSION; ur_urls := [(topic, entry)] |}
    /\ (In topic topics -> Py.dict_get urls topic = Some entry)
    /\ (~ In topic topics -> entry = UrlOf "Topic not found")
    /\ ur_urls (get_documentation_url None) = urls
    /\ ur_urls (get_documentation_url (Some [])) = urls
    /\ Py.dict_keys urls = topics.
Proof.
  intros Hne. destruct topic as [|c topic]; [contradiction|].
  unfold get_documentation_url. cbn [if_given].
  destruct (Py.dict_get urls (c :: topic)) as [entry|] eqn:E.
  - exists entry. split; [reflexivity|].
    split; [reflexivity|]. split; [|repeat split].
    intros Hout. exfalso. apply Hout.
    assert (Hk : In (c :: topic) (Py.dict_keys urls))
      by (apply dict_get_in_keys; exists entry; exact E).
    exact Hk.
  - eexists. split; [reflexivity|].
    split; [|repeat split].
    intros Hin.
    assert (Hk : In (c :: topic) (Py.dict_keys urls)) by exact Hin.
    apply dict_get_in_keys in Hk. destruct Hk as [v Hv]. congruence.
Qed.

(** X20. The URLs that [get_documentation_url] gives are the URLs that a
    rebuild downloads from: the library table has one entry for every
    standard library, in the order of the list, with the URL of its page,
    and a forced rebuild requests the guide URL and then the URLs of the
    table. *)
Theorem advertised_urls_are_fetched `{PyRuntime} (env : Env) (w : World) :
  exists by_library,
    Py.dict_get urls "standard_libraries" = Some (UrlsOf by_library)
    /\ by_library = map (fun n => (n, library_url n)) STANDARD_LIBRARIES
    /\ Py.dict_get urls "builtin_library"
       = Some (UrlOf (library_url "BuiltIn"))
    /\ Py.dict_get urls "user_guide" = Some (UrlOf RF_DOCS_URL)
    /\ requests (snd (fetch_rf_documentation env true w))
       = requests w ++ RF_DOCS_URL :: map snd by_library.
Proof.
  eexists. split; [reflexivity|].
  split; [reflexivity|]. split; [reflexivity|]. split; [reflexivity|].
  rewrite forced_requests. reflexivity.
Qed.

(** ** The extractor *)

Lemma spaces_prefix (s : str) :
  all_space (firstn (Extractor.spaces s) s).
Proof.
  unfold all_space. induction s as [|c s IH]; simpl; [reflexivity|].
  destruct (Py.is_space c) eqn:E; simpl; [|reflexivity].
  rewrite E. exact IH.
Qed.

Lemma spaces_le (s : str) : Extractor.spaces s <= length s.
Proof.
  induction s as [|c s IH]; simpl; [lia|].
  destruct (Py.is_space c); simpl; lia.
Qed.

Lemma spaces_app (ws : str) (c : ascii) (r : str) :
  all_space ws -> Py.is_space c = false ->
  Extractor.spaces (ws ++ c :: r) = length ws.
Proof.
  unfold all_space. induction ws as [|x ws IH]; simpl; intros Hws Hc.
  - rewrite Hc. reflexivity.
  - apply andb_true_iff in Hws. destruct Hws as [Hx Hws].
    rewrite Hx, IH by assumption. reflexivity.
Qed.

Lemma skipn_length_app {A} (a b : list A) : skipn (length a) (a ++ b) = b.
Proof. induction a as [|x a IH]; simpl; [reflexivity | exact IH]. Qed.

Lemma match_libdoc_sound (s : str) (n : nat) :
  Extractor.match_libdoc s = Some n ->
  exists ws1 ws2 rest,
    s = "libdoc" ++ ws1 ++ "=" ++ ws2 ++ "{" ++ rest
    /\ all_space ws1 /\ all_space ws2
    /\ n = 6 + length ws1 + 1 + length ws2 + 1.
Proof.
  unfold Extractor.match_libdoc.
  destruct (Py.startswith "libdoc" s) eqn:Hs; [|discriminate].
  apply startswith_iff in Hs. destruct Hs as [s1 ->].
  change (skipn 6 (lit "libdoc" ++ s1)) with s1.
  pose proof (spaces_prefix s1) as Hw1.
  pose proof (firstn_skipn (Extractor.spaces s1) s1) as Hsplit1.
  destruct (skipn (Extractor.spaces s1) s1) as [|c s2]; [discriminate|].
  destruct (Py.ascii_eqb c "=") eqn:Ec; [|discriminate].
  apply ascii_eqb_eq in Ec. subst c.
  pose proof (spaces_prefix s2) as Hw2.
  pose proof (firstn_skipn (Extractor.spaces s2) s2) as Hsplit2.
  destruct (skipn (Extractor.spaces s2) s2) as [|c' rest]; [discriminate|].
  destruct (Py.ascii_eqb c' "{") eqn:Ec'; [|discriminate].
  apply ascii_eqb_eq in Ec'. subst c'.
  intros Heq. injection Heq as <-.
  exists (firstn (Extractor.spaces s1) s1), (firstn (Extractor.spaces s2) s2),
    rest.
  split; [|split; [exact Hw1 | split; [exact Hw2|]]].
  - rewrite <- Hsplit1 at 1. rewrite <- Hsplit2 at 1. reflexivity.
  - rewrite !length_firstn.
    pose proof (spaces_le s1). pose proof (spaces_le s2). lia.
Qed.

Lemma match_libdoc_complete (ws1 ws2 rest : str) :
  all_space ws1 -> all_space ws2 ->
  Extractor.match_libdoc ("libdoc" ++ ws1 ++ "=" ++ ws2 ++ "{" ++ rest)
  = Some (6 + length ws1 + 1 + length ws2 + 1).
Proof.
  intros H1 H2. unfold Extractor.match_libdoc.
  assert (Hs : Py.startswith "libdoc"
                 ("libdoc" ++ ws1 ++ "=" ++ ws2 ++ "{" ++ rest) = true)
    by (apply startswith_iff; eexists; reflexivity).
  rewrite Hs.
  change (skipn 6 (lit "libdoc" ++ ?x)) with x.
  change (lit "=" ++ ws2 ++ lit "{" ++ rest)
    with ("="%char :: ws2 ++ "{"%char :: rest).
  rewrite (spaces_app ws1 "=" _ H1 eq_refl), skipn_length_app.
  change (Py.ascii_eqb "=" "=") with true. cbv iota.
  rewrite (spaces_app ws2 "{" _ H2 eq_refl), skipn_length_app.
  reflexivity.
Qed.

Lemma search_libdoc_sound (s : str) (i a b : nat) :
  Extractor.search_libdoc s i = Some (a, b) ->
  exists pre m n,
    s = pre ++ m /\ Extractor.match_libdoc m = Some n
    /\ a = i + length pre /\ b = a + n
    /\ forall pre' m', s = pre' ++ m' -> length pre' < length pre ->
                       Extractor.match_libdoc m' = None.
Proof.
  revert i. induction s as [|c s IH]; intros i;
    cbn [Extractor.search_libdoc].
  - change (Extractor.match_libdoc []) with (@None nat). discriminate.
  - destruct (Extractor.match_libdoc (c :: s)) as [n|] eqn:E.
    + intros Heq. injection Heq as <- <-.
      exists [], (c :: s), n.
      split; [reflexivity|]. split; [exact E|].
      split; [simpl; lia|]. split; [simpl; lia|].
      intros pre' m' _ Hlt. simpl in Hlt. lia.
    + intros Hs. destruct (IH _ Hs) as (pre & m & n & -> & Hm & -> & -> & Hl).
      exists (c :: pre), m, n.
      split; [reflexivity|]. split; [exact Hm|].
      split; [simpl; lia|]. split; [simpl; lia|].
      intros pre' m' Heq Hlt. destruct pre' as [|x pre'].
      * simpl in Heq. subst m'. exact E.
      * simpl in Heq. injection Heq as -> Heq.
        apply (Hl pre' m' Heq). simpl in Hlt. lia.
Qed.

Lemma search_libdoc_none (s : str) (i : nat) :
  Extractor.search_libdoc s i = None ->
  forall pre m, s = pre ++ m -> Extractor.match_libdoc m = None.
Proof.
  revert i. induction s as [|c s IH]; intros i;
    cbn [Extractor.search_libdoc].
  - intros _ pre m Heq. symmetry in Heq. apply app_eq_nil in Heq.
    destruct Heq as [_ ->]. reflexivity.
  - destruct (Extractor.match_libdoc (c :: s)) eqn:E; [discriminate|].
    intros Hs pre m Heq. destruct pre as [|x pre].
    + simpl in Heq. subst m. exact E.
    + simpl in Heq. injection Heq as -> Heq. exact (IH _ Hs pre m Heq).
Qed.

Lemma scan_ends_at_brace (s : str) (i : nat) (depth : Z)
    (in_string escape : bool) (k : nat) :
  Extractor.scan s i depth in_string escape = Some k ->
  exists p r, s = p ++ "}"%char :: r /\ k = i + length p + 1.
Proof.
  revert i depth in_string escape.
  induction s as [|c s IH]; intros i depth in_string escape; simpl;
    [discriminate|].
  assert (Hstep : forall d a b,
            Extractor.scan s (S i) d a b = Some k ->
            exists p r, c :: s = p ++ "}"%char :: r /\ k = i + length p + 1).
  { intros d a b Hs. destruct (IH _ _ _ _ Hs) as (p & r & -> & ->).
    exists (c :: p), r. split; [reflexivity | simpl; lia]. }
  destruct escape; [apply Hstep|].
  destruct (Py.ascii_eqb c "\"); [apply Hstep|].
  destruct (Py.ascii_eqb c "034"); [apply Hstep|].
  destruct (negb in_string); [|apply Hstep].
  destruct (Py.ascii_eqb c "{"); [apply Hstep|].
  destruct (Py.ascii_eqb c "}") eqn:Ec; [|apply Hstep].
  destruct (depth - 1 =? 0)%Z; [|apply Hstep].
  intros Heq. injection Heq as <-. apply ascii_eqb_eq in Ec. subst c.
  exists [], s. split; [reflexivity | simpl; lia].
Qed.

Lemma app_length_eq {A} (a b c d : list A) :
  a ++ b = c ++ d -> length a = length c -> a = c /\ b = d.
Proof.
  revert c. induction a as [|x a IH]; intros [|y c]; simpl;
    try discriminate; intros Heq Hlen; [split; [reflexivity | exact Heq]|].
  injection Heq as -> Heq. injection Hlen as Hlen.
  destruct (IH _ Heq Hlen) as [-> ->]. split; reflexivity.
Qed.

(** X21. Whenever the extractor returns a text, the page reads: something,
    [libdoc], white space, an equals sign, white space, the text, something;
    the text starts with an opening and ends with a closing brace; and the
    assignment is the first one on the page that the pattern matches. *)
Theorem extract_is_delimited (html_content libdoc_json : str) :
  Extractor.extract html_content = Extractor.Extracted libdoc_json ->
  exists pre ws1 ws2 body post,
    html_content
    = pre ++ "libdoc" ++ ws1 ++ "=" ++ ws2 ++ libdoc_json ++ post
    /\ all_space ws1 /\ all_space ws2
    /\ libdoc_json = "{" ++ body ++ "}"
    /\ forall pre' m, html_content = pre' ++ m ->
                      length pre' < length pre ->
                      Extractor.match_libdoc m = None.
Proof.
  unfold Extractor.extract.
  destruct (Extractor.search_libdoc html_content 0) as [[a b]|] eqn:Es;
    [|discriminate].
  destruct (search_libdoc_sound _ _ _ _ Es)
    as (pre & m & n & Hsplit & Hm & Ha & Hb & Hleft).
  destruct (match_libdoc_sound _ _ Hm) as (ws1 & ws2 & rest & -> & H1 & H2 & ->).
  set (head := pre ++ "libdoc" ++ ws1 ++ "=" ++ ws2).
  assert (Hhtml : html_content = head ++ "{"%char :: rest).
  { rewrite Hsplit. unfold head. rewrite <- !app_assoc. reflexivity. }
  assert (Hstart : b - 1 = length head).
  { rewrite Hb, Ha. unfold head. rewrite !length_app.
    change (length (lit "libdoc")) with 6. change (length (lit "=")) with 1.
    lia. }
  rewrite Hstart, Hhtml, skipn_length_app.
  destruct (Extractor.scan ("{"%char :: rest) (length head) 0 false false)
    as [e|] eqn:Escan; [|discriminate].
  intros Heq. injection Heq as <-.
  destruct (scan_ends_at_brace _ _ _ _ _ _ Escan) as (p & r & Hp & ->).
  destruct p as [|x p]; [discriminate|].
  simpl in Hp. injection Hp as <- ->.
  exists pre, ws1, ws2, p, r.
  assert (Hsub : Extractor.substring (length head)
                   (length head + length ("{"%char :: p) + 1)
                   (head ++ "{"%char :: p ++ "}"%char :: r)
                 = "{" ++ p ++ "}").
  { unfold Extractor.substring. rewrite skipn_length_app.
    replace (length head + length ("{"%char :: p) + 1 - length head)
      with (length (("{"%char :: p) ++ ["}"%char]))
      by (rewrite length_app; simpl; lia).
    change ("{"%char :: p ++ "}"%char :: r)
      with ("{"%char :: p ++ ["}"%char] ++ r).
    rewrite (app_assoc ("{"%char :: p) ["}"%char] r) at 1.
    change ("{"%char :: p ++ ["}"%char] ++ r)
      with (("{"%char :: p) ++ ["}"%char] ++ r).
    rewrite app_assoc.
    rewrite firstn_app, Nat.sub_diag, firstn_O, app_nil_r, firstn_all.
    reflexivity. }
  rewrite Hsub.
  split; [|split; [exact H1 | split; [exact H2 | split; [reflexivity|]]]].
  - unfold head. rewrite <- !app_assoc. reflexivity.
  - intros pre' m' Heq Hlt. apply (Hleft pre' m'); [|exact Hlt].
    rewrite Hhtml. exact Heq.
Qed.

(** X22. The extractor answers that there is no libdoc exactly when the
    page holds no assignment that the pattern matches; the page then fails
    to parse with the error that libdoc could not be found. *)
Theorem no_libdoc_iff_no_assignment `{PyRuntime}
    (library_name html_content : str) :
  (Extractor.extract html_content = Extractor.NoLibdoc
   <-> ~ has_libdoc html_content)
  /\ (~ has_libdoc html_content ->
      parse_library_page library_name html_content
      = KwFailure LibdocNotFound).
Proof.
  assert (Hnone : ~ has_libdoc html_content ->
                  Extractor.search_libdoc html_content 0 = None).
  { intros Hno.
    destruct (Extractor.search_libdoc html_content 0) as [[a b]|] eqn:Es;
      [|reflexivity].
    exfalso. apply Hno.
    destruct (search_libdoc_sound _ _ _ _ Es)
      as (pre & m & n & Hsplit & Hm & _).
    destruct (match_libdoc_sound _ _ Hm)
      as (ws1 & ws2 & rest & -> & H1 & H2 & _).
    exists pre, ws1, ws2, rest. split; [exact Hsplit | split; assumption]. }
  split; [split|].
  - unfold Extractor.extract. intros Hex (pre & ws1 & ws2 & rest & Hs & H1 & H2).
    destruct (Extractor.search_libdoc html_content 0) as [[a b]|] eqn:Es.
    + destruct (Extractor.scan _ _ _ _ _); discriminate.
    + pose proof (search_libdoc_none _ _ Es pre _ Hs) as Hm.
      rewrite (match_libdoc_complete ws1 ws2 rest H1 H2) in Hm.
      discriminate.
  - intros Hno. unfold Extractor.extract. rewrite (Hnone Hno). reflexivity.
  - intros Hno. unfold parse_library_page, Extractor.extract.
    rewrite (Hnone Hno). reflexivity.
Qed.

(** X23. When the pattern matches and no closing brace follows the brace
    it matched, the scan runs to the end of the page and the page fails to
    parse with the error that the end of the libdoc JSON could not be
    found. *)
Theorem unterminated_object_is_reported `{PyRuntime}
    (library_name html_content : str) (match_start match_end : nat) :
  Extractor.search_libdoc html_content 0 = Some (match_start, match_end) ->
  ~ In "}"%char (skipn (match_end - 1) html_content) ->
  Extractor.extract html_content = Extractor.NoEnd
  /\ parse_library_page library_name html_content
     = KwFailure LibdocUnterminated.
Proof.
  intros Es Hno.
  assert (Hex : Extractor.extract html_content = Extractor.NoEnd).
  { unfold Extractor.extract. rewrite Es.
    destruct (Extractor.scan _ _ _ _ _) as [e|] eqn:Escan; [|reflexivity].
    exfalso. apply Hno.
    destruct (scan_ends_at_brace _ _ _ _ _ _ Escan) as (p & r & -> & _).
    apply in_or_app. right. left. reflexivity. }
  split; [exact Hex|]. unfold parse_library_page. rewrite Hex. reflexivity.
Qed.

(** ** The keyword normalizer *)

Lemma find_char_none (c : ascii) (s : str) :
  Normalizer.find_char c s = None <-> ~ In c s.
Proof.
  induction s as [|x s IH]; simpl; [tauto|].
  destruct (Py.ascii_eqb x c) eqn:E.
  - apply ascii_eqb_eq in E. subst. split; [discriminate|].
    intros Hno. exfalso. apply Hno. left. reflexivity.
  - assert (Hne : x <> c).
    { intros ->. unfold Py.ascii_eqb in E. rewrite Ascii.eqb_refl in E.
      discriminate. }
    destruct (Normalizer.find_char c s) as [j|]; simpl.
    + split; [discriminate|]. intros Hno. exfalso.
      assert (Hs : ~ In c s) by tauto.
      apply IH in Hs. discriminate.
    + split; [|reflexivity]. intros _ [Heq|Hin]; [contradiction|].
      apply (proj1 IH eq_refl). exact Hin.
Qed.

Lemma find_char_app (c : ascii) (body post : str) :
  ~ In c body ->
  Normalizer.find_char c (body ++ c :: post) = Some (length body).
Proof.
  induction body as [|x body IH]; simpl; intros Hno.
  - unfold Py.ascii_eqb. rewrite Ascii.eqb_refl. reflexivity.
  - destruct (Py.ascii_eqb x c) eqn:E.
    + apply ascii_eqb_eq in E. exfalso. apply Hno. left. exact E.
    + rewrite IH by tauto. reflexivity.
Qed.

Lemma strip_tags_from_skip (s : str) (k : nat) :
  Normalizer.strip_tags_from s k = Normalizer.strip_tags_from (skipn k s) 0.
Proof.
  revert k. induction s as [|c s IH]; intros [|k]; try reflexivity.
  simpl. apply IH.
Qed.

Lemma strip_tags_from_in (x : ascii) (s : str) (k : nat) :
  In x (Normalizer.strip_tags_from s k) -> In x s.
Proof.
  revert k. induction s as [|c s IH]; intros k; simpl; [tauto|].
  destruct k as [|k]; [|intros Hin; right; exact (IH _ Hin)].
  destruct (Py.ascii_eqb c "<").
  - destruct (Normalizer.find_char ">" s) as [[|j]|];
      simpl; intros Hin.
    + destruct Hin as [Hx|Hin]; [left; exact Hx | right; exact (IH _ Hin)].
    + right. exact (IH _ Hin).
    + destruct Hin as [Hx|Hin]; [left; exact Hx | right; exact (IH _ Hin)].
  - simpl. intros [Hx|Hin]; [left; exact Hx | right; exact (IH _ Hin)].
Qed.

Lemma strip_tags_from_length (s : str) (k : nat) :
  length (Normalizer.strip_tags_from s k) <= length s.
Proof.
  revert k. induction s as [|c s IH]; intros k; simpl; [lia|].
  destruct k as [|k]; [|specialize (IH k); lia].
  destruct (Py.ascii_eqb c "<").
  - destruct (Normalizer.find_char ">" s) as [[|j]|]; simpl.
    + specialize (IH 0). lia.
    + specialize (IH (S (S j))). lia.
    + specialize (IH 0). lia.
  - simpl. specialize (IH 0). lia.
Qed.

Lemma strip_tags_tag_free (n : nat) (s : str) :
  length s <= n -> tag_free (Normalizer.strip_tags_from s 0).
Proof.
  revert s. induction n as [|n IH]; intros [|c s] Hlen; simpl in *;
    try exact I; try lia.
  assert (Hrest : tag_free (Normalizer.strip_tags_from s 0))
    by (apply IH; lia).
  assert (Hkeep : (c = "<"%char ->
                   Normalizer.find_char ">" s = None
                   \/ Normalizer.find_char ">" s = Some 0) ->
                  tag_free (c :: Normalizer.strip_tags_from s 0)).
  { intros Hc. simpl. split; [|exact Hrest].
    intros Heq. destruct (Hc Heq) as [Hn|Hz].
    - left. apply find_char_none. intros Hin.
      apply strip_tags_from_in in Hin. apply find_char_none in Hn.
      contradiction.
    - right. destruct s as [|x s]; [discriminate|]. simpl in Hz.
      destruct (Py.ascii_eqb x ">") eqn:Ex.
      + apply ascii_eqb_eq in Ex. subst x. reflexivity.
      + destruct (Normalizer.find_char ">" s); discriminate. }
  destruct (Py.ascii_eqb c "<") eqn:Ec.
  - destruct (Normalizer.find_char ">" s) as [[|j]|] eqn:Ef.
    + apply Hkeep. intros _. right. reflexivity.
    + rewrite strip_tags_from_skip. apply IH.
      pose proof (length_skipn (S (S j)) s). lia.
    + apply Hkeep. intros _. left. reflexivity.
  - apply Hkeep. intros ->. discriminate.
Qed.

Lemma tag_free_fixed (s : str) :
  tag_free s -> Normalizer.strip_tags_from s 0 = s.
Proof.
  induction s as [|c s IH]; simpl; [reflexivity|].
  intros [Hc Hs]. destruct (Py.ascii_eqb c "<") eqn:Ec.
  - apply ascii_eqb_eq in Ec.
    destruct (Hc Ec) as [-> | ->]; rewrite IH by exact Hs; reflexivity.
  - rewrite IH by exact Hs. reflexivity.
Qed.

Lemma tag_free_suffix (pre s : str) : tag_free (pre ++ s) -> tag_free s.
Proof.
  induction pre as [|c pre IH]; simpl; [tauto|]. intros [_ Hs]. exact (IH Hs).
Qed.

Lemma no_open_tag_free (s : str) : ~ In "<"%char s -> tag_free s.
Proof.
  induction s as [|c s IH]; simpl; [tauto|]. intros Hno. split.
  - intros ->. exfalso. apply Hno. left. reflexivity.
  - apply IH. tauto.
Qed.

(** X24. The removal of tags leaves no tag: in the result, what stands
    between a [<] and the next [>] is empty. The result is never longer
    than the text, a text without [<] is unchanged, and removing tags a
    second time changes nothing. *)
Theorem strip_tags_leaves_no_tag (doc : str) :
  (forall pre body post,
     Normalizer.strip_tags doc = pre ++ "<"%char :: body ++ ">"%char :: post ->
     ~ In ">"%char body -> body = [])
  /\ length (Normalizer.strip_tags doc) <= length doc
  /\ (~ In "<"%char doc -> Normalizer.strip_tags doc = doc)
  /\ Normalizer.strip_tags (Normalizer.strip_tags doc)
     = Normalizer.strip_tags doc.
Proof.
  unfold Normalizer.strip_tags.
  pose proof (strip_tags_tag_free (length doc) doc (le_n _)) as Hfree.
  split; [|split; [|split]].
  - intros pre body post Heq Hno. rewrite Heq in Hfree.
    apply tag_free_suffix in Hfree. simpl in Hfree.
    destruct Hfree as [Hc _]. specialize (Hc eq_refl).
    rewrite (find_char_app _ _ _ Hno) in Hc.
    destruct Hc as [Hc|Hc]; [discriminate|].
    injection Hc as Hc. apply length_zero_iff_nil. exact Hc.
  - apply strip_tags_from_length.
  - intros Hno. apply tag_free_fixed, no_open_tag_free. exact Hno.
  - apply tag_free_fixed. exact Hfree.
Qed.

Lemma span_without_app (c : ascii) (x r : str) :
  ~ In c x -> Normalizer.span_without c (x ++ c :: r) = length x.
Proof.
  induction x as [|y x IH]; simpl; intros Hno.
  - unfold Py.ascii_eqb. rewrite Ascii.eqb_refl. reflexivity.
  - destruct (Py.ascii_eqb y c) eqn:E.
    + apply ascii_eqb_eq in E. exfalso. apply Hno. left. exact E.
    + rewrite IH by tauto. reflexivity.
Qed.

Lemma unwrap_code_plain (pre s : str) :
  ~ In "`"%char pre ->
  Normalizer.unwrap_code_from (pre ++ s) 0 0 0
  = pre ++ Normalizer.unwrap_code_from s 0 0 0.
Proof.
  induction pre as [|c pre IH]; intros Hno; [reflexivity|].
  simpl app. cbn [Normalizer.unwrap_code_from].
  assert (Hc : Py.ascii_eqb "`" c = false).
  { destruct (Py.ascii_eqb "`" c) eqn:E; [|reflexivity].
    apply ascii_eqb_eq in E. exfalso. apply Hno. left. symmetry. exact E. }
  replace (Py.startswith "``" (c :: pre ++ s)) with false
    by (cbv [lit list_ascii_of_string Py.startswith]; rewrite Hc;
        reflexivity).
  rewrite IH by (intros Hin; apply Hno; right; exact Hin). reflexivity.
Qed.

Lemma unwrap_code_keep (x r : str) (drop2 : nat) :
  Normalizer.unwrap_code_from (x ++ r) 0 (length x) drop2
  = x ++ Normalizer.unwrap_code_from r 0 0 drop2.
Proof.
  induction x as [|c x IH]; [reflexivity|].
  simpl. rewrite IH. reflexivity.
Qed.

(** X25. The unwrapping of inline code: a text without backticks in front
    is kept, and a non-empty run without backticks between two pairs of
    backticks loses the four backticks; the text behind is processed in the
    same way. A text without backticks is unchanged. *)
Theorem unwrap_code_unwraps (pre x post : str) :
  ~ In "`"%char pre -> x <> [] -> ~ In "`"%char x ->
  Normalizer.unwrap_code (pre ++ "``" ++ x ++ "``" ++ post)
  = pre ++ x ++ Normalizer.unwrap_code post
  /\ Normalizer.unwrap_code pre = pre.
Proof.
  intros Hpre Hx Hnox. unfold Normalizer.unwrap_code. split.
  - rewrite (unwrap_code_plain pre _ Hpre). f_equal.
    change (lit "``" ++ x ++ lit "``" ++ post)
      with ("`"%char :: "`"%char :: x ++ "`"%char :: "`"%char :: post).
    cbn [Normalizer.unwrap_code_from].
    replace (Py.startswith "``"
               ("`"%char :: "`"%char :: x ++ "`"%char :: "`"%char :: post))
      with true by reflexivity.
    change (skipn 1 ("`"%char :: x ++ "`"%char :: "`"%char :: post))
      with (x ++ "`"%char :: "`"%char :: post).
    rewrite (span_without_app _ _ _ Hnox).
    change (skipn (1 + length x)
              ("`"%char :: x ++ "`"%char :: "`"%char :: post))
      with (skipn (length x) (x ++ "`"%char :: "`"%char :: post)).
    rewrite skipn_length_app.
    replace (Py.startswith "``" ("`"%char :: "`"%char :: post))
      with true by reflexivity.
    destruct x as [|c x]; [contradiction|].
    replace (0 <? length (c :: x)) with true by reflexivity.
    cbn [andb].
    cbn [Normalizer.unwrap_code_from].
    rewrite (unwrap_code_keep (c :: x)). reflexivity.
  - rewrite <- (app_nil_r pre) at 1.
    rewrite (unwrap_code_plain pre [] Hpre). apply app_nil_r.
Qed.

Lemma replace_without (old : ascii) (new s : str) :
  ~ In old new -> ~ In old (Py.replace old new s).
Proof.
  intros Hnew Hin. unfold Py.replace in Hin. apply in_flat_map in Hin.
  destruct Hin as (c & _ & Hc).
  destruct (Py.ascii_eqb c old) eqn:E; [contradiction|].
  destruct Hc as [->|[]]. unfold Py.ascii_eqb in E.
  rewrite Ascii.eqb_refl in E. discriminate.
Qed.

Lemma replace_absent (old : ascii) (new s : str) :
  ~ In old s -> Py.replace old new s = s.
Proof.
  induction s as [|c s IH]; intros Hno; [reflexivity|].
  unfold Py.replace in *. simpl.
  destruct (Py.ascii_eqb c old) eqn:E.
  - apply ascii_eqb_eq in E. exfalso. apply Hno. left. exact E.
  - simpl. rewrite IH by (intros Hin; apply Hno; right; exact Hin).
    reflexivity.
Qed.

(** X26. Whatever the input record is, a record that the normalizer stores
    is stored under the name of the input, which is a non-empty string; it
    carries that name and the library, and its id is the name with [%20]
    for every space: it holds no space, and is the name itself when the
    name has none. *)
Theorem stored_record_fields (library_name : str) (kw_data : json)
    (name : str) (record : KeywordRecord) :
  Normalizer.normalize_one library_name kw_data
  = Normalizer.Store name record ->
  py_get kw_data "name" (JStr []) = Some (JStr name)
  /\ name <> []
  /\ kw_name record = name
  /\ kw_library record = library_name
  /\ ~ In " "%char (kw_id record)
  /\ (~ In " "%char name -> kw_id record = name).
Proof.
  unfold Normalizer.normalize_one.
  destruct (py_get kw_data "name" (JStr [])) as [nm|]; [|discriminate].
  destruct (negb (truthy nm)) eqn:Et; [discriminate|].
  destruct (py_get kw_data "args" (JList [])) as [args|]; [|discriminate].
  destruct (py_iter args) as [arg_list|]; [|discriminate].
  destruct (Normalizer.args_parts arg_list) as [parts|]; [|discriminate].
  destruct (Normalizer.strs_of parts) as [reprs|]; [|discriminate].
  destruct (py_get kw_data "shortdoc" (JStr [])) as [[| | | |sd| |]|];
    try discriminate.
  destruct nm as [| | | |n| |]; try discriminate.
  destruct (py_get kw_data "source" (JStr [])) as [source|];
    [|discriminate].
  destruct (py_get kw_data "lineno" (JStr [])) as [lineno|];
    [|discriminate].
  intros Heq. injection Heq as <- <-.
  cbn [kw_name kw_library kw_id].
  split; [reflexivity|]. split; [|split; [reflexivity|split;
    [reflexivity|split]]].
  - intros ->. discriminate.
  - apply replace_without. intros Hin.
    repeat (destruct Hin as [Hin|Hin]; [discriminate|]). exact Hin.
  - apply replace_absent.
Qed.

Lemma normalize_loop_raise (library_name : str) (records : list json)
    (bad : json) :
  In bad records ->
  Normalizer.normalize_one library_name bad = Normalizer.Raise ->
  forall keywords,
    Normalizer.normalize_loop library_name records keywords = None.
Proof.
  intros Hin Hbad. induction records as [|r records IH]; [contradiction|].
  intros keywords. simpl.
  destruct Hin as [->|Hin]; [rewrite Hbad; reflexivity|].
  destruct (Normalizer.normalize_one library_name r);
    [apply IH; exact Hin | reflexivity | apply IH; exact Hin].
Qed.

(** X27. One record on which the normalizer raises fails the whole
    library: when the decoded libdoc object lists such a record among its
    keywords, wherever it stands, the page fails to parse with a parsing
    error and no keyword of the page is returned. *)
Theorem malformed_record_fails_library `{PyRuntime}
    (library_name html_content libdoc_json : str) (libdoc_data : json)
    (records : list json) (bad : json) :
  Extractor.extract html_content = Extractor.Extracted libdoc_json ->
  json_loads libdoc_json = inl libdoc_data ->
  py_get libdoc_data "keywords" (JList []) = Some (JList records) ->
  In bad records ->
  Normalizer.normalize_one library_name bad = Normalizer.Raise ->
  parse_library_page library_name html_content = KwFailure ParsingError
  /\ kr_keywords (parse_library_page library_name html_content) = []
  /\ kr_success (parse_library_page library_name html_content) = false.
Proof.
  intros Hex Hload Hkws Hin Hbad.
  assert (Hparse : parse_library_page library_name html_content
                   = KwFailure ParsingError).
  { unfold parse_library_page. rewrite Hex, Hload.
    unfold Normalizer.normalize. rewrite Hkws. cbn [py_iter].
    rewrite (normalize_loop_raise _ _ _ Hin Hbad). reflexivity. }
  rewrite Hparse. repeat split.
Qed.

(** ** The section parser *)

Lemma sections_of_chunks (events : list html_event) :
  get_sections (feed init events) = map section_of (snd (chunks_of events))
  /\ Forall chunk_ok (snd (chunks_of events)).
Proof.
  destruct (chunks_of_spec events) as (Hsplit & Hpre & Hok).
  split; [|exact Hok].
  rewrite Hsplit at 1. rewrite feed_app.
  rewrite (feed_before_first_heading _ Hpre).
  unfold get_sections. rewrite (close_after_chunks _ init Hok).
  reflexivity.
Qed.

Lemma strip_idem (d : str) : Py.strip (Py.strip d) = Py.strip d.
Proof. apply strip_id; [apply strip_starts_ok | apply strip_ends_ok]. Qed.

Lemma texts_stripped (events : list html_event) :
  Forall (fun t => Py.strip t = t) (texts events).
Proof.
  unfold texts. apply Forall_forall. intros t Ht.
  apply in_flat_map in Ht. destruct Ht as (e & _ & He).
  destruct e as [tag attrs|tag|d]; simpl in He; try contradiction.
  destruct He as [<-|[]]. apply strip_idem.
Qed.

Lemma last_stripped (l : list str) :
  Forall (fun t => Py.strip t = t) l -> Py.strip (last l []) = last l [].
Proof.
  induction l as [|x l IH]; intros Hl; [reflexivity|].
  inversion Hl as [|x' l' Hx Hl']; subst.
  destruct l as [|y l]; [exact Hx|].
  change (last (x :: y :: l) []) with (last (y :: l) []).
  apply IH. exact Hl'.
Qed.

Lemma heading_level_range (tag : str) (lvl : nat) :
  heading_level tag = Some lvl -> 1 <= lvl <= 4.
Proof.
  unfold heading_level.
  destruct (Py.str_eqb tag "h1"); [intros Heq; injection Heq as <-; lia|].
  destruct (Py.str_eqb tag "h2"); [intros Heq; injection Heq as <-; lia|].
  destruct (Py.str_eqb tag "h3"); [intros Heq; injection Heq as <-; lia|].
  destruct (Py.str_eqb tag "h4"); [intros Heq; injection Heq as <-; lia|].
  discriminate.
Qed.

(** X28. Every section that the parser returns has a level from 1 to 4,
    and neither its title nor its content starts or ends with white
    space. *)
Theorem sections_are_trimmed (events : list html_event) :
  Forall (fun s => 1 <= sec_level s <= 4
                   /\ Py.strip (sec_title s) = sec_title s
                   /\ Py.strip (sec_content s) = sec_content s)
    (get_sections (feed init events)).
Proof.
  destruct (sections_of_chunks events) as [-> Hok].
  apply Forall_map. eapply Forall_impl; [|exact Hok].
  intros c [Hstart _]. unfold section_of.
  cbn [sec_level sec_title sec_content].
  split; [|split].
  - unfold is_heading_start in Hstart.
    destruct (level_of (ch_tag c)) as [lvl|] eqn:E; [|discriminate].
    rewrite <- heading_level_spec in E. exact (heading_level_range _ _ E).
  - apply last_stripped, texts_stripped.
  - apply strip_join_texts, texts_trimmed.
Qed.

Lemma handle_other (p : t) (e : html_event) :
  structural e = false -> handle p e = p.
Proof.
  destruct e as [tag attrs|tag|d]; simpl; intros He.
  - unfold handle_starttag. rewrite heading_level_spec.
    apply orb_false_iff in He. destruct He as [He _].
    destruct (level_of tag); [discriminate | reflexivity].
  - unfold handle_endtag. rewrite heading_level_spec.
    destruct (level_of tag); [discriminate | reflexivity].
  - discriminate.
Qed.

Lemma feed_structural (events : list html_event) (p : t) :
  feed p events = feed p (filter structural events).
Proof.
  revert p. unfold feed.
  induction events as [|e events IH]; intros p; [reflexivity|].
  simpl. destruct (structural e) eqn:He.
  - simpl. apply IH.
  - rewrite (handle_other p e He). apply IH.
Qed.

(** X29. The parser reacts to text and to the start and end tags of the
    headings h1 to h4 only. Every other tag, h5 and h6 among them, can be
    removed from the document without changing the sections; a start tag
    of h1 to h4 cannot: alone it makes a section of its level, in any
    document it adds one section, and a text behind it is the title. *)
Theorem other_markup_is_ignored (events : list html_event) :
  get_sections (feed init events)
  = get_sections (feed init (filter structural events))
  /\ (forall tag, structural (StartTag tag []) = true
                  <-> In tag [lit "h1"; lit "h2"; lit "h3"; lit "h4"])
  /\ structural (StartTag "h5" []) = false
  /\ structural (StartTag "h6" []) = false
  /\ (forall tag lvl attrs title,
        In (tag, lvl) headings ->
        length (get_sections (feed init (events ++ [StartTag tag attrs])))
        = S (length (get_sections (feed init events)))
        /\ get_sections (feed init [StartTag tag attrs; Data title])
           = [ {| sec_id := match Py.dict_get (attrs_dict attrs) "id" with
                            | Some v => v
                            | None => Some []
                            end;
                  sec_level := lvl;
                  sec_title := Py.strip title;
                  sec_content := [] |} ]).
Proof.
  split; [f_equal; apply feed_structural|].
  split; [|split; [reflexivity|split; [reflexivity|]]].
  - intros tag. unfold structural, is_heading_start, is_heading_end.
    rewrite orb_false_r. unfold level_of, headings. cbn [Py.dict_get].
    split.
    + destruct (Py.str_eqb "h1" tag) eqn:E1;
        [apply str_eqb_eq in E1; subst; intros _; simpl; tauto|].
      destruct (Py.str_eqb "h2" tag) eqn:E2;
        [apply str_eqb_eq in E2; subst; intros _; simpl; tauto|].
      destruct (Py.str_eqb "h3" tag) eqn:E3;
        [apply str_eqb_eq in E3; subst; intros _; simpl; tauto|].
      destruct (Py.str_eqb "h4" tag) eqn:E4;
        [apply str_eqb_eq in E4; subst; intros _; simpl; tauto|].
      discriminate.
    + intros [<-|[<-|[<-|[<-|[]]]]]; reflexivity.
  - intros tag lvl attrs title Hin.
    assert (Hlvl : heading_level tag = Some lvl).
    { rewrite heading_level_spec.
      destruct Hin as [Heq|[Heq|[Heq|[Heq|[]]]]];
        injection Heq as <- <-; reflexivity. }
    split.
    + rewrite feed_app. cbn [feed fold_left handle].
      unfold get_sections, handle_starttag. rewrite Hlvl.
      unfold close_section at 1. cbn [current_section sections].
      rewrite length_app. cbn [length]. lia.
    + cbn [feed fold_left handle]. unfold handle_starttag. rewrite Hlvl.
      reflexivity.
Qed.

(** ** Instances of the further properties *)

Section FurtherExamples.

Import Reference Example Scenario.

Lemma search_hit_iff_query_occurs_witness :
  exists ranked,
    search_rf_documentation "Library" 5 cached_world
    = (SearchOK RF_VERSION "Library" (length ranked)
         (Py.slice_to 5 ranked), cached_world)
    /\ forall s, In s (si_sections (index_of cached_world)) ->
         (In (hit_of (Py.lower "Library") s) ranked
          <-> occurs (Py.lower "Library") (Py.lower (sec_title s))
              \/ occurs (Py.lower "Library") (Py.lower (sec_content s))).
Proof.
  apply (search_hit_iff_query_occurs cached_world (index_of cached_world)
           "Library" 5).
  vm_compute; reflexivity.
Defined.

Lemma search_ignores_query_case_witness :
  exists total results,
    search_rf_documentation "Library" 5 cached_world
    = (SearchOK RF_VERSION "Library" total results, cached_world)
    /\ search_rf_documentation "LIBRARY" 5 cached_world
       = (SearchOK RF_VERSION "LIBRARY" total results, cached_world)
    /\ search_rf_documentation (Py.lower "Library") 5 cached_world
       = (SearchOK RF_VERSION (Py.lower "Library") total results,
          cached_world).
Proof.
  apply (search_ignores_query_case cached_world (index_of cached_world)
           "Library" "LIBRARY" 5).
  - vm_compute; reflexivity.
  - vm_compute; reflexivity.
Defined.

Lemma search_result_sizes_witness :
  exists total results,
    search_rf_documentation "library" (-1) cached_world
    = (SearchOK RF_VERSION "library" total results, cached_world)
    /\ total <= length (si_sections (index_of cached_world))
    /\ length results <= total
    /\ ((0 <= -1)%Z -> length results = Nat.min (Z.to_nat (-1)) total)
    /\ ((-1 < 0)%Z -> length results = total - Z.to_nat (- -1)).
Proof.
  apply (search_result_sizes cached_world (index_of cached_world)
           "library" (-1)).
  vm_compute; reflexivity.
Defined.

Lemma search_hits_describe_sections_witness :
  exists total results,
    search_rf_documentation "import" 10 cached_world
    = (SearchOK RF_VERSION "import" total results, cached_world)
    /\ Forall (fun h => 1 <= hit_relevance h
                        /\ length (hit_content_preview h) <= 303)
         results.
Proof.
  destruct (search_hits_describe_sections cached_world
              (index_of cached_world) "import" 10)
    as (total & results & Heq & Hall).
  - vm_compute; reflexivity.
  - exists total, results. split; [exact Heq|].
    eapply Forall_impl; [|exact Hall].
    intros h (s & _ & _ & _ & _ & _ & Hrel & Hlen & _).
    split; assumption.
Defined.

Lemma rebuild_success_and_section_index_witness :
  exists report w',
    fetch_rf_documentation env_broken_guide false empty_world = (report, w')
    /\ fr_success report = true
    /\ docs_file (fs w') = Some broken_guide
    /\ sections_of_page broken_guide = None
    /\ index_file (fs w') = None
    /\ search_rf_documentation "x" 10 w' = (SearchIndexMissing, w').
Proof.
  destruct (rebuild_success_and_section_index env_broken_guide false
              empty_world "x" 10)
    as (report & w' & Heq & Hs).
  assert (Hok : fr_success report = true).
  { change report with (fst (report, w')). rewrite <- Heq.
    vm_compute; reflexivity. }
  assert (Hdocs : docs_file (fs w') = Some broken_guide).
  { change w' with (snd (report, w')). rewrite <- Heq.
    vm_compute; reflexivity. }
  assert (Hnone : sections_of_page broken_guide = None)
    by (vm_compute; reflexivity).
  destruct (Hs Hok) as (page & Hpage & _ & Hfail).
  assert (page = broken_guide) by congruence. subst page.
  destruct (Hfail Hnone) as (Hidx & _ & Hsearch).
  exists report, w'. split; [exact Heq|]. split; [exact Hok|].
  split; [exact Hdocs|]. split; [exact Hnone|].
  split; [rewrite Hidx; reflexivity|]. apply Hsearch. reflexivity.
Defined.

Lemma failed_refresh_keeps_cached_page_witness :
  exists report w',
    fetch_rf_documentation (env_with [lit "Telnet"] (library_page "BuiltIn"))
      true cached_world = (report, w')
    /\ read_slot (fs w') (LibrarySlot "Telnet") = Some (library_page "Telnet")
    /\ Py.dict_get (fr_libraries report) "Telnet"
       = Some (report_of (parse_library_page "Telnet" (library_page "Telnet"))).
Proof.
  destruct (failed_refresh_keeps_cached_page
              (env_with [lit "Telnet"] (library_page "BuiltIn"))
              cached_world "Telnet" (library_page "Telnet"))
    as (report & w' & Heq & _ & Hread & Hrep & _).
  - apply str_in_iff. vm_compute; reflexivity.
  - vm_compute; reflexivity.
  - intros content. vm_compute. discriminate.
  - exists report, w'. split; [exact Heq|]. split; assumption.
Defined.

Lemma listing_reports_guide_failure_witness :
  exists w',
    get_library_keywords env_guide_down "BuiltIn" None empty_world
    = (LkFetchFailed "BuiltIn", w')
    /\ read_slot (fs w') (LibrarySlot "BuiltIn")
       = Some (library_page "BuiltIn").
Proof.
  destruct (listing_reports_guide_failure env_guide_down empty_world
              "BuiltIn" (library_page "BuiltIn") None)
    as (w' & Heq & Hread & _).
  - apply str_in_iff. vm_compute; reflexivity.
  - vm_compute; reflexivity.
  - vm_compute; reflexivity.
  - vm_compute; reflexivity.
  - exists w'. split; assumption.
Defined.

Lemma library_listing_sorted_witness :
  exists listing,
    get_library_keywords env_up "BuiltIn" (Some (lit "log")) cached_world
    = (LkOK RF_VERSION "BuiltIn" (length listing) listing, cached_world)
    /\ Permutation (map ks_name listing)
         (filter search_log (Py.dict_keys (page_keywords "BuiltIn")))
    /\ StronglySorted (fun a b => str_le (ks_name a) (ks_name b)) listing.
Proof.
  destruct (library_listing_sorted env_up cached_world "BuiltIn"
              (library_page "BuiltIn") "BuiltIn" (page_keywords "BuiltIn") 2
              (Some (lit "log")))
    as [_ Hok].
  - apply str_in_iff. vm_compute; reflexivity.
  - vm_compute; reflexivity.
  - vm_compute; reflexivity.
  - destruct (Hok search_log eq_refl) as (listing & Heq & Hperm & Hs & _).
    exists listing. split; [exact Heq|]. split; assumption.
Defined.

Lemma unknown_library_rejected_witness :
  get_library_keywords env_up "builtin" None cached_world
  = (LkUnknownLibrary "builtin" STANDARD_LIBRARIES, cached_world).
Proof.
  apply (unknown_library_rejected env_up cached_world "builtin" None).
  intros Hin. apply str_in_iff in Hin. vm_compute in Hin. discriminate.
Defined.

Lemma all_keywords_lists_every_library_witness :
  get_all_keywords env_up None cached_world
  = (AkOK RF_VERSION
       (list_sum (map (fun lib => length (snd lib))
                    (ki_libraries (keywords_of cached_world))))
       (length (ki_libraries (keywords_of cached_world)))
       (map listed (ki_libraries (keywords_of cached_world))), cached_world).
Proof.
  apply (all_keywords_lists_every_library env_up cached_world
           (keywords_of cached_world) None).
  - vm_compute; reflexivity.
  - replace (Py.dict_keys (ki_libraries (keywords_of cached_world)))
      with STANDARD_LIBRARIES by (vm_compute; reflexivity).
    apply standard_libraries_nodup.
  - reflexivity.
Defined.

Lemma filtered_listing_drops_empty_libraries_witness :
  exists total libraries,
    get_all_keywords env_up (Some (lit "log")) cached_world
    = (AkOK RF_VERSION total (length libraries) libraries, cached_world)
    /\ total = list_sum (map (fun e => length (snd e)) libraries)
    /\ Forall (fun e => snd e <> []) libraries.
Proof.
  destruct (filtered_listing_drops_empty_libraries env_up cached_world
              (keywords_of cached_world) (Some (lit "log")) "log" search_log)
    as (total & libraries & Heq & Htotal & Hne & _).
  - vm_compute; reflexivity.
  - replace (Py.dict_keys (ki_libraries (keywords_of cached_world)))
      with STANDARD_LIBRARIES by (vm_compute; reflexivity).
    apply standard_libraries_nodup.
  - reflexivity.
  - reflexivity.
  - exists total, libraries. split; [exact Heq|]. split; assumption.
Defined.

Lemma indexed_keyword_is_found_witness :
  exists k lib v,
    get_keyword_documentation env_up "run_keyword" None cached_world
    = (KdFound RF_VERSION k lib (kw_args v) (kw_doc v)
         ((RF_BASE_LIB_URL ++ "/" ++ lib ++ ".html") ++ "#" ++ kw_id v),
       cached_world)
    /\ normalize_name k = normalize_name "run_keyword".
Proof.
  destruct (indexed_keyword_is_found env_up cached_world
              (keywords_of cached_world) "run_keyword")
    as (k & lib & v & Heq & Hn & _).
  - vm_compute; reflexivity.
  - exists (lit "BuiltIn"), (page_keywords "BuiltIn"), (lit "Run Keyword").
    split; [vm_compute; left; reflexivity|].
    split; [vm_compute; left; reflexivity | vm_compute; reflexivity].
  - exists k, lib, v. split; assumption.
Defined.

Lemma availability_iff_name_matches_witness :
  exists report,
    check_keyword_availability env_up "Run-Keyword" cached_world
    = (report, cached_world)
    /\ (av_available report = true
        <-> some_match "Run-Keyword"
              (ki_libraries (keywords_of cached_world))).
Proof.
  destruct (availability_iff_name_matches env_up cached_world
              (keywords_of cached_world) "Run-Keyword")
    as (report & Heq & _ & _ & Hiff & _).
  - vm_compute; reflexivity.
  - exists report. split; assumption.
Defined.

Lemma availability_respects_normalization_witness :
  exists r1 r2,
    check_keyword_availability env_up "run_keyword" cached_world
    = (r1, cached_world)
    /\ check_keyword_availability env_up "Run-Keyword" cached_world
       = (r2, cached_world)
    /\ av_available r1 = av_available r2
    /\ av_library r1 = av_library r2
    /\ av_keyword_actual_name r1 = av_keyword_actual_name r2
    /\ (av_available r1 = true -> av_message r1 = av_message r2).
Proof.
  apply (availability_respects_normalization env_up cached_world
           (keywords_of cached_world) "run_keyword" "Run-Keyword").
  - vm_compute; reflexivity.
  - vm_compute; reflexivity.
Defined.

Lemma availability_on_failed_lookup_witness :
  exists w',
    check_keyword_availability env_offline "Log" empty_world
    = ({| av_version := RF_VERSION;
          av_keyword_searched := "Log";
          av_available := false;
          av_library := None;
          av_keyword_actual_name := None;
          av_message := "Keyword 'None' is available in None library" |},
       w')
    /\ w' = snd (fetch_rf_documentation env_offline false empty_world).
Proof.
  apply (availability_on_failed_lookup env_offline empty_world "Log").
  - reflexivity.
  - left. vm_compute; reflexivity.
Defined.

Lemma documentation_url_topics_witness :
  get_documentation_url (Some (lit "builtin"))
  = {| ur_version := RF_VERSION;
       ur_urls := [(lit "builtin", UrlOf "Topic not found")] |}.
Proof.
  destruct (documentation_url_topics "builtin")
    as (entry & Heq & _ & Hnot & _).
  - intros Hnil. vm_compute in Hnil. discriminate.
  - rewrite Heq. rewrite Hnot; [reflexivity|].
    intros Hin. apply str_in_iff in Hin. vm_compute in Hin. discriminate.
Defined.

Lemma extract_is_delimited_witness :
  exists pre ws1 ws2 body post,
    small_page = pre ++ "libdoc" ++ ws1 ++ "=" ++ ws2 ++ small_object ++ post
    /\ small_object = "{" ++ body ++ "}".
Proof.
  destruct (extract_is_delimited small_page small_object)
    as (pre & ws1 & ws2 & body & post & Hpage & _ & _ & Hobj & _).
  - vm_compute; reflexivity.
  - exists pre, ws1, ws2, body, post. split; assumption.
Defined.

Lemma unterminated_object_is_reported_witness :
  Extractor.extract cut_page = Extractor.NoEnd
  /\ parse_library_page "BuiltIn" cut_page = KwFailure LibdocUnterminated.
Proof.
  apply (unterminated_object_is_reported "BuiltIn" cut_page 8 18).
  - vm_compute; reflexivity.
  - apply find_char_none. vm_compute; reflexivity.
Defined.

Lemma unwrap_code_unwraps_witness :
  Normalizer.unwrap_code ("Runs " ++ "``" ++ "given" ++ "``" ++ " keyword")
  = "Runs " ++ "given" ++ Normalizer.unwrap_code " keyword"
  /\ Normalizer.unwrap_code "Runs " = "Runs ".
Proof.
  apply (unwrap_code_unwraps "Runs " "given" " keyword").
  - apply find_char_none. vm_compute; reflexivity.
  - intros Hnil. vm_compute in Hnil. discriminate.
  - apply find_char_none. vm_compute; reflexivity.
Defined.

Lemma stored_record_fields_witness :
  exists record,
    Normalizer.normalize_one "BuiltIn"
      (JDict [(lit "name", JStr "Run Keyword")])
    = Normalizer.Store "Run Keyword" record
    /\ kw_library record = lit "BuiltIn"
    /\ ~ In " "%char (kw_id record).
Proof.
  pose (record := {| kw_name := lit "Run Keyword";
                     kw_id := lit "Run%20Keyword";
                     kw_args := []; kw_doc := [];
                     kw_library := lit "BuiltIn";
                     kw_source := JStr []; kw_lineno := JStr [] |}).
  assert (Hstore : Normalizer.normalize_one "BuiltIn"
                     (JDict [(lit "name", JStr "Run Keyword")])
                   = Normalizer.Store "Run Keyword" record)
    by (vm_compute; reflexivity).
  destruct (stored_record_fields "BuiltIn"
              (JDict [(lit "name", JStr "Run Keyword")]) "Run Keyword"
              record Hstore)
    as (_ & _ & _ & Hlib & Hid & _).
  exists record. split; [exact Hstore|]. split; assumption.
Defined.

Lemma malformed_record_fails_library_witness :
  parse_library_page "BuiltIn" malformed_page = KwFailure ParsingError
  /\ kr_keywords (parse_library_page "BuiltIn" malformed_page) = []
  /\ kr_success (parse_library_page "BuiltIn" malformed_page) = false.
Proof.
  apply (malformed_record_fails_library "BuiltIn" malformed_page
           malformed_object
           (JDict [(lit "keywords", JList malformed_records)])
           malformed_records (JDict [(lit "name", JInt 5)])).
  - vm_compute; reflexivity.
  - vm_compute; reflexivity.
  - vm_compute; reflexivity.
  - right. left. reflexivity.
  - vm_compute; reflexivity.
Defined.

End FurtherExamples.
